(** * Audit agents: reasoning loop, approval gates, task ledger, model gateway

    A shallow embedding of the agent engine of the audit-agents repository
    and the properties its specification states about it.

    Sources embedded here:
    - [src/agents/audit_agent.py]  (module [Agent]): goal life cycle, [reason],
      [act], tool dispatch, [run_autonomously];
    - [src/agents/audit_team.py]   (module [Team]): the manager's review calls
      and the senior/staff guards;
    - [src/agents/tools.py]        (module [Ledger]): [TaskManagementTool];
    - [src/agents/llm_client.py]   (module [LLM]): cost tracker and providers.

    Python strings are modelled as Rocq strings of ASCII characters, on which
    the string primitives below follow the interpreter.  Mutable objects
    become explicit state that every operation returns next to its result; a
    raised exception is the [Raise] outcome. *)

From Stdlib Require Import ZArith QArith Lia Ascii String.
From stdpp Require Import base option list strings gmap pretty.

#[local] Set Warnings "-register-all".

Local Open Scope string_scope.
Local Open Scope list_scope.
Local Open Scope Z_scope.

(** ** Outcomes of fallible calls *)

(** A Python call either returns a value or raises; [Raise] carries the
    exception class name and [str(e)]. *)
Inductive outcome (A : Type) : Type :=
| Return (a : A)
| Raise (cls : string) (msg : string).
Arguments Return {A} a.
Arguments Raise {A} cls msg.

Definition is_return {A} (o : outcome A) : bool :=
  match o with Return _ => true | Raise _ _ => false end.

Definition is_raise {A} (o : outcome A) : bool := negb (is_return o).

(** ** Python string primitives *)

Module PyStr.

Definition code (c : ascii) : Z := Z.of_nat (nat_of_ascii c).

Definition newline : ascii := ascii_of_nat 10.
Definition nl : string := String newline EmptyString.

(** [str.isspace] on one character: tab to carriage return, the four
    separators 28 to 31, and the blank. *)
Definition isspace (c : ascii) : bool :=
  let n := code c in
  ((9 <=? n) && (n <=? 13)) || ((28 <=? n) && (n <=? 32)).

Definition is_lower_letter (c : ascii) : bool :=
  let n := code c in (97 <=? n) && (n <=? 122).

Definition is_upper_letter (c : ascii) : bool :=
  let n := code c in (65 <=? n) && (n <=? 90).

(** [str.lower] and [str.upper] on one character *)
Definition lower_char (c : ascii) : ascii :=
  if is_upper_letter c then ascii_of_nat (Z.to_nat (code c + 32)) else c.

Definition upper_char (c : ascii) : ascii :=
  if is_lower_letter c then ascii_of_nat (Z.to_nat (code c - 32)) else c.

Fixpoint lower (s : string) : string :=
  match s with
  | EmptyString => EmptyString
  | String c s' => String (lower_char c) (lower s')
  end.

Fixpoint lstrip (s : string) : string :=
  match s with
  | EmptyString => EmptyString
  | String c s' => if isspace c then lstrip s' else s
  end.

(** [rstrip] keeps a character when anything after it survives. *)
Fixpoint rstrip (s : string) : string :=
  match s with
  | EmptyString => EmptyString
  | String c s' =>
      match rstrip s' with
      | EmptyString => if isspace c then EmptyString else String c EmptyString
      | r => String c r
      end
  end.

(** [s.strip()] *)
Definition strip (s : string) : string := rstrip (lstrip s).

Definition len (s : string) : Z := Z.of_nat (String.length s).

(** [s.startswith(p)] *)
Fixpoint startswith (p s : string) : bool :=
  match p, s with
  | EmptyString, _ => true
  | String a p', String b s' => if Ascii.eqb a b then startswith p' s' else false
  | String _ _, EmptyString => false
  end.

Fixpoint drop (n : nat) (s : string) : string :=
  match n, s with
  | O, _ => s
  | S n', String _ s' => drop n' s'
  | S _, EmptyString => EmptyString
  end.

Fixpoint take (n : nat) (s : string) : string :=
  match n, s with
  | O, _ => EmptyString
  | S n', String c s' => String c (take n' s')
  | S _, EmptyString => EmptyString
  end.

(** Offset of the first occurrence of [sub] in [s]. *)
Fixpoint find0 (sub s : string) : option nat :=
  if startswith sub s then Some O
  else match s with
       | EmptyString => None
       | String _ s' => option_map S (find0 sub s')
       end.

(** Offset of the last occurrence of [sub] in [s]. *)
Fixpoint rfind0 (sub s : string) : option nat :=
  match s with
  | EmptyString => if startswith sub s then Some O else None
  | String _ s' =>
      match rfind0 sub s' with
      | Some k => Some (S k)
      | None => if startswith sub s then Some O else None
      end
  end.

(** [s.find(sub, start)] for [0 <= start]; [-1] when absent. *)
Definition find (s sub : string) (start : Z) : Z :=
  if start >? len s then -1
  else match find0 sub (drop (Z.to_nat start) s) with
       | Some k => start + Z.of_nat k
       | None => -1
       end.

(** [s.rfind(sub)] *)
Definition rfind (s sub : string) : Z :=
  match rfind0 sub s with
  | Some k => Z.of_nat k
  | None => -1
  end.

(** [sub in s] *)
Definition contains (sub s : string) : bool :=
  match find0 sub s with Some _ => true | None => false end.

(** Python normalises a slice bound: negative bounds count from the end,
    and the result is clamped to [0, len]. *)
Definition clamp (n : Z) (i : Z) : Z :=
  let j := if i <? 0 then i + n else i in
  Z.max 0 (Z.min n j).

(** [s[a:b]] *)
Definition slice (s : string) (a b : Z) : string :=
  let n := len s in
  let a' := clamp n a in
  let b' := clamp n b in
  if a' <? b' then take (Z.to_nat (b' - a')) (drop (Z.to_nat a') s)
  else EmptyString.

(** [s[a:]] *)
Definition slice_from (s : string) (a : Z) : string :=
  drop (Z.to_nat (clamp (len s) a)) s.

(** [s[:b]] *)
Definition slice_to (s : string) (b : Z) : string :=
  take (Z.to_nat (clamp (len s) b)) s.

(** [s.split(sep)] for a non-empty separator: [skip] counts the characters
    of a matched separator still to be passed over, [cur] is the part being
    collected, reversed. *)
Fixpoint split_aux (sep : string) (skip : nat) (cur : list ascii) (s : string)
  : list string :=
  match s with
  | EmptyString => [string_of_list_ascii (rev cur)]
  | String c s' =>
      match skip with
      | S k => split_aux sep k cur s'
      | O =>
          if startswith sep s
          then string_of_list_ascii (rev cur)
                 :: split_aux sep (String.length sep - 1)%nat [] s'
          else split_aux sep O (c :: cur) s'
      end
  end.

Definition split (s sep : string) : list string := split_aux sep O [] s.

(** [s.split("\n")], written by recursion on the text. *)
Fixpoint lines (s : string) : list string :=
  match s with
  | EmptyString => [EmptyString]
  | String c s' =>
      if Ascii.eqb c newline then EmptyString :: lines s'
      else match lines s' with
           | l :: ls => String c l :: ls
           | [] => [String c EmptyString]
           end
  end.

(** [str.title]: a letter is capitalised when it does not follow a
    letter, and lowered when it does. *)
Fixpoint title_from (in_word : bool) (s : string) : string :=
  match s with
  | EmptyString => EmptyString
  | String c s' =>
      let cased := is_lower_letter c || is_upper_letter c in
      String (if cased then (if in_word then lower_char c else upper_char c)
              else c)
             (title_from cased s')
  end.

Definition title (s : string) : string := title_from false s.

(** [sep.join(parts)] *)
Fixpoint join (sep : string) (parts : list string) : string :=
  match parts with
  | [] => EmptyString
  | [p] => p
  | p :: ps => p +:+ sep +:+ join sep ps
  end.

(** [x in [a, b, ...]] for strings *)
Definition mem (x : string) (l : list string) : bool :=
  existsb (String.eqb x) l.

(** [bool(s)] : a string is truthy when it is not empty. *)
Definition truthy (s : string) : bool :=
  match s with EmptyString => false | _ => true end.

(** [repr(s)] for a string: single quotes unless the text has a single
    quote and no double quote; backslash, the quote in use and control
    characters are escaped. *)
Definition hex_digit (n : Z) : ascii :=
  ascii_of_nat (Z.to_nat (if n <? 10 then 48 + n else 87 + n)).

Definition repr_char (q : ascii) (c : ascii) : string :=
  let n := code c in
  let bs := ascii_of_nat 92 in
  if Ascii.eqb c bs then String bs (String bs EmptyString)
  else if Ascii.eqb c q then String bs (String q EmptyString)
  else if n =? 10 then String bs "n"
  else if n =? 13 then String bs "r"
  else if n =? 9 then String bs "t"
  else if (n <? 32) || (n =? 127)
  then String bs (String "x" (String (hex_digit (n / 16))
                                (String (hex_digit (n mod 16)) EmptyString)))
  else String c EmptyString.

Fixpoint repr_body (q : ascii) (s : string) : string :=
  match s with
  | EmptyString => EmptyString
  | String c s' => repr_char q c +:+ repr_body q s'
  end.

Definition squote : ascii := ascii_of_nat 39.
Definition dquote : ascii := ascii_of_nat 34.

Definition repr (s : string) : string :=
  let q := if contains (String squote EmptyString) s
              && negb (contains (String dquote EmptyString) s)
           then dquote else squote in
  String q (repr_body q s +:+ String q EmptyString).

(** The text between double quotes. *)
Definition quoted (s : string) : string :=
  String dquote (s +:+ String dquote EmptyString).

Fixpoint spaces (n : nat) : string :=
  match n with
  | O => EmptyString
  | S k => String " "%char (spaces k)
  end.

(** [repr] / [str] of a list of strings, as in an f-string over
    [list(d.keys())]. *)
Definition repr_list (l : list string) : string :=
  "[" +:+ join ", " (map repr l) +:+ "]".

(** [s.replace(old, new)] for a non-empty [old]: every occurrence, left to
    right, without overlap; [skip] counts the characters of a matched
    occurrence still to be passed over. *)
Fixpoint replace_aux (old new : string) (skip : nat) (s : string) : string :=
  match s with
  | EmptyString => EmptyString
  | String c s' =>
      match skip with
      | S k => replace_aux old new k s'
      | O =>
          if startswith old s
          then new +:+ replace_aux old new (String.length old - 1)%nat s'
          else String c (replace_aux old new O s')
      end
  end.

Definition replace (s old new : string) : string := replace_aux old new O s.

End PyStr.

(** Small checks of the string primitives against the interpreter. *)
Example strip_ex : PyStr.strip "  Yes " = "Yes".
Proof. reflexivity. Qed.

Example lower_ex : PyStr.lower "Yes" = "yes".
Proof. reflexivity. Qed.

Example split_ex : PyStr.split "a##b##" "##" = ["a"; "b"; ""].
Proof. reflexivity. Qed.

Example slice_ex : PyStr.slice "abcdef" 2 (-1) = "cde".
Proof. reflexivity. Qed.

Example find_ex : PyStr.find "abcabc" "bc" 2 = 4.
Proof. reflexivity. Qed.

Example rfind_ex : PyStr.rfind "a}b}c" "}" = 3.
Proof. reflexivity. Qed.

Example title_ex : PyStr.title "esther o'neil-x2y" = "Esther O'Neil-X2Y".
Proof. reflexivity. Qed.

Example repr_list_ex : PyStr.repr_list ["a"; "b c"] = "['a', 'b c']".
Proof. reflexivity. Qed.

(** ** Python values held in dictionaries *)

(** A [datetime] is kept as a number of seconds. *)
Definition Time : Type := Z.

Module Py.

(** The values that occur in the dictionaries of the program: JSON data
    (what [json.loads] returns) and time stamps.  A float is kept by its
    printed form, the only thing the program does with one. *)
Inductive value : Type :=
| VNone
| VBool (b : bool)
| VInt (z : Z)
| VFloat (shown : string)
| VStr (s : string)
| VTime (t : Time)
| VList (l : list value)
| VDict (kvs : list (string * value)).

(** A [dict] with string keys, in insertion order. *)
Definition dict : Type := list (string * value).

(** [d.get(k)] *)
Fixpoint get {A} (k : string) (d : list (string * A)) : option A :=
  match d with
  | [] => None
  | (k', v) :: d' => if String.eqb k k' then Some v else get k d'
  end.

(** [d.get(k, default)] *)
Definition get_or (k : string) (dflt : value) (d : dict) : value :=
  match get k d with Some v => v | None => dflt end.

(** [d[k] = v]: an existing key keeps its place, a new key goes last. *)
Fixpoint set {A} (k : string) (v : A) (d : list (string * A))
  : list (string * A) :=
  match d with
  | [] => [(k, v)]
  | (k', v') :: d' =>
      if String.eqb k k' then (k, v) :: d' else (k', v') :: set k v d'
  end.

(** [list(d.keys())] *)
Definition keys {A} (d : list (string * A)) : list string := map fst d.

(** [k in d] *)
Definition has_key {A} (k : string) (d : list (string * A)) : bool :=
  match get k d with Some _ => true | None => false end.

Definition show_time (t : Time) : string := "datetime(" +:+ pretty t +:+ ")".

(** [repr(v)] *)
Fixpoint repr (v : value) : string :=
  match v with
  | VNone => "None"
  | VBool true => "True"
  | VBool false => "False"
  | VInt z => pretty z
  | VFloat shown => shown
  | VStr s => PyStr.repr s
  | VTime t => show_time t
  | VList l => "[" +:+ PyStr.join ", " (map repr l) +:+ "]"
  | VDict kvs =>
      "{" +:+ PyStr.join ", "
                (map (fun kv => PyStr.repr (fst kv) +:+ ": " +:+ repr (snd kv)) kvs)
          +:+ "}"
  end.

(** A JSON string literal as [json.dumps] writes it: the quote, the
    backslash and everything outside the printable ASCII range escaped. *)
Definition json_char (c : ascii) : string :=
  let n := PyStr.code c in
  let bs := ascii_of_nat 92 in
  if Ascii.eqb c PyStr.dquote then String bs (String PyStr.dquote EmptyString)
  else if Ascii.eqb c bs then String bs (String bs EmptyString)
  else if n =? 10 then String bs "n"
  else if n =? 13 then String bs "r"
  else if n =? 9 then String bs "t"
  else if n =? 8 then String bs "b"
  else if n =? 12 then String bs "f"
  else if (n <? 32) || (126 <? n)
  then String bs ("u00" +:+ String (PyStr.hex_digit (n / 16))
                            (String (PyStr.hex_digit (n mod 16)) EmptyString))
  else String c EmptyString.

Fixpoint json_body (s : string) : string :=
  match s with
  | EmptyString => EmptyString
  | String c s' => json_char c +:+ json_body s'
  end.

Definition json_string (s : string) : string := PyStr.quoted (json_body s).

(** [json.dumps(v, indent=2, default=str)] at nesting depth [level]; a
    time stamp is not JSON and goes through [default=str]. *)
Fixpoint dumps_at (level : nat) (v : value) : string :=
  match v with
  | VNone => "null"
  | VBool true => "true"
  | VBool false => "false"
  | VInt z => pretty z
  | VFloat shown => shown
  | VStr s => json_string s
  | VTime t => json_string (show_time t)
  | VList l =>
      match l with
      | [] => "[]"
      | _ =>
          "[" +:+ PyStr.nl
            +:+ PyStr.join ("," +:+ PyStr.nl)
                  (map (fun x => PyStr.spaces (2 * S level) +:+ dumps_at (S level) x) l)
            +:+ PyStr.nl +:+ PyStr.spaces (2 * level) +:+ "]"
      end
  | VDict kvs =>
      match kvs with
      | [] => "{}"
      | _ =>
          "{" +:+ PyStr.nl
            +:+ PyStr.join ("," +:+ PyStr.nl)
                  (map (fun kv => PyStr.spaces (2 * S level) +:+ json_string (fst kv)
                                    +:+ ": " +:+ dumps_at (S level) (snd kv)) kvs)
            +:+ PyStr.nl +:+ PyStr.spaces (2 * level) +:+ "}"
      end
  end.

Definition dumps (v : value) : string := dumps_at 0 v.

(** [str(v)], what an f-string interpolates. *)
Definition str (v : value) : string :=
  match v with
  | VStr s => s
  | _ => repr v
  end.

(** [v == "text"] *)
Definition eq_str (v : value) (s : string) : bool :=
  match v with
  | VStr s' => String.eqb s' s
  | _ => false
  end.

(** [str(len(l))] *)
Definition show_len {A} (l : list A) : string := pretty (length l).

End Py.

Example py_str_ex :
  Py.str (Py.VDict [("a", Py.VList [Py.VInt 1; Py.VStr "x"])]) = "{'a': [1, 'x']}".
Proof. vm_compute. reflexivity. Qed.

(** ** The audit team (src/agents/audit_team.py) *)

Module Team.

(** [AuditTrailEntry] (src/models/audit_trail.py) *)
Record AuditTrailEntry : Type := {
  timestamp : Time;
  agent_id : string;
  action_type : string;
  action_description : string;
  decision_rationale : option string;
  evidence_refs : list string;
  metadata : Py.dict
}.

(** The state every team agent has: its name and its audit trail. *)
Record AuditAgent : Type := {
  name : string;
  audit_trail : list AuditTrailEntry
}.

(** [AuditAgent.log_action]: builds the entry and appends it to the trail.
    [evidence_refs or []] and [metadata or {}] are the values themselves. *)
Definition log_action (self : AuditAgent) (now : Time)
    (action_type description : string) (decision_rationale : option string)
    (evidence_refs : list string) (metadata : Py.dict)
  : AuditTrailEntry * AuditAgent :=
  let entry := {| timestamp := now; agent_id := name self;
                  action_type := action_type;
                  action_description := description;
                  decision_rationale := decision_rationale;
                  evidence_refs := evidence_refs;
                  metadata := metadata |} in
  (entry, {| name := name self; audit_trail := audit_trail self ++ [entry] |}).

Definition log (self : AuditAgent) (now : Time)
    (action_type description : string) (decision_rationale : option string)
    (metadata : Py.dict) : AuditAgent :=
  snd (log_action self now action_type description decision_rationale [] metadata).

(** The action types logged so far, oldest first. *)
Definition logged (self : AuditAgent) : list string :=
  map action_type (audit_trail self).

(** *** Reviewed artifacts (src/models/risk.py, src/models/audit_plan.py) *)

Record Risk : Type := {
  risk_id : string;
  risk_control_domain : string;
  risk_description : string;
  impact : string;
  likelihood : string;
  risk_level : string
}.

Record RiskAssessment : Type := {
  inherent_risks : list Risk;
  residual_risks : list Risk;
  ra_approved : bool;
  ra_approved_by : option string;
  ra_approved_at : option Time;
  ra_review_comments : option string
}.

Record TestProcedure : Type := {
  procedure_id : string;
  control_domain : string;
  control_objective : string;
  procedure_description : string;
  evidence_required : list string;
  assigned_to : string;
  estimated_hours : Py.value
}.

(** [plan.budget.total_hours] is the only part of the budget and time line
    that a review reads outside of what it prints. *)
Record AuditPlan : Type := {
  procedures : list TestProcedure;
  budget_total_hours : Py.value;
  approved : bool;
  approved_by : option string;
  approved_at : option Time;
  review_comments : option string
}.

(** What a review call leaves behind: its outcome, the manager, the
    artifact it was given (the same object, mutated) and the operator
    lines not yet read. *)
Record reviewed (Art : Type) : Type := {
  verdict : outcome Py.dict;
  manager : AuditAgent;
  artifact : Art;
  unread : list string
}.
Arguments verdict {Art} r.
Arguments manager {Art} r.
Arguments artifact {Art} r.
Arguments unread {Art} r.

Definition yes_words : list string := ["yes"; "y"; "approve"; "approved"].
Definition no_words : list string := ["no"; "n"; "reject"; "rejected"].
Definition comment_words : list string := ["comments"; "comment"; "c"].

(** [input(...)] on an exhausted terminal. *)
Definition eof {A} : outcome A := Raise "EOFError" "EOF when reading a line".

(** *** [AuditManagerAgent.review_audit_plan] *)

Definition plan_approval_auto (self : AuditAgent) (now : Time) : Py.dict :=
  [("approved", Py.VBool true);
   ("reviewer", Py.VStr (name self));
   ("comments", Py.VStr "Audit plan is comprehensive and risk-based. Approved for execution.");
   ("reviewed_at", Py.VTime now)].

Definition plan_approval_yes (self : AuditAgent) (now : Time) (plan : AuditPlan)
  : Py.dict :=
  plan_approval_auto self now
    ++ [("procedure_count", Py.VInt (Z.of_nat (length (procedures plan))));
        ("total_hours", budget_total_hours plan)].

Definition plan_approval_no (self : AuditAgent) (now : Time) (comments : string)
  : Py.dict :=
  [("approved", Py.VBool false);
   ("reviewer", Py.VStr (name self));
   ("comments", Py.VStr comments);
   ("reviewed_at", Py.VTime now);
   ("action_required", Py.VStr "Revise audit plan based on feedback")].

(** The [while True] prompt loop: each turn reads at least one line, so the
    loop is a recursion on the lines the operator still has to give. *)
Fixpoint plan_prompt_loop (self : AuditAgent) (now : Time) (plan : AuditPlan)
    (inputs : list string) : reviewed AuditPlan :=
  match inputs with
  | [] => {| verdict := eof; manager := self; artifact := plan; unread := [] |}
  | line :: rest =>
      let response := PyStr.lower (PyStr.strip line) in
      if PyStr.mem response yes_words then
        let plan' := {| procedures := procedures plan;
                        budget_total_hours := budget_total_hours plan;
                        approved := true;
                        approved_by := Some (name self);
                        approved_at := Some now;
                        review_comments :=
                          Some "Audit plan approved. Authorized to proceed with test execution." |} in
        let self' := log self now "approve_audit_plan"
                       ("Audit plan approved: " +:+ Py.show_len (procedures plan')
                          +:+ " test procedures authorized for execution")
                       (Some "Plan adequately addresses identified risks and test procedures are appropriate")
                       [] in
        {| verdict := Return (plan_approval_yes self now plan');
           manager := self'; artifact := plan'; unread := rest |}
      else if PyStr.mem response no_words then
        match rest with
        | [] => {| verdict := eof; manager := self; artifact := plan; unread := [] |}
        | feedback :: rest' =>
            let comments := PyStr.strip feedback in
            let plan' := {| procedures := procedures plan;
                            budget_total_hours := budget_total_hours plan;
                            approved := false;
                            approved_by := approved_by plan;
                            approved_at := approved_at plan;
                            review_comments := Some comments |} in
            let self' := log self now "reject_audit_plan"
                           "Audit plan requires revision"
                           (Some ("Feedback: " +:+ comments)) [] in
            {| verdict := Return (plan_approval_no self now comments);
               manager := self'; artifact := plan'; unread := rest' |}
        end
      else if PyStr.mem response comment_words then
        match rest with
        | [] => {| verdict := eof; manager := self; artifact := plan; unread := [] |}
        | _ :: rest' => plan_prompt_loop self now plan rest'
        end
      else plan_prompt_loop self now plan rest
  end.

Definition review_audit_plan (self : AuditAgent) (now : Time)
    (plan : AuditPlan) (company_name : string) (interactive : bool)
    (inputs : list string) : reviewed AuditPlan :=
  let self1 := log self now "review_audit_plan"
                 ("Reviewing audit plan for " +:+ company_name +:+ ": "
                    +:+ Py.show_len (procedures plan) +:+ " test procedures, "
                    +:+ Py.str (budget_total_hours plan) +:+ " hours")
                 (Some "Ensuring plan covers all high-risk areas and test procedures are appropriate before execution")
                 [] in
  if negb interactive then
    let plan' := {| procedures := procedures plan;
                    budget_total_hours := budget_total_hours plan;
                    approved := true;
                    approved_by := Some (name self);
                    approved_at := Some now;
                    review_comments := review_comments plan |} in
    let self2 := log self1 now "approve_audit_plan" "Audit plan approved"
                   (Some "Plan adequately addresses identified risks and allocates resources appropriately")
                   [] in
    {| verdict := Return (plan_approval_auto self now);
       manager := self2; artifact := plan'; unread := inputs |}
  else plan_prompt_loop self1 now plan inputs.

(** *** [AuditManagerAgent.review_risk_assessment] *)

Definition high_risks (ra : RiskAssessment) : nat :=
  length (filter (fun r => String.eqb (risk_level r) "high") (residual_risks ra)).

Definition total_risks (ra : RiskAssessment) : nat := length (inherent_risks ra).

Definition ra_review_yes (self : AuditAgent) (now : Time) (ra : RiskAssessment)
  : Py.dict :=
  [("approved", Py.VBool true);
   ("reviewer", Py.VStr (name self));
   ("comments", Py.VStr "Risk assessment is comprehensive and appropriately prioritized. Approved to proceed with audit planning.");
   ("reviewed_at", Py.VTime now);
   ("high_risk_count", Py.VInt (Z.of_nat (high_risks ra)));
   ("total_risk_count", Py.VInt (Z.of_nat (total_risks ra)))].

Definition ra_review_no (self : AuditAgent) (now : Time) (comments : string)
  : Py.dict :=
  [("approved", Py.VBool false);
   ("reviewer", Py.VStr (name self));
   ("comments", Py.VStr comments);
   ("reviewed_at", Py.VTime now);
   ("action_required", Py.VStr "Revise risk assessment based on feedback")].

Definition ra_log_approved (self : AuditAgent) (now : Time) (ra : RiskAssessment)
  : AuditAgent :=
  log self now "approve_risk_assessment"
    ("Risk assessment approved: " +:+ pretty (high_risks ra)
       +:+ " high-risk areas will receive priority attention")
    (Some "Risk assessment provides solid foundation for risk-based audit planning")
    [].

Fixpoint ra_prompt_loop (self : AuditAgent) (now : Time) (ra : RiskAssessment)
    (inputs : list string) : reviewed RiskAssessment :=
  match inputs with
  | [] => {| verdict := eof; manager := self; artifact := ra; unread := [] |}
  | line :: rest =>
      let response := PyStr.lower (PyStr.strip line) in
      if PyStr.mem response yes_words then
        let ra' := {| inherent_risks := inherent_risks ra;
                      residual_risks := residual_risks ra;
                      ra_approved := true;
                      ra_approved_by := Some (name self);
                      ra_approved_at := Some now;
                      ra_review_comments :=
                        Some "Risk assessment approved. Proceed with audit planning." |} in
        {| verdict := Return (ra_review_yes self now ra);
           manager := ra_log_approved self now ra;
           artifact := ra'; unread := rest |}
      else if PyStr.mem response no_words then
        match rest with
        | [] => {| verdict := eof; manager := self; artifact := ra; unread := [] |}
        | feedback :: rest' =>
            let comments := PyStr.strip feedback in
            let ra' := {| inherent_risks := inherent_risks ra;
                          residual_risks := residual_risks ra;
                          ra_approved := false;
                          ra_approved_by := ra_approved_by ra;
                          ra_approved_at := ra_approved_at ra;
                          ra_review_comments := Some comments |} in
            let self' := log self now "reject_risk_assessment"
                           "Risk assessment requires revision"
                           (Some ("Feedback: " +:+ comments)) [] in
            {| verdict := Return (ra_review_no self now comments);
               manager := self'; artifact := ra'; unread := rest' |}
        end
      else if PyStr.mem response comment_words then
        match rest with
        | [] => {| verdict := eof; manager := self; artifact := ra; unread := [] |}
        | _ :: rest' => ra_prompt_loop self now ra rest'
        end
      else ra_prompt_loop self now ra rest
  end.

Definition review_risk_assessment (self : AuditAgent) (now : Time)
    (ra : RiskAssessment) (company_name : string) (interactive : bool)
    (inputs : list string) : reviewed RiskAssessment :=
  let self1 := log self now "review_risk_assessment"
                 ("Reviewing risk assessment for " +:+ company_name +:+ ": "
                    +:+ pretty (total_risks ra) +:+ " risks identified, "
                    +:+ pretty (high_risks ra) +:+ " high-risk")
                 (Some "Ensuring risk assessment is comprehensive and prioritization is appropriate before creating audit plan")
                 [] in
  if negb interactive then
    let ra' := {| inherent_risks := inherent_risks ra;
                  residual_risks := residual_risks ra;
                  ra_approved := true;
                  ra_approved_by := Some (name self);
                  ra_approved_at := Some now;
                  ra_review_comments := ra_review_comments ra |} in
    {| verdict := Return (ra_review_yes self now ra);
       manager := ra_log_approved self1 now ra;
       artifact := ra'; unread := inputs |}
  else ra_prompt_loop self1 now ra inputs.

(** *** A sequence of review calls on one artifact instance *)

(** One review call as the caller makes it: the mode, the company name, the
    time of the call and the lines the operator will type. *)
Record review_call : Type := {
  interactive : bool;
  company_name : string;
  at_time : Time;
  operator_lines : list string
}.

(** The two gated artifacts. *)
Inductive subject : Type :=
| Plan (p : AuditPlan)
| Assessment (r : RiskAssessment).

Definition is_approved (s : subject) : bool :=
  match s with
  | Plan p => approved p
  | Assessment r => ra_approved r
  end.

(** The review call for either artifact; the manager and the artifact are
    what the call leaves, whether it returned or raised. *)
Definition review (self : AuditAgent) (s : subject) (c : review_call)
  : outcome Py.dict * AuditAgent * subject :=
  match s with
  | Plan p =>
      let r := review_audit_plan self (at_time c) p (company_name c)
                 (interactive c) (operator_lines c) in
      (verdict r, manager r, Plan (artifact r))
  | Assessment a =>
      let r := review_risk_assessment self (at_time c) a (company_name c)
                 (interactive c) (operator_lines c) in
      (verdict r, manager r, Assessment (artifact r))
  end.

(** A review call rejects when it returns a decision with
    [approved = False]. *)
Definition rejects (self : AuditAgent) (s : subject) (c : review_call) : bool :=
  match fst (fst (review self s c)) with
  | Return d => match Py.get "approved" d with
                | Some (Py.VBool false) => true
                | _ => false
                end
  | Raise _ _ => false
  end.

(** Review calls made one after the other on the same instance; a call that
    raises leaves the state it reached and the caller goes on. *)
Fixpoint review_all (self : AuditAgent) (s : subject) (cs : list review_call)
  : AuditAgent * subject :=
  match cs with
  | [] => (self, s)
  | c :: cs' =>
      let '(_, self', s') := review self s c in
      review_all self' s' cs'
  end.

(** No call of the sequence rejects (each taken in the state it runs in). *)
Fixpoint none_rejects (self : AuditAgent) (s : subject) (cs : list review_call)
  : bool :=
  match cs with
  | [] => true
  | c :: cs' =>
      negb (rejects self s c)
      && let '(_, self', s') := review self s c in none_rejects self' s' cs'
  end.

(** *** [SeniorAuditorAgent] *)

Record SeniorAuditorAgent : Type := {
  senior : AuditAgent;
  control_domains : list string;
  staff_auditor : string
}.

Definition with_senior (self : SeniorAuditorAgent) (a : AuditAgent)
  : SeniorAuditorAgent :=
  {| senior := a; control_domains := control_domains self;
     staff_auditor := staff_auditor self |}.

(** [task.get('description', 'N/A')] inside an f-string *)
Definition task_text (task : Py.dict) : string :=
  Py.str (Py.get_or "description" (Py.VStr "N/A") task).

(** [SeniorAuditorAgent.supervise_staff] *)
Definition supervise_staff (self : SeniorAuditorAgent) (now : Time)
    (task : Py.dict) (audit_plan_approved : bool)
  : Py.dict * SeniorAuditorAgent :=
  if negb audit_plan_approved then
    let a := log (senior self) now "task_assignment_blocked"
               ("Cannot assign task to " +:+ staff_auditor self +:+ ": " +:+ task_text task)
               (Some "Audit plan must be approved before assigning tasks to staff")
               [] in
    ([("assigned_by", Py.VStr (name (senior self)));
      ("assigned_to", Py.VStr (staff_auditor self));
      ("task", Py.VDict task);
      ("blocked", Py.VBool true);
      ("reason", Py.VStr "Audit plan not approved")],
     with_senior self a)
  else
    let a := log (senior self) now "assign_task"
               ("Assigning task to " +:+ staff_auditor self +:+ ": " +:+ task_text task)
               (Some ("Delegating evidence collection to " +:+ staff_auditor self
                        +:+ " for efficiency"))
               [("assigned_to", Py.VStr (staff_auditor self));
                ("task", Py.VDict task)] in
    ([("assigned_by", Py.VStr (name (senior self)));
      ("assigned_to", Py.VStr (staff_auditor self));
      ("task", Py.VDict task);
      ("assigned_at", Py.VTime now);
      ("blocked", Py.VBool false);
      ("audit_plan_approved", Py.VBool audit_plan_approved)],
     with_senior self a).

(** *** [StaffAuditorAgent] *)

Record StaffAuditorAgent : Type := {
  staff : AuditAgent;
  senior_auditor : string
}.

Definition with_staff (self : StaffAuditorAgent) (a : AuditAgent)
  : StaffAuditorAgent :=
  {| staff := a; senior_auditor := senior_auditor self |}.

(** [StaffAuditorAgent.receive_assignment] *)
Definition receive_assignment (self : StaffAuditorAgent) (now : Time)
    (task : Py.dict) (audit_plan_approved : bool)
  : Py.dict * StaffAuditorAgent :=
  if negb audit_plan_approved then
    let a := log (staff self) now "assignment_blocked"
               ("Cannot accept assignment from " +:+ senior_auditor self +:+ ": "
                  +:+ task_text task)
               (Some "Audit plan must be approved before staff can receive assignments")
               [] in
    ([("accepted", Py.VBool false);
      ("blocked", Py.VBool true);
      ("reason", Py.VStr "Audit plan not approved");
      ("task", Py.VDict task)],
     with_staff self a)
  else
    let a := log (staff self) now "receive_assignment"
               ("Received assignment from " +:+ senior_auditor self +:+ ": "
                  +:+ task_text task)
               (Some ("Accepting task assignment from " +:+ senior_auditor self))
               [("assigned_by", Py.VStr (senior_auditor self));
                ("task", Py.VDict task)] in
    ([("accepted", Py.VBool true);
      ("blocked", Py.VBool false);
      ("task", Py.VDict task);
      ("assigned_to", Py.VStr (name (staff self)));
      ("assigned_by", Py.VStr (senior_auditor self))],
     with_staff self a).

(** [StaffAuditorAgent.collect_evidence]: the returned value is an
    [Optional[Evidence]]; the evidence type is kept abstract. *)
Definition collect_evidence {Evidence : Type} (self : StaffAuditorAgent)
    (now : Time) (service : string) (has_assignment : bool)
  : option Evidence * StaffAuditorAgent :=
  if negb has_assignment then
    let a := log (staff self) now "evidence_collection_blocked"
               ("Cannot collect evidence from " +:+ service)
               (Some "Staff must have an approved assignment before collecting evidence")
               [] in
    (None, with_staff self a)
  else
    let a1 := log (staff self) now "collect_evidence"
                ("Collecting evidence from " +:+ service)
                (Some ("Gathering evidence as assigned by " +:+ senior_auditor self))
                [] in
    let a2 := log a1 now "evidence_collected"
                ("Evidence collected from " +:+ service)
                None
                [("service", Py.VStr service);
                 ("collected_by", Py.VStr (name (staff self)))] in
    (None, with_staff self a2).

(** [StaffAuditorAgent.execute_test] *)
Definition execute_test (self : StaffAuditorAgent) (now : Time)
    (procedure : TestProcedure) (has_evidence audit_plan_approved : bool)
  : Py.dict * StaffAuditorAgent :=
  if negb audit_plan_approved then
    let a := log (staff self) now "test_execution_blocked"
               ("Cannot execute test: " +:+ procedure_description procedure)
               (Some "Audit plan must be approved before test execution")
               [] in
    ([("procedure_id", Py.VStr (procedure_id procedure));
      ("executed_by", Py.VStr (name (staff self)));
      ("executed_at", Py.VTime now);
      ("blocked", Py.VBool true);
      ("reason", Py.VStr "Audit plan not approved")],
     with_staff self a)
  else if negb has_evidence then
    let a := log (staff self) now "test_execution_blocked"
               ("Cannot execute test: " +:+ procedure_description procedure)
               (Some "Evidence must be collected before test execution")
               [] in
    ([("procedure_id", Py.VStr (procedure_id procedure));
      ("executed_by", Py.VStr (name (staff self)));
      ("executed_at", Py.VTime now);
      ("blocked", Py.VBool true);
      ("reason", Py.VStr "No evidence collected")],
     with_staff self a)
  else
    let a1 := log (staff self) now "execute_test"
                ("Executing test: " +:+ procedure_description procedure)
                (Some ("Performing testing as assigned by " +:+ senior_auditor self))
                [] in
    let test_result :=
      [("procedure_id", Py.VStr (procedure_id procedure));
       ("executed_by", Py.VStr (name (staff self)));
       ("executed_at", Py.VTime now);
       ("blocked", Py.VBool false)] in
    let a2 := log a1 now "test_complete"
                ("Test completed for " +:+ control_domain procedure)
                None test_result in
    (test_result, with_staff self a2).

End Team.

(** ** The model gateway (src/agents/llm_client.py) *)

Module LLM.

(** Costs and clock readings are Python floats; they are modelled as exact
    rationals. *)
Record LLMResponse : Type := {
  content : string;
  model : string;
  tokens_used : Z;
  cost : Q
}.

(** *** [RateLimiter] *)

Record RateLimiter : Type := {
  max_calls : Z;
  recent : list Q
}.

Definition Qltb (a b : Q) : bool :=
  match Qcompare a b with Lt => true | _ => false end.

(** [wait_if_needed]: drops the calls older than a minute, sleeps when the
    budget is used up, then records the call at the time read on entry.
    Returns the time slept, if any.  With a budget of zero or less and no
    call kept, [self.calls[0]] raises; the calls have been filtered by then
    and the new call is not recorded. *)
Definition wait_if_needed (self : RateLimiter) (now : Q)
  : outcome (option Q) * RateLimiter :=
  let kept := filter (fun c => Qltb (now - c) 60) (recent self) in
  let recorded := {| max_calls := max_calls self; recent := kept ++ [now] |} in
  if Z.of_nat (length kept) >=? max_calls self
  then match kept with
       | c0 :: _ => (Return (Some (60 - (now - c0))%Q), recorded)
       | [] => (Raise "IndexError" "list index out of range",
                {| max_calls := max_calls self; recent := kept |})
       end
  else (Return None, recorded).

(** *** [CostTracker] *)

Record CallRecord : Type := {
  call_model : string;
  call_tokens : Z;
  call_cost : Q
}.

Record CostTracker : Type := {
  total_cost : Q;
  total_tokens : Z;
  call_count : Z;
  calls : list CallRecord
}.

Definition new_tracker : CostTracker :=
  {| total_cost := 0; total_tokens := 0; call_count := 0; calls := [] |}.

(** [CostTracker.record_call] *)
Definition record_call (self : CostTracker) (model : string) (tokens : Z)
    (cost : Q) : CostTracker :=
  {| total_cost := (total_cost self + cost)%Q;
     total_tokens := total_tokens self + tokens;
     call_count := call_count self + 1;
     calls := calls self
                ++ [{| call_model := model; call_tokens := tokens;
                       call_cost := cost |}] |}.

(** *** [LLMClient] *)

(** The constructor refuses every provider but these three. *)
Inductive Provider : Type := OpenAI | Anthropic | Ollama.

Record Price : Type := { input : Q; output : Q }.

(** [LLMClient.PRICING], per 1K tokens *)
Definition PRICING : list (string * Price) :=
  [("gpt-5", {| input := 15 # 1000; output := 45 # 1000 |});
   ("gpt-4-turbo", {| input := 1 # 100; output := 3 # 100 |});
   ("gpt-4o", {| input := 5 # 1000; output := 15 # 1000 |});
   ("gpt-3.5-turbo", {| input := 5 # 10000; output := 15 # 10000 |});
   ("claude-3-haiku", {| input := 25 # 100000; output := 125 # 100000 |});
   ("ollama", {| input := 0; output := 0 |})].

(** [self.PRICING.get(model, self.PRICING[fallback])] *)
Definition pricing (model fallback : string) : Price :=
  match Py.get model PRICING with
  | Some p => p
  | None => match Py.get fallback PRICING with
            | Some p => p
            | None => {| input := 0; output := 0 |}
            end
  end.

Record LLMClient : Type := {
  provider : Provider;
  client_model : string;
  rate_limiter : RateLimiter;
  cost_tracker : CostTracker
}.

(** What the provider's SDK answers to one request: the reply text with the
    usage it reports, or a raised transport or authentication error.
    Ollama reports no usage, the two counts are ignored for it. *)
Inductive sdk_answer : Type :=
| Answered (text : string) (reported_model : string)
           (input_tokens output_tokens total : Z)
| Failed (cls : string) (msg : string).

Definition price_of (p : Price) (input_tokens output_tokens : Z) : Q :=
  (inject_Z input_tokens * input p / 1000
   + inject_Z output_tokens * output p / 1000)%Q.

(** [len(content.split())]: the number of maximal runs of characters that
    are not white space. *)
Fixpoint words_from (in_word : bool) (s : string) : Z :=
  match s with
  | EmptyString => 0
  | String c s' =>
      if PyStr.isspace c then words_from false s'
      else (if in_word then 0 else 1) + words_from true s'
  end.

Definition word_count (s : string) : Z := words_from false s.

(** [int(len(content.split()) * 1.3)] *)
Definition estimate_tokens (s : string) : Z := 13 * word_count s / 10.

Definition with_tracker (self : LLMClient) (t : CostTracker) : LLMClient :=
  {| provider := provider self; client_model := client_model self;
     rate_limiter := rate_limiter self; cost_tracker := t |}.

Definition with_limiter (self : LLMClient) (r : RateLimiter) : LLMClient :=
  {| provider := provider self; client_model := client_model self;
     rate_limiter := r; cost_tracker := cost_tracker self |}.

(** [_chat_openai] *)
Definition _chat_openai (self : LLMClient) (answer : sdk_answer)
  : outcome LLMResponse * LLMClient :=
  match answer with
  | Failed cls msg => (Raise cls msg, self)
  | Answered text reported input_tokens output_tokens total =>
      let cost := price_of (pricing (client_model self) "gpt-5")
                    input_tokens output_tokens in
      (Return {| content := text; model := reported;
                 tokens_used := total; cost := cost |},
       with_tracker self
         (record_call (cost_tracker self) (client_model self) total cost))
  end.

(** [_chat_anthropic] *)
Definition _chat_anthropic (self : LLMClient) (answer : sdk_answer)
  : outcome LLMResponse * LLMClient :=
  match answer with
  | Failed cls msg => (Raise cls msg, self)
  | Answered text _ input_tokens output_tokens _ =>
      let tokens := input_tokens + output_tokens in
      let cost := price_of (pricing (client_model self) "claude-3-haiku")
                    input_tokens output_tokens in
      (Return {| content := text; model := client_model self;
                 tokens_used := tokens; cost := cost |},
       with_tracker self
         (record_call (cost_tracker self) (client_model self) tokens cost))
  end.

(** [_chat_ollama] *)
Definition _chat_ollama (self : LLMClient) (answer : sdk_answer)
  : outcome LLMResponse * LLMClient :=
  match answer with
  | Failed cls msg => (Raise cls msg, self)
  | Answered text _ _ _ _ =>
      (Return {| content := text; model := client_model self;
                 tokens_used := estimate_tokens text; cost := 0 |},
       self)
  end.

(** [LLMClient.chat]: the rate limiter first, then the provider's path.
    What the limiter raises goes to the caller, before any provider is
    called. *)
Definition chat (self : LLMClient) (now : Q) (answer : sdk_answer)
  : outcome LLMResponse * LLMClient :=
  let waited := wait_if_needed (rate_limiter self) now in
  let self1 := with_limiter self (snd waited) in
  match fst waited with
  | Raise cls msg => (Raise cls msg, self1)
  | Return _ =>
      match provider self1 with
      | OpenAI => _chat_openai self1 answer
      | Anthropic => _chat_anthropic self1 answer
      | Ollama => _chat_ollama self1 answer
      end
  end.

(** [get_cost_summary]'s counters *)
Definition summary (self : LLMClient) : Z * Z * Q :=
  (call_count (cost_tracker self), total_tokens (cost_tracker self),
   total_cost (cost_tracker self)).

End LLM.

(** ** The reasoning agent (src/agents/audit_agent.py) *)

Module Agent.

Inductive Role : Type := system | user | assistant.

(** One entry of [self.memory]: [{"role": ..., "content": ...}] *)
Record Message : Type := { role : Role; content : string }.

(** [self.goal_status]: "idle", "working", "complete" or "blocked" *)
Inductive GoalStatus : Type := idle | working | complete | blocked.

Definition status_text (s : GoalStatus) : string :=
  match s with
  | idle => "idle"
  | working => "working"
  | complete => "complete"
  | blocked => "blocked"
  end.

Definition status_eqb (a b : GoalStatus) : bool :=
  String.eqb (status_text a) (status_text b).

(** [AgentAction] *)
Record AgentAction : Type := {
  timestamp : Time;
  action_type : string;
  description : string;
  details : Py.dict;
  result : Py.value
}.

Section WithWorld.

(** Everything outside the agent that its calls can read or change: the
    model behind the gateway, the files and services the tools touch, the
    wall clock. *)
Context {W : Type}.

(** A tool as the agent uses it.  [execute] stands for the call of
    [tool.execute] with the decision's [parameters] value unpacked as
    keyword arguments: it returns the tool's result or raises (also when
    [parameters] is not a mapping), and may change the world. *)
Record Tool : Type := {
  tool_name : string;
  tool_description : string;
  get_parameters : Py.value;
  execute : Py.value -> W -> outcome Py.value * W
}.

(** The library and environment calls the agent makes. *)
Record Runtime : Type := {
  (** [json.loads] *)
  json_loads : string -> outcome Py.value;
  (** [self.llm.chat(messages)]: the reply's [content], or a raised
      provider error *)
  llm_chat : list Message -> W -> outcome string * W;
  (** [datetime.now()] *)
  clock : W -> Time;
  (** [time.sleep(0.5)] *)
  sleep : W -> W
}.

Record AuditAgent : Type := {
  name : string;
  agent_role : string;
  tools : list (string * Tool);
  knowledge : list (string * string);
  current_goal : option string;
  goal_status : GoalStatus;
  memory : list Message;
  action_history : list AgentAction;
  context : Py.dict
}.

(** An agent in its world; [chat_calls] counts the calls made to
    [self.llm.chat], as a test double of the gateway does. *)
Record config : Type := {
  agent : AuditAgent;
  world : W;
  chat_calls : nat
}.

Context (rt : Runtime).

(** *** Field updates *)

Definition with_tools (a : AuditAgent) (t : list (string * Tool)) : AuditAgent :=
  {| name := name a; agent_role := agent_role a; tools := t;
     knowledge := knowledge a; current_goal := current_goal a;
     goal_status := goal_status a; memory := memory a;
     action_history := action_history a; context := context a |}.

Definition with_goal (a : AuditAgent) (g : option string) : AuditAgent :=
  {| name := name a; agent_role := agent_role a; tools := tools a;
     knowledge := knowledge a; current_goal := g;
     goal_status := goal_status a; memory := memory a;
     action_history := action_history a; context := context a |}.

Definition with_status (a : AuditAgent) (s : GoalStatus) : AuditAgent :=
  {| name := name a; agent_role := agent_role a; tools := tools a;
     knowledge := knowledge a; current_goal := current_goal a;
     goal_status := s; memory := memory a;
     action_history := action_history a; context := context a |}.

Definition with_memory (a : AuditAgent) (m : list Message) : AuditAgent :=
  {| name := name a; agent_role := agent_role a; tools := tools a;
     knowledge := knowledge a; current_goal := current_goal a;
     goal_status := goal_status a; memory := m;
     action_history := action_history a; context := context a |}.

Definition with_history (a : AuditAgent) (h : list AgentAction) : AuditAgent :=
  {| name := name a; agent_role := agent_role a; tools := tools a;
     knowledge := knowledge a; current_goal := current_goal a;
     goal_status := goal_status a; memory := memory a;
     action_history := h; context := context a |}.

Definition on_agent (f : AuditAgent -> AuditAgent) (c : config) : config :=
  {| agent := f (agent c); world := world c; chat_calls := chat_calls c |}.

(** [self.memory.append({"role": r, "content": text})] *)
Definition remember (r : Role) (text : string) (a : AuditAgent) : AuditAgent :=
  with_memory a (memory a ++ [{| role := r; content := text |}]).

(** [_log_action] *)
Definition _log_action (now : Time) (action_type description : string)
    (details : Py.dict) (result : Py.value) (a : AuditAgent) : AuditAgent :=
  with_history a
    (action_history a
       ++ [{| timestamp := now; action_type := action_type;
              description := description; details := details;
              result := result |}]).

Definition log (action_type description : string) (details : Py.dict)
    (result : Py.value) (c : config) : config :=
  on_agent (_log_action (clock rt (world c)) action_type description details result) c.

(** The action types logged so far, oldest first. *)
Definition logged (a : AuditAgent) : list string :=
  map action_type (action_history a).

(** *** Construction, tools, goal *)

(** [_format_tools_for_prompt] *)
Definition _format_tools_for_prompt (a : AuditAgent) : string :=
  match tools a with
  | [] => "No tools available"
  | ts =>
      PyStr.join PyStr.nl
        (map (fun kv =>
                "- " +:+ fst kv +:+ ": " +:+ tool_description (snd kv)
                  +:+ PyStr.nl +:+ "  Parameters: "
                  +:+ Py.dumps (get_parameters (snd kv)))
             ts)
  end.

(** [s.replace('-', ' ')] *)
Fixpoint dash_to_space (s : string) : string :=
  match s with
  | EmptyString => EmptyString
  | String c s' =>
      String (if Ascii.eqb c "-"%char then " "%char else c) (dash_to_space s')
  end.

(** [get_knowledge_context] *)
Definition get_knowledge_context (a : AuditAgent) : string :=
  match knowledge a with
  | [] => "No specialized knowledge loaded."
  | ks =>
      fold_left
        (fun acc kv =>
           acc +:+ "### " +:+ PyStr.title (dash_to_space (fst kv)) +:+ PyStr.nl +:+ PyStr.nl
               +:+ snd kv +:+ PyStr.nl +:+ PyStr.nl
               +:+ "---" +:+ PyStr.nl +:+ PyStr.nl)
        ks
        ("## Your Knowledge and Procedures" +:+ PyStr.nl +:+ PyStr.nl
           +:+ "You have access to the following procedures and guidelines:"
           +:+ PyStr.nl +:+ PyStr.nl)
  end.

(** The f-string of [_init_system_message], line by line. *)
Definition system_text (name role tools_text knowledge_text : string) : string :=
  let q := PyStr.quoted in
  PyStr.join PyStr.nl
    ["You are " +:+ name +:+ ", a " +:+ role +:+ ".";
     "";
     "You are an autonomous audit agent. You reason independently, make decisions, ";
     "and document your work professionally.";
     "";
     "Your capabilities:";
     "- Reason about audit goals and determine next steps";
     "- Use tools to collect evidence and analyze AWS infrastructure";
     "- Adapt your approach based on what you discover";
     "- Document your findings and reasoning in professional workpapers";
     "- Communicate with other agents when needed";
     "";
     "Available tools:";
     tools_text;
     "";
     knowledge_text;
     "";
     "When you decide to use a tool, respond with a JSON object:";
     "{";
     "    " +:+ q "action" +:+ ": " +:+ q "use_tool" +:+ ",";
     "    " +:+ q "tool" +:+ ": " +:+ q "tool_name" +:+ ",";
     "    " +:+ q "parameters" +:+ ": {" +:+ q "param1" +:+ ": " +:+ q "value1"
       +:+ ", " +:+ q "param2" +:+ ": " +:+ q "value2" +:+ "},";
     "    " +:+ q "reasoning" +:+ ": " +:+ q "Why you're using this tool";
     "}";
     "";
     "When you've completed your goal, respond with:";
     "{";
     "    " +:+ q "action" +:+ ": " +:+ q "goal_complete" +:+ ",";
     "    " +:+ q "summary" +:+ ": " +:+ q "What you accomplished" +:+ ",";
     "    " +:+ q "next_steps" +:+ ": " +:+ q "Any recommendations or follow-up needed";
     "}";
     "";
     "When you need to document findings, respond with:";
     "{";
     "    " +:+ q "action" +:+ ": " +:+ q "document" +:+ ",";
     "    " +:+ q "content" +:+ ": " +:+ q "Your findings and analysis" +:+ ",";
     "    " +:+ q "reasoning" +:+ ": " +:+ q "Your thought process";
     "}";
     "";
     "Always explain your reasoning. Your thought process is as important as your actions.";
     "";
     "When following procedures from your knowledge base, reference which procedure you're using in your reasoning.";
     ""].

(** [_init_system_message] *)
Definition _init_system_message (a : AuditAgent) : AuditAgent :=
  remember system
    (system_text (name a) (agent_role a) (_format_tools_for_prompt a)
       (get_knowledge_context a))
    a.

(** [register_tool]: [self.tools[tool.name] = tool] *)
Definition register_tool (tool : Tool) (a : AuditAgent) : AuditAgent :=
  with_tools a (Py.set (tool_name tool) tool (tools a)).

(** [__init__], with the knowledge already read from its folder *)
Definition init (name role : string) (tools : list Tool)
    (knowledge : list (string * string)) : AuditAgent :=
  let a0 := {| name := name; agent_role := role; tools := [];
               knowledge := knowledge; current_goal := None;
               goal_status := idle; memory := []; action_history := [];
               context := [] |} in
  _init_system_message (fold_left (fun a t => register_tool t a) tools a0).

(** [set_goal] *)
Definition set_goal (goal : string) (c : config) : config :=
  let c1 := on_agent (fun a => with_status (with_goal a (Some goal)) working) c in
  let goal_msg := "Your goal: " +:+ goal +:+ PyStr.nl +:+ PyStr.nl
                    +:+ "Think step by step about how to achieve this goal. What should you do first?" in
  let c2 := on_agent (remember user goal_msg) c1 in
  log "goal_set" ("Goal set: " +:+ goal) [("goal", Py.VStr goal)] Py.VNone c2.

(** [reset] *)
Definition reset (c : config) : config :=
  on_agent
    (fun a =>
       _init_system_message
         {| name := name a; agent_role := agent_role a; tools := tools a;
            knowledge := knowledge a; current_goal := None;
            goal_status := idle; memory := []; action_history := [];
            context := [] |})
    c.

(** [not self.current_goal]: no goal, or the empty text *)
Definition no_goal (a : AuditAgent) : bool :=
  match current_goal a with
  | None => true
  | Some g => negb (PyStr.truthy g)
  end.

(** *** Reasoning *)

(** [_parse_llm_response] *)
Definition _parse_llm_response (text : string) : outcome Py.value :=
  let content := PyStr.strip text in
  if PyStr.contains "```json" content then
    let start := PyStr.find content "```json" 0 + 7 in
    let stop := PyStr.find content "```" start in
    json_loads rt (PyStr.strip (PyStr.slice content start stop))
  else if PyStr.contains "```" content then
    let start := PyStr.find content "```" 0 + 3 in
    let stop := PyStr.find content "```" start in
    json_loads rt (PyStr.strip (PyStr.slice content start stop))
  else if PyStr.startswith "{" content then
    json_loads rt content
  else
    let start := PyStr.find content "{" 0 in
    let stop := PyStr.rfind content "}" + 1 in
    if (start >=? 0) && (stop >? start)
    then json_loads rt (PyStr.slice content start stop)
    else Raise "ValueError" "No JSON object found in response".

(** [self.llm.chat(self.memory)] *)
Definition chat (c : config) : outcome string * config :=
  let '(r, w) := llm_chat rt (memory (agent c)) (world c) in
  (r, {| agent := agent c; world := w; chat_calls := S (chat_calls c) |}).

(** [type(v).__name__] *)
Definition type_name (v : Py.value) : string :=
  match v with
  | Py.VNone => "NoneType"
  | Py.VBool _ => "bool"
  | Py.VInt _ => "int"
  | Py.VFloat _ => "float"
  | Py.VStr _ => "str"
  | Py.VTime _ => "datetime"
  | Py.VList _ => "list"
  | Py.VDict _ => "dict"
  end.

(** The end of [reason] once a reply has parsed: the [reason] action is
    logged with the decision; [decision.get] needs a dictionary. *)
Definition conclude (parsed : Py.value) (c : config)
  : outcome Py.dict * config :=
  match parsed with
  | Py.VDict decision =>
      (Return decision,
       log "reason" "Agent reasoned about next action" decision
         (Py.get_or "reasoning" (Py.VStr "") decision) c)
  | other =>
      (Raise "AttributeError"
         ("'" +:+ type_name other +:+ "' object has no attribute 'get'"),
       c)
  end.

Definition clarification_msg : string :=
  "Your response wasn't in the expected JSON format. " +:+ PyStr.nl
    +:+ "Please respond with a valid JSON object specifying your action.".

(** [reason] *)
Definition reason (c : config) : outcome Py.dict * config :=
  if no_goal (agent c) then
    (Raise "ValueError" "No goal set. Call set_goal() first.", c)
  else if negb (status_eqb (goal_status (agent c)) working) then
    (Raise "ValueError"
       ("Agent is not working (status: "
          +:+ status_text (goal_status (agent c)) +:+ ")"), c)
  else
    match chat c with
    | (Raise cls msg, c1) => (Raise cls msg, c1)
    | (Return reply, c1) =>
        let c2 := on_agent (remember assistant reply) c1 in
        match _parse_llm_response reply with
        | Return parsed => conclude parsed c2
        | Raise _ _ =>
            let c3 := on_agent (remember user clarification_msg) c2 in
            match chat c3 with
            | (Raise cls msg, c4) => (Raise cls msg, c4)
            | (Return reply2, c4) =>
                let c5 := on_agent (remember assistant reply2) c4 in
                match _parse_llm_response reply2 with
                | Return parsed => conclude parsed c5
                | Raise cls msg => (Raise cls msg, c5)
                end
            end
        end
    end.

(** *** Acting *)

Definition tool_not_found_msg (tool_name : Py.value) (a : AuditAgent) : string :=
  "Tool '" +:+ Py.str tool_name +:+ "' not found. Available tools: "
    +:+ PyStr.repr_list (Py.keys (tools a)).

(** [tool_name in self.tools]: the tool when the name is a registered
    key; a list or a dictionary cannot be hashed. *)
Definition lookup_tool (tool_name : Py.value) (a : AuditAgent)
  : outcome (option (string * Tool)) :=
  match tool_name with
  | Py.VStr n => Return (option_map (fun t => (n, t)) (Py.get n (tools a)))
  | Py.VList _ => Raise "TypeError" "unhashable type: 'list'"
  | Py.VDict _ => Raise "TypeError" "unhashable type: 'dict'"
  | _ => Return None
  end.

Definition tool_result_msg (tool_name : string) (result : Py.value) : string :=
  "Tool '" +:+ tool_name +:+ "' executed successfully." +:+ PyStr.nl +:+ PyStr.nl
    +:+ "Result:" +:+ PyStr.nl
    +:+ Py.dumps result +:+ PyStr.nl +:+ PyStr.nl
    +:+ "What should you do next?".

(** [_execute_tool].  The tool's result is a value of [Py.value], on which
    [json.dumps] with [default=str] does not fail. *)
Definition _execute_tool (decision : Py.dict) (c : config)
  : outcome Py.value * config :=
  let tool_name := Py.get_or "tool" Py.VNone decision in
  let parameters := Py.get_or "parameters" (Py.VDict []) decision in
  let reasoning := Py.get_or "reasoning" (Py.VStr "") decision in
  match lookup_tool tool_name (agent c) with
  | Raise cls msg => (Raise cls msg, c)
  | Return None =>
      let error_msg := tool_not_found_msg tool_name (agent c) in
      (Return (Py.VDict [("error", Py.VStr error_msg)]),
       on_agent (remember user error_msg) c)
  | Return (Some (n, tool)) =>
      match execute tool parameters (world c) with
      | (Return result, w) =>
          let c1 := {| agent := agent c; world := w; chat_calls := chat_calls c |} in
          let c2 := log "tool_call" ("Used tool: " +:+ n)
                      [("tool", Py.VStr n); ("parameters", parameters);
                       ("reasoning", reasoning)]
                      result c1 in
          (Return result, on_agent (remember user (tool_result_msg n result)) c2)
      | (Raise _ e, w) =>
          let c1 := {| agent := agent c; world := w; chat_calls := chat_calls c |} in
          let error_msg := "Tool execution failed: " +:+ e in
          let c2 := log "tool_call" ("Tool call failed: " +:+ n)
                      [("tool", Py.VStr n); ("parameters", parameters);
                       ("error", Py.VStr e)]
                      Py.VNone c1 in
          (Return (Py.VDict [("error", Py.VStr error_msg)]),
           on_agent (remember user error_msg) c2)
      end
  end.

(** [_complete_goal] *)
Definition _complete_goal (decision : Py.dict) (c : config)
  : outcome Py.value * config :=
  let summary := Py.get_or "summary" (Py.VStr "") decision in
  let next_steps := Py.get_or "next_steps" (Py.VStr "") decision in
  let c1 := on_agent (fun a => with_status a complete) c in
  let c2 := log "goal_complete" "Goal completed"
              [("summary", summary); ("next_steps", next_steps)] Py.VNone c1 in
  (Return (Py.VDict [("status", Py.VStr "complete"); ("summary", summary);
                     ("next_steps", next_steps)]),
   c2).

(** [_document_work] *)
Definition _document_work (decision : Py.dict) (c : config)
  : outcome Py.value * config :=
  let content := Py.get_or "content" (Py.VStr "") decision in
  let reasoning := Py.get_or "reasoning" (Py.VStr "") decision in
  let c1 := log "document" "Documented work"
              [("content", content); ("reasoning", reasoning)] Py.VNone c in
  (Return (Py.VDict [("status", Py.VStr "documented"); ("content", content);
                     ("reasoning", reasoning)]),
   c1).

(** [_send_message]: the action is logged first; the progress line then
    takes [message[:100]], which only a text or a list supports (a
    dictionary refuses the slice as a key). *)
Definition _send_message (decision : Py.dict) (c : config)
  : outcome Py.value * config :=
  let to := Py.get_or "to" (Py.VStr "") decision in
  let message := Py.get_or "message" (Py.VStr "") decision in
  let c1 := log "message" ("Sent message to " +:+ Py.str to)
              [("to", to); ("message", message)] Py.VNone c in
  match message with
  | Py.VStr _ | Py.VList _ =>
      (Return (Py.VDict [("status", Py.VStr "sent"); ("to", to);
                         ("message", message)]),
       c1)
  | Py.VDict _ => (Raise "TypeError" "unhashable type: 'slice'", c1)
  | other =>
      (Raise "TypeError"
         ("'" +:+ type_name other +:+ "' object is not subscriptable"), c1)
  end.

(** [decision.get("action") == text] *)
Definition action_is (decision : Py.dict) (text : string) : bool :=
  Py.eq_str (Py.get_or "action" Py.VNone decision) text.

(** [act] *)
Definition act (decision : Py.dict) (c : config) : outcome Py.value * config :=
  if action_is decision "use_tool" then _execute_tool decision c
  else if action_is decision "goal_complete" then _complete_goal decision c
  else if action_is decision "document" then _document_work decision c
  else if action_is decision "send_message" then _send_message decision c
  else (Raise "ValueError"
          ("Unknown action type: " +:+ Py.str (Py.get_or "action" Py.VNone decision)),
        c).

(** *** The autonomous loop *)

Definition set_status (s : GoalStatus) (c : config) : config :=
  on_agent (fun a => with_status a s) c.

Definition pause (c : config) : config :=
  {| agent := agent c; world := sleep rt (world c); chat_calls := chat_calls c |}.

(** The [while] loop of [run_autonomously].  Every turn adds one to
    [iteration], so [fuel] turns are enough once [fuel] is at least
    [max_iterations - iteration]. *)
Fixpoint iterate (fuel : nat) (max_iterations iteration : Z) (c : config)
  : Z * config :=
  match fuel with
  | O => (iteration, c)
  | S fuel' =>
      if status_eqb (goal_status (agent c)) working
         && (iteration <? max_iterations)
      then
        let iteration := iteration + 1 in
        match reason c with
        | (Raise _ _, c1) => (iteration, set_status blocked c1)
        | (Return decision, c1) =>
            match act decision c1 with
            | (Raise _ _, c2) => (iteration, set_status blocked c2)
            | (Return _, c2) =>
                if action_is decision "goal_complete" then (iteration, c2)
                else iterate fuel' max_iterations iteration (pause c2)
            end
        end
      else (iteration, c)
  end.

(** [run_autonomously] *)
Definition run_autonomously (max_iterations : Z) (c : config)
  : outcome Py.dict * config :=
  if no_goal (agent c) then
    (Raise "ValueError" "No goal set. Call set_goal() first.", c)
  else
    let '(iteration, c1) := iterate (Z.to_nat max_iterations) max_iterations 0 c in
    let c2 := if iteration >=? max_iterations then set_status blocked c1 else c1 in
    (Return [("status", Py.VStr (status_text (goal_status (agent c2))));
             ("iterations", Py.VInt iteration);
             ("actions_taken",
               Py.VInt (Z.of_nat (length (action_history (agent c2)))))],
     c2).

End WithWorld.

Arguments Tool W : clear implicits.
Arguments Runtime W : clear implicits.
Arguments AuditAgent W : clear implicits.
Arguments config W : clear implicits.

End Agent.

(** ** Tools and their parameter schema (src/agents/tools.py, [Tool]) *)

Module ToolBase.

(** [ToolParameter]; [default] is [Py.VNone] when there is none. *)
Record ToolParameter : Type := {
  name : string;
  type : string;
  description : string;
  required : bool;
  default : Py.value
}.

(** The state of the [Tool] base class. *)
Record Tool : Type := {
  tool_name : string;
  tool_description : string;
  _parameters : list ToolParameter
}.

(** [add_parameter] *)
Definition add_parameter (self : Tool) (name param_type description : string)
    (required : bool) (default : Py.value) : Tool :=
  {| tool_name := tool_name self;
     tool_description := tool_description self;
     _parameters := _parameters self
                      ++ [{| name := name; type := param_type;
                             description := description; required := required;
                             default := default |}] |}.

(** [param.default is not None] *)
Definition has_default (p : ToolParameter) : bool :=
  match default p with
  | Py.VNone => false
  | _ => true
  end.

(** The entry of [properties] for one parameter. *)
Definition property_of (p : ToolParameter) : Py.value :=
  Py.VDict ([("type", Py.VStr (type p)); ("description", Py.VStr (description p))]
              ++ (if has_default p then [("default", default p)] else [])).

(** One turn of the loop of [get_parameters] over [properties] and
    [required]. *)
Definition schema_step (st : Py.dict * list string) (p : ToolParameter)
  : Py.dict * list string :=
  (Py.set (name p) (property_of p) (fst st),
   if required p then snd st ++ [name p] else snd st).

Definition schema_parts (params : list ToolParameter) : Py.dict * list string :=
  fold_left schema_step params ([], []).

(** [get_parameters] *)
Definition get_parameters (self : Tool) : Py.dict :=
  let '(properties, required) := schema_parts (_parameters self) in
  [("type", Py.VStr "object");
   ("properties", Py.VDict properties);
   ("required", Py.VList (map Py.VStr required))].

(** The loop of [validate_parameters] *)
Fixpoint validate_loop (tool : string) (params : list ToolParameter)
    (kwargs : Py.dict) : outcome unit :=
  match params with
  | [] => Return tt
  | p :: rest =>
      if required p && negb (Py.has_key (name p) kwargs)
      then Raise "ToolExecutionError"
             ("Missing required parameter '" +:+ name p +:+ "' for tool '"
                +:+ tool +:+ "'")
      else validate_loop tool rest kwargs
  end.

(** [validate_parameters] *)
Definition validate_parameters (self : Tool) (kwargs : Py.dict) : outcome unit :=
  validate_loop (tool_name self) (_parameters self) kwargs.

(** [create_tool_from_function]: a tool around a function of the keyword
    arguments, which may change the world [W] and may raise. *)
Record FunctionTool (W : Type) : Type := {
  base : Tool;
  _func : Py.dict -> W -> outcome Py.value * W
}.
Arguments base {W} f.
Arguments _func {W} f.


(** [FunctionTool.execute]: every exception, the one of the validation
    included, is raised again as a [ToolExecutionError]. *)
Definition execute {W} (self : FunctionTool W) (kwargs : Py.dict) (w : W)
  : outcome Py.value * W :=
  match validate_parameters (base self) kwargs with
  | Raise _ e =>
      (Raise "ToolExecutionError" ("Function execution failed: " +:+ e), w)
  | Return _ =>
      match _func self kwargs w with
      | (Return result, w') =>
          (Return (Py.VDict [("status", Py.VStr "success"); ("result", result)]), w')
      | (Raise _ e, w') =>
          (Raise "ToolExecutionError" ("Function execution failed: " +:+ e), w')
      end
  end.

End ToolBase.

(** ** The task ledger (src/agents/tools.py, [TaskManagementTool]) *)

Module Ledger.

(** The tasks directory: the text of each ledger file by file name.
    [fail_after = Some n] injects a failure: [n] more writes succeed and
    the next one raises; [None] injects nothing. *)
Record Dir : Type := {
  files : gmap string string;
  fail_after : option nat
}.

(** A file operation: it returns or raises, and leaves a directory. *)
Definition io (A : Type) : Type := Dir -> outcome A * Dir.

Definition ret {A} (a : A) : io A := fun d => (Return a, d).

Definition bind {A B} (m : io A) (k : A -> io B) : io B :=
  fun d =>
    match m d with
    | (Return a, d') => k a d'
    | (Raise cls msg, d') => (Raise cls msg, d')
    end.

Notation "'let*' x := m 'in' k" := (bind m (fun x => k))
  (at level 10, x name, m at level 100, k at level 200).
Notation "'run' m 'then' k" := (bind m (fun _ => k))
  (at level 10, m at level 100, k at level 200).

(** [path.exists()] *)
Definition file_exists (f : string) : io bool :=
  fun d => (Return (bool_decide (is_Some (files d !! f))), d).

(** [path.read_text()] *)
Definition read_text (f : string) : io string :=
  fun d =>
    match files d !! f with
    | Some text => (Return text, d)
    | None => (Raise "FileNotFoundError" f, d)
    end.

(** [path.write_text(text)] *)
Definition write_text (f text : string) : io unit :=
  fun d =>
    match fail_after d with
    | Some O => (Raise "OSError" f, d)
    | Some (S n) =>
        (Return tt, {| files := <[f := text]> (files d); fail_after := Some n |})
    | None =>
        (Return tt, {| files := <[f := text]> (files d); fail_after := None |})
    end.

(** [_get_task_file] *)
Definition _get_task_file (agent_name : string) : string :=
  PyStr.lower agent_name +:+ "-tasks.md".

Definition init_text (agent_name : string) : string :=
  "# " +:+ PyStr.title agent_name +:+ "'s Tasks" +:+ PyStr.nl
    +:+ PyStr.nl
    +:+ "## Current Tasks" +:+ PyStr.nl
    +:+ PyStr.nl
    +:+ "## Completed Tasks" +:+ PyStr.nl
    +:+ PyStr.nl
    +:+ "## Delegated Tasks (Waiting on Others)" +:+ PyStr.nl.

(** [_init_task_file] *)
Definition _init_task_file (agent_name : string) : io unit :=
  write_text (_get_task_file agent_name) (init_text agent_name).

(** [_format_task_entry]; [today] is the date as [strftime] prints it. *)
Definition _format_task_entry (today task assigned_by priority : string)
    (due_date : option string) : string :=
  let entry :=
    "- [ ] " +:+ task +:+ PyStr.nl
      +:+ "  - Assigned by: " +:+ assigned_by +:+ PyStr.nl
      +:+ "  - Assigned on: " +:+ today +:+ PyStr.nl
      +:+ "  - Priority: " +:+ priority +:+ PyStr.nl
      +:+ "  - Status: Not Started" +:+ PyStr.nl in
  match due_date with
  | Some d => if PyStr.truthy d
              then entry +:+ "  - Due: " +:+ d +:+ PyStr.nl
              else entry
  | None => entry
  end.

(** *** Reading a ledger *)

Inductive section : Type := current | completed | delegated.

(** The three lists [_parse_task_file] fills. *)
Record tasks : Type := {
  current_tasks : list string;
  completed_tasks : list string;
  delegated_tasks : list string
}.

Definition no_tasks : tasks :=
  {| current_tasks := []; completed_tasks := []; delegated_tasks := [] |}.

(** [tasks[section].append(task)] *)
Definition add_task (s : section) (task : string) (t : tasks) : tasks :=
  match s with
  | current =>
      {| current_tasks := current_tasks t ++ [task];
         completed_tasks := completed_tasks t;
         delegated_tasks := delegated_tasks t |}
  | completed =>
      {| current_tasks := current_tasks t;
         completed_tasks := completed_tasks t ++ [task];
         delegated_tasks := delegated_tasks t |}
  | delegated =>
      {| current_tasks := current_tasks t;
         completed_tasks := completed_tasks t;
         delegated_tasks := delegated_tasks t ++ [task] |}
  end.

Definition in_section (s : section) (t : tasks) : list string :=
  match s with
  | current => current_tasks t
  | completed => completed_tasks t
  | delegated => delegated_tasks t
  end.

(** One turn of the loop of [_parse_task_file] over a line. *)
Definition parse_line (st : option section * tasks) (line : string)
  : option section * tasks :=
  let t := PyStr.strip line in
  if String.eqb t "## Current Tasks" then (Some current, snd st)
  else if String.eqb t "## Completed Tasks" then (Some completed, snd st)
  else if PyStr.startswith "## Delegated" t then (Some delegated, snd st)
  else if PyStr.startswith "- [ ]" t || PyStr.startswith "- [x]" t then
    match fst st with
    | Some s => (fst st, add_task s (PyStr.slice_from t 6) (snd st))
    | None => st
    end
  else st.

Definition parse_lines (ls : list string) (st : option section * tasks)
  : option section * tasks :=
  fold_left parse_line ls st.

(** [_parse_task_file] *)
Definition _parse_task_file (content : string) : tasks :=
  snd (parse_lines (PyStr.lines content) (None, no_tasks)).

(** The section in force after reading [text] from the top of a file. *)
Definition section_after (text : string) : option section :=
  fst (parse_lines (PyStr.lines text) (None, no_tasks)).

(** What an agent's ledger shows in the directory: the parsed file, or
    nothing when there is no file. *)
Definition ledger (d : Dir) (agent_name : string) : tasks :=
  match files d !! _get_task_file agent_name with
  | Some text => _parse_task_file text
  | None => no_tasks
  end.

Definition tasks_dict (agent_name content : string) (t : tasks) : Py.dict :=
  [("status", Py.VStr "success");
   ("agent", Py.VStr agent_name);
   ("tasks", Py.VStr content);
   ("current_tasks", Py.VList (map Py.VStr (current_tasks t)));
   ("completed_tasks", Py.VList (map Py.VStr (completed_tasks t)));
   ("delegated_tasks", Py.VList (map Py.VStr (delegated_tasks t)))].

(** [read_tasks] *)
Definition read_tasks (agent_name : string) : io Py.dict :=
  let task_file := _get_task_file agent_name in
  let* there := file_exists task_file in
  if negb there then
    run _init_task_file agent_name then
    ret (tasks_dict agent_name "No tasks yet. Your task list has been created." no_tasks)
  else
    let* content := read_text task_file in
    ret (tasks_dict agent_name content (_parse_task_file content)).

(** *** Writing a ledger *)

(** [parts[0]] and [parts[1] if len(parts) > 1 else dflt] *)
Definition part0 (parts : list string) : string := nth 0 parts EmptyString.

Definition part1_or (dflt : string) (parts : list string) : string :=
  if (1 <? length parts)%nat then nth 1 parts EmptyString else dflt.

(** The text with [task_entry] put at the end of what precedes the
    completed section. *)
Definition add_to_current (content task_entry : string) : string :=
  let parts := PyStr.split content "## Completed Tasks" in
  let current_section := part0 parts in
  let completed_section :=
    if (1 <? length parts)%nat
    then "## Completed Tasks" +:+ nth 1 parts EmptyString
    else PyStr.nl +:+ "## Completed Tasks" +:+ PyStr.nl in
  current_section +:+ task_entry +:+ PyStr.nl +:+ completed_section.

(** [create_task] *)
Definition create_task (today agent_name task priority : string)
    (due_date : option string) : io Py.dict :=
  let task_file := _get_task_file agent_name in
  let* there := file_exists task_file in
  run (if negb there then _init_task_file agent_name else ret tt) then
  let task_entry := _format_task_entry today task "Self" priority due_date in
  let* content := read_text task_file in
  let updated_content :=
    if PyStr.contains "## Current Tasks" content
    then add_to_current content task_entry
    else content +:+ PyStr.nl +:+ "## Current Tasks" +:+ PyStr.nl +:+ task_entry in
  run write_text task_file updated_content then
  ret [("status", Py.VStr "success");
       ("message", Py.VStr ("Task created for " +:+ agent_name));
       ("task", Py.VStr task);
       ("priority", Py.VStr priority)].

Definition delegated_entry (today task to_agent priority : string) : string :=
  "- [ ] " +:+ task +:+ PyStr.nl
    +:+ "  - Assigned to: " +:+ to_agent +:+ PyStr.nl
    +:+ "  - Assigned on: " +:+ today +:+ PyStr.nl
    +:+ "  - Priority: " +:+ priority +:+ PyStr.nl
    +:+ "  - Status: Not Started" +:+ PyStr.nl.

(** The assigner's text with the delegated entry put right under the
    delegated heading, or under a new heading at the end. *)
Definition add_to_delegated (content entry : string) : string :=
  if PyStr.contains "## Delegated Tasks" content then
    let parts := PyStr.split content "## Delegated Tasks" in
    let before := part0 parts in
    let after := part1_or PyStr.nl parts in
    before +:+ "## Delegated Tasks" +:+ PyStr.nl +:+ entry +:+ after
  else
    content +:+ PyStr.nl +:+ "## Delegated Tasks (Waiting on Others)" +:+ PyStr.nl
      +:+ entry.

(** [assign_task]: the assignee's ledger is written first, the assigner's
    second. *)
Definition assign_task (today from_agent to_agent task priority : string)
    (due_date : option string) : io Py.dict :=
  let assignee_file := _get_task_file to_agent in
  let* there := file_exists assignee_file in
  run (if negb there then _init_task_file to_agent else ret tt) then
  let task_entry := _format_task_entry today task from_agent priority due_date in
  let* content := read_text assignee_file in
  run write_text assignee_file (add_to_current content task_entry) then
  let assigner_file := _get_task_file from_agent in
  let* there' := file_exists assigner_file in
  run (if negb there' then _init_task_file from_agent else ret tt) then
  let* content' := read_text assigner_file in
  run write_text assigner_file
        (add_to_delegated content' (delegated_entry today task to_agent priority)) then
  ret [("status", Py.VStr "success");
       ("message", Py.VStr ("Task assigned from " +:+ from_agent +:+ " to " +:+ to_agent));
       ("task", Py.VStr task);
       ("assignee", Py.VStr to_agent);
       ("priority", Py.VStr priority)].

(** The text [assign_task] reads for an agent: the file, or the fresh
    ledger it creates when there is none. *)
Definition ledger_text (d : Dir) (agent_name : string) : string :=
  match files d !! _get_task_file agent_name with
  | Some text => text
  | None => init_text agent_name
  end.

(** A task text that a ledger line holds as it is: one line, no white
    space at either end. *)
Definition one_line (task : string) : bool :=
  negb (PyStr.contains PyStr.nl task) && String.eqb (PyStr.strip task) task.

(** Text that ends a line, so that what is put after it starts one. *)
Definition ends_line (text : string) : Prop :=
  exists body, text = body +:+ PyStr.nl.

(** A ledger text is ready to take a current task when what precedes its
    completed section ends a line inside the current section. *)
Definition ready_for_current (content : string) : Prop :=
  exists body,
    part0 (PyStr.split content "## Completed Tasks") = body +:+ PyStr.nl
    /\ section_after body = Some current.

(** A ledger text is ready to take a delegated task when its delegated
    heading, if it has one, starts a line. *)
Definition ready_for_delegated (content : string) : Prop :=
  PyStr.contains "## Delegated Tasks" content = true ->
  part0 (PyStr.split content "## Delegated Tasks") = EmptyString
  \/ ends_line (part0 (PyStr.split content "## Delegated Tasks")).

(** The two sides of a delegation as the ledgers show them. *)
Definition shows_current (d : Dir) (to_agent task : string) : Prop :=
  In task (current_tasks (ledger d to_agent)).

Definition shows_delegated (d : Dir) (from_agent task : string) : Prop :=
  In task (delegated_tasks (ledger d from_agent)).

(** Both ledgers record the delegation, or neither does. *)
Definition all_or_nothing (d : Dir) (from_agent to_agent task : string) : Prop :=
  (shows_current d to_agent task /\ shows_delegated d from_agent task)
  \/ (~ shows_current d to_agent task /\ ~ shows_delegated d from_agent task).

(** *** Completing a task *)

(** An open checkbox line, as [complete_task] finds it. *)
Definition open_box (line : string) : bool :=
  PyStr.startswith "- [ ]" (PyStr.strip line).

(** The first loop of [complete_task]: the position and the description of
    the open checkbox line number [task_index], counting from [task_count]
    at position [i]. *)
Fixpoint find_task (ls : list string) (i : nat) (task_count task_index : Z)
  : option (nat * string) :=
  match ls with
  | [] => None
  | line :: rest =>
      if open_box line then
        if task_count =? task_index
        then Some (i, part0 (PyStr.split (PyStr.slice_from (PyStr.strip line) 6) PyStr.nl))
        else find_task rest (S i) (task_count + 1) task_index
      else find_task rest (S i) task_count task_index
  end.

(** [lines.insert(i, x)] for [i] up to the length *)
Definition list_insert {A} (i : nat) (x : A) (l : list A) : list A :=
  take i l ++ x :: drop i l.

(** A line that the [while] loop takes into the task block. *)
Definition movable (line : string) : bool :=
  PyStr.startswith "- [x]" line || PyStr.startswith "  " line.

(** The lines from the front for as long as the loop condition holds. *)
Fixpoint block_of (ls : list string) : list string :=
  match ls with
  | [] => []
  | line :: rest => if movable line then line :: block_of rest else []
  end.

(** The position of the first line that is the completed heading. *)
Fixpoint heading_index (ls : list string) (i : nat) : option nat :=
  match ls with
  | [] => None
  | line :: rest =>
      if String.eqb (PyStr.strip line) "## Completed Tasks" then Some i
      else heading_index rest (S i)
  end.

(** The list surgery of [complete_task] on the lines of the file, for the
    task line at [idx]. *)
Definition move_to_completed (today : string) (idx : nat) (lines : list string)
  : list string :=
  let lines1 :=
    match lines !! idx with
    | Some line => <[idx := PyStr.replace line "- [ ]" "- [x]"]> lines
    | None => lines
    end in
  let lines2 := list_insert (S idx) ("  - Completed on: " +:+ today) lines1 in
  let task_block := block_of (drop idx lines2) in
  let lines3 := take idx lines2 ++ drop (idx + length task_block) lines2 in
  let '(lines4, completed_idx) :=
    match heading_index lines3 O with
    | Some i => (lines3, S i)
    | None =>
        (lines3 ++ [PyStr.nl +:+ "## Completed Tasks"], S (length lines3))
    end in
  take completed_idx lines4 ++ task_block ++ drop completed_idx lines4.

(** [complete_task] *)
Definition complete_task (today agent_name : string) (task_index : Z)
  : io Py.dict :=
  let task_file := _get_task_file agent_name in
  let* there := file_exists task_file in
  if negb there then
    fun d => (Raise "ToolExecutionError" ("No task file found for " +:+ agent_name), d)
  else
    let* content := read_text task_file in
    let lines := PyStr.lines content in
    match find_task lines O 0 task_index with
    | None =>
        fun d => (Raise "ToolExecutionError"
                    ("Task index " +:+ pretty task_index +:+ " not found"), d)
    | Some (idx, task_description) =>
        run write_text task_file
              (PyStr.join PyStr.nl (move_to_completed today idx lines)) then
        ret [("status", Py.VStr "success");
             ("message", Py.VStr ("Task completed by " +:+ agent_name));
             ("task", Py.VStr task_description)]
    end.

(** The number of open checkbox lines of a text. *)
Definition open_count (content : string) : nat :=
  length (filter (fun line => open_box line = true) (PyStr.lines content)).

End Ledger.

(** ** The senior auditor next to the ledgers *)

Module Office.

(** A senior auditor and the tasks directory of the team.  The agent
    classes of the audit team hold no reference to the task tool or to its
    directory. *)
Record state : Type := {
  senior_agent : Team.SeniorAuditorAgent;
  ledgers : Ledger.Dir
}.

(** [supervise_staff] run in the office: the directory is not an argument
    of the method and stays as it is. *)
Definition supervise_staff (s : state) (now : Time) (task : Py.dict)
    (audit_plan_approved : bool) : Py.dict * state :=
  let '(r, a) := Team.supervise_staff (senior_agent s) now task audit_plan_approved in
  (r, {| senior_agent := a; ledgers := ledgers s |}).

(** Some agent's ledger shows a task entry it did not show before. *)
Definition task_entry_created (before after : Ledger.Dir) : Prop :=
  exists agent_name section task,
    In task (Ledger.in_section section (Ledger.ledger after agent_name))
    /\ ~ In task (Ledger.in_section section (Ledger.ledger before agent_name)).

End Office.

(** * Vocabulary of the properties and concrete inputs *)

(** ** Vocabulary *)

(** What a decision says about approval. *)
Definition says_approved (d : Py.dict) : option bool :=
  match Py.get "approved" d with
  | Some (Py.VBool b) => Some b
  | _ => None
  end.

(** After a review call the artifact's flag is the decision the call
    returned; a call that raised left the artifact as it was. *)
Definition flag_follows {Art} (flag : Art -> bool) (before : Art)
    (r : Team.reviewed Art) : Prop :=
  match Team.verdict r with
  | Return d => says_approved d = Some (flag (Team.artifact r))
  | Raise _ _ => Team.artifact r = before
  end.

(** The first step of [create_task] and of each half of [assign_task]: the
    ledger file is created when it is missing. *)
Definition ensure (agent_name : string) : Ledger.io unit :=
  Ledger.bind (Ledger.file_exists (Ledger._get_task_file agent_name))
    (fun there => if negb there then Ledger._init_task_file agent_name
                  else Ledger.ret tt).

(** ** Concrete inputs *)

(** A plan nobody has reviewed yet, and the manager. *)
Definition demo_plan : Team.AuditPlan :=
  {| Team.procedures := []; Team.budget_total_hours := Py.VFloat "120.0";
     Team.approved := false; Team.approved_by := None;
     Team.approved_at := None; Team.review_comments := None |}.

Definition maurice : Team.AuditAgent :=
  {| Team.name := "Maurice"; Team.audit_trail := [] |}.

(** A non-interactive review call, and an interactive one with the lines
    the operator types. *)
Definition auto_review (t : Time) : Team.review_call :=
  {| Team.interactive := false; Team.company_name := "CloudRetail Inc";
     Team.at_time := t; Team.operator_lines := [] |}.

Definition typed_review (t : Time) (typed : list string) : Team.review_call :=
  {| Team.interactive := true; Team.company_name := "CloudRetail Inc";
     Team.at_time := t; Team.operator_lines := typed |}.

(** A senior auditor with her staff auditor, a task, and an office whose
    tasks directory is empty. *)
Definition esther : Team.SeniorAuditorAgent :=
  {| Team.senior := {| Team.name := "Esther"; Team.audit_trail := [] |};
     Team.control_domains := ["IAM"];
     Team.staff_auditor := "Hillel" |}.

Definition demo_task : Py.dict :=
  [("description", Py.VStr "Collect IAM evidence"); ("service", Py.VStr "IAM")].

Definition empty_dir : Ledger.Dir :=
  {| Ledger.files := ∅; Ledger.fail_after := None |}.

Definition demo_office : Office.state :=
  {| Office.senior_agent := esther; Office.ledgers := empty_dir |}.

(** A client of the local Ollama provider before its first call, and an
    answer of that provider. *)
Definition local_client : LLM.LLMClient :=
  {| LLM.provider := LLM.Ollama; LLM.client_model := "llama3";
     LLM.rate_limiter := {| LLM.max_calls := 10; LLM.recent := [] |};
     LLM.cost_tracker := LLM.new_tracker |}.

Definition local_answer : LLM.sdk_answer :=
  LLM.Answered "The audit plan covers IAM and S3." "llama3" 0 0 0.

(** [json.loads] given by a table of the texts a run parses; a text outside
    the table is one that [json.loads] rejects. *)
Definition loads_from (table : list (string * Py.value)) (text : string)
  : outcome Py.value :=
  match Py.get text table with
  | Some v => Return v
  | None => Raise "JSONDecodeError" "Expecting value: line 1 column 1 (char 0)"
  end.

(** A world that is only a wall clock, and a gateway that answers every
    chat with the same reply. *)
Definition scripted (reply : string) (table : list (string * Py.value))
  : Agent.Runtime Z :=
  {| Agent.json_loads := loads_from table;
     Agent.llm_chat := fun _ w => (Return reply, w);
     Agent.clock := fun w => w;
     Agent.sleep := fun w => w + 1 |}.

(** The reply of scenario 1, the decision it parses to, and the gateway
    that always gives it. *)
Definition done_text : string :=
  "{" +:+ PyStr.quoted "action" +:+ ": " +:+ PyStr.quoted "goal_complete" +:+ ", "
    +:+ PyStr.quoted "summary" +:+ ": " +:+ PyStr.quoted "done" +:+ "}".

Definition done_decision : Py.dict :=
  [("action", Py.VStr "goal_complete"); ("summary", Py.VStr "done")].

Definition done_stub : Agent.Runtime Z :=
  scripted done_text [(done_text, Py.VDict done_decision)].

(** An agent without tools, idle at time 0. *)
Definition test_agent : Agent.AuditAgent Z :=
  Agent.init "TestAgent" "Test Auditor" [] [].

Definition start : Agent.config Z :=
  {| Agent.agent := test_agent; Agent.world := 0; Agent.chat_calls := 0 |}.

(** Two tools that share a name. *)
Definition lookup_v1 : Agent.Tool Z :=
  {| Agent.tool_name := "lookup";
     Agent.tool_description := "first registration";
     Agent.get_parameters := Py.VDict [];
     Agent.execute := fun _ w => (Return (Py.VStr "one"), w) |}.

Definition lookup_v2 : Agent.Tool Z :=
  {| Agent.tool_name := "lookup";
     Agent.tool_description := "second registration";
     Agent.get_parameters := Py.VDict [];
     Agent.execute := fun _ w => (Return (Py.VStr "two"), w) |}.


(** A gateway that answers in prose. *)
Definition bad_stub : Agent.Runtime Z :=
  scripted "I think we should look at IAM first." [].



(** A tool whose [execute] raises. *)
Definition failing_tool : Agent.Tool Z :=
  {| Agent.tool_name := "store_evidence";
     Agent.tool_description := "Store evidence";
     Agent.get_parameters := Py.VDict [];
     Agent.execute :=
       fun _ w => (Raise "ToolExecutionError" "Missing required parameter 'evidence_id'", w) |}.

(** The operations a caller can run on an agent. *)
Inductive operation : Type :=
| SetGoal (goal : string)
| Reason
| Act (decision : Py.dict)
| RunAutonomously (max_iterations : Z)
| Reset.

(** The agent after an operation, whether it returned or raised. *)
Definition after {W} (rt : Agent.Runtime W) (op : operation) (c : Agent.config W)
  : Agent.config W :=
  match op with
  | SetGoal goal => Agent.set_goal rt goal c
  | Reason => snd (Agent.reason rt c)
  | Act decision => snd (Agent.act rt decision c)
  | RunAutonomously max_iterations => snd (Agent.run_autonomously rt max_iterations c)
  | Reset => Agent.reset c
  end.

(** The open checkbox that starts a task line. *)
Definition box : string := "- [ ] ".

(** A directory in which three more writes succeed and the fourth fails:
    the two writes of the assignee's side and the creation of the assigner's
    ledger go through, the write of the delegated entry does not. *)
Definition failing_dir : Ledger.Dir :=
  {| Ledger.files := ∅; Ledger.fail_after := Some 3%nat |}.




(** Python reads a file in text mode: a carriage return comes back as a
    line break. *)
Definition carriage_return : ascii := ascii_of_nat 13.

(** The text the second half of [assign_task] reads as the assigner's
    ledger: the assigner's own text or, when the two agents share a ledger
    file, the text the first half has just written. *)
Definition assigner_text (d : Ledger.Dir)
    (today from_agent to_agent task priority : string) (due : option string)
  : string :=
  if bool_decide (Ledger._get_task_file from_agent = Ledger._get_task_file to_agent)
  then Ledger.add_to_current (Ledger.ledger_text d to_agent)
         (Ledger._format_task_entry today task from_agent priority due)
  else Ledger.ledger_text d from_agent.

(** The delegated heading text occurs neither in what precedes the
    completed section of the assignee's ledger nor in the new entry. *)
Definition entry_clear_of_delegated (d : Ledger.Dir)
    (today from_agent to_agent task priority : string) (due : option string)
  : Prop :=
  PyStr.contains "## Delegated Tasks"
    (Ledger.part0 (PyStr.split (Ledger.ledger_text d to_agent) "## Completed Tasks")
       +:+ Ledger._format_task_entry today task from_agent priority due)
  = false.

(** Hillel's ledger with the completed section before the current one. *)
Definition swapped_dir : Ledger.Dir :=
  {| Ledger.files :=
       {[ Ledger._get_task_file "Hillel" :=
            "# Hillel's Tasks" +:+ PyStr.nl +:+ PyStr.nl
              +:+ "## Completed Tasks" +:+ PyStr.nl +:+ PyStr.nl
              +:+ "## Current Tasks" +:+ PyStr.nl ]};
     Ledger.fail_after := None |}.

(** Hillel's ledger with the completed heading on the line of a task. *)
Definition unfinished_dir : Ledger.Dir :=
  {| Ledger.files :=
       {[ Ledger._get_task_file "Hillel" :=
            "# Hillel's Tasks" +:+ PyStr.nl +:+ PyStr.nl
              +:+ "## Current Tasks" +:+ PyStr.nl
              +:+ "- [ ] Review S3" +:+ "## Completed Tasks" +:+ PyStr.nl ]};
     Ledger.fail_after := None |}.

(** Esther's ledger with the delegated heading text inside a task line. *)
Definition midline_dir : Ledger.Dir :=
  {| Ledger.files :=
       {[ Ledger._get_task_file "Esther" :=
            "# Esther's Tasks" +:+ PyStr.nl +:+ PyStr.nl
              +:+ "## Current Tasks" +:+ PyStr.nl
              +:+ "- [ ] Tidy the ## Delegated Tasks list" +:+ PyStr.nl +:+ PyStr.nl
              +:+ "## Completed Tasks" +:+ PyStr.nl ]};
     Ledger.fail_after := None |}.

(** ** Vocabulary of the further properties *)

(** What an agent keeps for life: its name, role, tools and knowledge. *)
Definition identity {W} (a : Agent.AuditAgent W)
  : string * string * list (string * Agent.Tool W) * list (string * string) :=
  (Agent.name a, Agent.agent_role a, Agent.tools a, Agent.knowledge a).

(** A later state of an agent that only added to its memory and its action
    log and kept its identity. *)
Definition grows {W} (c c' : Agent.config W) : Prop :=
  Agent.memory (Agent.agent c) `prefix_of` Agent.memory (Agent.agent c')
  /\ Agent.action_history (Agent.agent c)
       `prefix_of` Agent.action_history (Agent.agent c')
  /\ identity (Agent.agent c') = identity (Agent.agent c).

(** Operations run one after the other, the caller going on after a raise. *)
Definition after_all {W} (rt : Agent.Runtime W) (ops : list operation)
    (c : Agent.config W) : Agent.config W :=
  fold_left (fun c op => after rt op c) ops c.


(** The character occurs in the text. *)
Fixpoint has_char (c : ascii) (s : string) : bool :=
  match s with
  | EmptyString => false
  | String x s' => Ascii.eqb x c || has_char c s'
  end.

(** The four shapes in which a reply can carry one JSON object text: inside
    a fence labelled json, inside a plain fence, bare, and between other
    words. *)
Definition fenced_json (object : string) : string :=
  "```json" +:+ PyStr.nl +:+ object +:+ PyStr.nl +:+ "```".

Definition fenced_plain (object : string) : string :=
  "```" +:+ PyStr.nl +:+ object +:+ PyStr.nl +:+ "```".

Definition embedded (before object after : string) : string :=
  before +:+ object +:+ after.

(** An object text: braces around a text without back ticks. *)
Definition braces (inner : string) : string := "{" +:+ inner +:+ "}".

(** The inside of the object text of a decision to complete the goal. *)
Definition goal_complete_inner : string :=
  PyStr.quoted "action" +:+ ": " +:+ PyStr.quoted "goal_complete".

(** Hillel's ledger directory after one task of his own, and the text of his
    ledger in it. *)
Definition hillel_dir : Ledger.Dir :=
  snd (Ledger.create_task "2025-01-15" "Hillel" "Review S3 bucket policies"
         "medium" None empty_dir).

Definition hillel_text : string := Ledger.ledger_text hillel_dir "Hillel".

(** The calls a staff auditor takes, each at the time it is made, and the
    auditor after one call and after a list of calls. *)
Inductive staff_call : Type :=
| ReceiveAssignment (task : Py.dict) (audit_plan_approved : bool)
| CollectEvidence (service : string) (has_assignment : bool)
| ExecuteTest (procedure : Team.TestProcedure)
              (has_evidence audit_plan_approved : bool).

Definition staff_after (self : Team.StaffAuditorAgent) (call : Time * staff_call)
  : Team.StaffAuditorAgent :=
  match call with
  | (now, ReceiveAssignment task approved) =>
      snd (Team.receive_assignment self now task approved)
  | (now, CollectEvidence service has_assignment) =>
      snd (Team.collect_evidence (Evidence := unit) self now service has_assignment)
  | (now, ExecuteTest procedure has_evidence approved) =>
      snd (Team.execute_test self now procedure has_evidence approved)
  end.

Definition staff_after_all (self : Team.StaffAuditorAgent)
    (calls : list (Time * staff_call)) : Team.StaffAuditorAgent :=
  fold_left staff_after calls self.

(** The action types a call added to the trail. *)
Definition added_types (before after : Team.AuditAgent) : list string :=
  drop (length (Team.audit_trail before)) (Team.logged after).

(** Chat calls made one after the other, each with the clock reading on
    entry and the answer of the provider; the caller goes on after a raise.
    Gives the responses returned, in order, and the client afterwards. *)
Fixpoint chat_all (self : LLM.LLMClient) (calls : list (Q * LLM.sdk_answer))
  : list LLM.LLMResponse * LLM.LLMClient :=
  match calls with
  | [] => ([], self)
  | (now, answer) :: rest =>
      let (out, self1) := LLM.chat self now answer in
      let (responses, self2) := chat_all self1 rest in
      (match out with
       | Return r => r :: responses
       | Raise _ _ => responses
       end, self2)
  end.

(** A client of a paid provider before its first call and three calls made
    to it, the second of which fails. *)
Definition paid_client : LLM.LLMClient :=
  {| LLM.provider := LLM.OpenAI; LLM.client_model := "gpt-4o";
     LLM.rate_limiter := {| LLM.max_calls := 10; LLM.recent := [] |};
     LLM.cost_tracker := LLM.new_tracker |}.

Definition three_calls : list (Q * LLM.sdk_answer) :=
  [(0%Q, LLM.Answered "Plan drafted." "gpt-4o" 120 30 150);
   (1%Q, LLM.Failed "APIConnectionError" "Connection error.");
   (2%Q, LLM.Answered "Risk noted." "gpt-4o" 200 40 240)].

(** A test procedure of the IAM domain. *)
Definition iam_procedure : Team.TestProcedure :=
  {| Team.procedure_id := "TP-001"; Team.control_domain := "IAM";
     Team.control_objective := "Least privilege";
     Team.procedure_description := "Review IAM policies";
     Team.evidence_required := ["IAM policy list"];
     Team.assigned_to := "Hillel"; Team.estimated_hours := Py.VInt 4 |}.

(** A tool with one required parameter and one with a default. *)
Definition task_params : list ToolBase.ToolParameter :=
  [{| ToolBase.name := "action"; ToolBase.type := "string";
      ToolBase.description := "Action to perform"; ToolBase.required := true;
      ToolBase.default := Py.VNone |};
   {| ToolBase.name := "priority"; ToolBase.type := "string";
      ToolBase.description := "Task priority"; ToolBase.required := false;
      ToolBase.default := Py.VStr "medium" |}].

Definition task_tool : ToolBase.Tool :=
  {| ToolBase.tool_name := "manage_tasks";
     ToolBase.tool_description := "Create, read, assign, and complete tasks.";
     ToolBase._parameters := task_params |}.


(** The open checkbox lines among some lines. *)
Definition count_open (ls : list string) : nat :=
  length (filter (fun line => Ledger.open_box line = true) ls).

(** A list element that counts the same as a line of the file and as the
    lines it is written as. *)
Definition counts_as_line (e : string) : Prop :=
  count_open (PyStr.lines e) = count_open [e].

(** What a trail looks like after some calls of one agent: the old entries,
    then between [lo] and [hi] new ones, all under the agent's own name. *)
Definition extends (self self' : Team.StaffAuditorAgent) (lo hi : nat) : Prop :=
  Team.name (Team.staff self') = Team.name (Team.staff self)
  /\ Team.senior_auditor self' = Team.senior_auditor self
  /\ exists added,
      Team.audit_trail (Team.staff self')
      = Team.audit_trail (Team.staff self) ++ added
      /\ (lo <= length added <= hi)%nat
      /\ Forall (fun e => Team.agent_id e = Team.name (Team.staff self)) added.

(** * Properties *)

(** ** The approval gate *)

Section ReviewFacts.

Import Team.

Arguments PyStr.mem : simpl never.
Arguments PyStr.strip : simpl never.
Arguments PyStr.lower : simpl never.
Arguments append : simpl never.

Lemma plan_prompt_loop_flag now :
  forall n inputs, (length inputs <= n)%nat ->
  forall self plan,
    flag_follows approved plan (plan_prompt_loop self now plan inputs).
Proof.
  induction n as [|n IH]; intros inputs Hlen self plan.
  - destruct inputs; [reflexivity | simpl in Hlen; lia].
  - destruct inputs as [|line rest]; [reflexivity|].
    simpl in Hlen. cbn [plan_prompt_loop].
    destruct (PyStr.mem _ yes_words); [reflexivity|].
    destruct (PyStr.mem _ no_words).
    { destruct rest; reflexivity. }
    destruct (PyStr.mem _ comment_words).
    + destruct rest as [|c rest']; [reflexivity|].
      apply IH. simpl in Hlen. lia.
    + apply IH. lia.
Qed.

Lemma ra_prompt_loop_flag now :
  forall n inputs, (length inputs <= n)%nat ->
  forall self ra,
    flag_follows ra_approved ra (ra_prompt_loop self now ra inputs).
Proof.
  induction n as [|n IH]; intros inputs Hlen self ra.
  - destruct inputs; [reflexivity | simpl in Hlen; lia].
  - destruct inputs as [|line rest]; [reflexivity|].
    simpl in Hlen. cbn [ra_prompt_loop].
    destruct (PyStr.mem _ yes_words); [reflexivity|].
    destruct (PyStr.mem _ no_words).
    { destruct rest; reflexivity. }
    destruct (PyStr.mem _ comment_words).
    + destruct rest as [|c rest']; [reflexivity|].
      apply IH. simpl in Hlen. lia.
    + apply IH. lia.
Qed.

Lemma review_audit_plan_flag self now plan company inter inputs :
  flag_follows approved plan
    (review_audit_plan self now plan company inter inputs).
Proof.
  unfold review_audit_plan. destruct inter; cbn [negb].
  - eapply plan_prompt_loop_flag. reflexivity.
  - reflexivity.
Qed.

Lemma review_risk_assessment_flag self now ra company inter inputs :
  flag_follows ra_approved ra
    (review_risk_assessment self now ra company inter inputs).
Proof.
  unfold review_risk_assessment. destruct inter; cbn [negb].
  - eapply ra_prompt_loop_flag. reflexivity.
  - reflexivity.
Qed.

(** One review call that does not reject keeps an approved artifact
    approved. *)
Lemma review_keeps_approval self s c :
  is_approved s = true ->
  rejects self s c = false ->
  is_approved (snd (review self s c)) = true.
Proof.
  intros Happ Hrej. unfold rejects in Hrej.
  destruct s as [p | a]; cbn [review fst snd is_approved] in *.
  - pose proof (review_audit_plan_flag self (at_time c) p (company_name c)
                  (interactive c) (operator_lines c)) as H.
    unfold flag_follows, says_approved in H.
    destruct (verdict _) as [d | cls msg].
    + destruct (Py.get "approved" d) as [[| b | | | | | |]|]; try discriminate.
      destruct b; [congruence | discriminate].
    + rewrite H. exact Happ.
  - pose proof (review_risk_assessment_flag self (at_time c) a (company_name c)
                  (interactive c) (operator_lines c)) as H.
    unfold flag_follows, says_approved in H.
    destruct (verdict _) as [d | cls msg].
    + destruct (Py.get "approved" d) as [[| b | | | | | |]|]; try discriminate.
      destruct b; [congruence | discriminate].
    + rewrite H. exact Happ.
Qed.

End ReviewFacts.

(** C1, as amended: an approved RiskAssessment or AuditPlan stays approved
    through every sequence of review calls, interactive or not, in which no
    call returns a rejection. *)
Theorem approval_kept_unless_rejected :
  forall (cs : list Team.review_call) (self : Team.AuditAgent) (s : Team.subject),
    Team.is_approved s = true ->
    Team.none_rejects self s cs = true ->
    Team.is_approved (snd (Team.review_all self s cs)) = true.
Proof.
  induction cs as [|c cs IH]; intros self s Happ Hnone.
  - exact Happ.
  - cbn [Team.review_all Team.none_rejects] in *.
    apply andb_prop in Hnone as [Hc Hrest].
    apply negb_true_iff in Hc.
    pose proof (review_keeps_approval self s c Happ Hc) as Hkept.
    destruct (Team.review self s c) as [[v self'] s'].
    cbn [snd] in Hkept. apply IH; assumption.
Qed.

Lemma approval_kept_unless_rejected_witness :
  Team.is_approved
    (snd (Team.review_all maurice
            (snd (Team.review maurice (Team.Plan demo_plan) (auto_review 1)))
            [auto_review 2; typed_review 3 ["comment"; "looks fine"; "maybe"; " YES "]]))
  = true.
Proof.
  apply approval_kept_unless_rejected; vm_compute; reflexivity.
Defined.

(** C1, as stated, fails: a plan approved by one review call is set back to
    not approved by a later interactive call that the operator answers with
    a rejection. *)
Lemma approved_plan_rejected_later :
  Team.is_approved
    (snd (Team.review_all maurice (Team.Plan demo_plan) [auto_review 1]))
  = true
  /\ Team.is_approved
       (snd (Team.review_all maurice (Team.Plan demo_plan)
               [auto_review 1; typed_review 2 ["no"; "scope is too narrow"]]))
     = false.
Proof. vm_compute. split; reflexivity. Qed.

(** ** Guards of the senior and staff auditors *)

(** C7, as amended: [supervise_staff] with the plan not approved logs
    [task_assignment_blocked] and returns [blocked = True] with the reason
    "Audit plan not approved"; with the plan approved it logs [assign_task]
    and returns the assignment ([assigned_by], [assigned_to], the task,
    [assigned_at], [blocked = False]).  In both cases every ledger is left as it was: no
    task entry is written. *)
Theorem supervise_staff_guard :
  forall (s : Office.state) (now : Time) (task : Py.dict) (plan_approved : bool),
    let r := fst (Office.supervise_staff s now task plan_approved) in
    let s' := snd (Office.supervise_staff s now task plan_approved) in
    Office.ledgers s' = Office.ledgers s
    /\ Team.logged (Team.senior (Office.senior_agent s'))
       = Team.logged (Team.senior (Office.senior_agent s))
           ++ [if plan_approved then "assign_task" else "task_assignment_blocked"]
    /\ Py.get "blocked" r = Some (Py.VBool (negb plan_approved))
    /\ Py.get "reason" r
       = (if plan_approved then None else Some (Py.VStr "Audit plan not approved"))
    /\ Py.get "task" r = Some (Py.VDict task)
    /\ Py.get "assigned_by" r
       = Some (Py.VStr (Team.name (Team.senior (Office.senior_agent s))))
    /\ Py.get "assigned_to" r
       = Some (Py.VStr (Team.staff_auditor (Office.senior_agent s)))
    /\ Py.has_key "assigned_at" r = plan_approved.
Proof.
  intros s now task plan_approved.
  unfold Office.supervise_staff, Team.supervise_staff.
  destruct plan_approved; cbn [negb fst snd Office.ledgers Office.senior_agent
                                 Team.with_senior Team.senior];
    unfold Team.logged, Team.log, Team.log_action;
    cbn [snd Team.audit_trail]; rewrite map_app;
    repeat split; reflexivity.
Qed.

(** C7, as stated, fails: with the plan approved, [supervise_staff] logs the
    assignment but no ledger shows a task entry that it did not show
    before. *)
Lemma supervise_staff_writes_no_entry :
  Team.logged
    (Team.senior (Office.senior_agent
       (snd (Office.supervise_staff demo_office 0 demo_task true))))
  = ["assign_task"]
  /\ ~ Office.task_entry_created
         (Office.ledgers demo_office)
         (Office.ledgers (snd (Office.supervise_staff demo_office 0 demo_task true))).
Proof.
  split; [reflexivity|].
  intros (agent_name & section & task & Hin & Hnot).
  apply Hnot. exact Hin.
Qed.

(** C10: [collect_evidence] returns [None] whatever its inputs; a blocked
    call and a successful one differ only in the action types they log. *)
Theorem collect_evidence_returns_none :
  forall (Evidence : Type) (self : Team.StaffAuditorAgent) (now : Time)
         (service : string) (has_assignment : bool),
    fst (@Team.collect_evidence Evidence self now service has_assignment) = None
    /\ Team.logged
         (Team.staff (snd (@Team.collect_evidence Evidence self now service has_assignment)))
       = Team.logged (Team.staff self)
           ++ (if has_assignment
               then ["collect_evidence"; "evidence_collected"]
               else ["evidence_collection_blocked"]).
Proof.
  intros Evidence self now service has_assignment.
  unfold Team.collect_evidence.
  destruct has_assignment; cbn [negb fst snd Team.with_staff Team.staff];
    unfold Team.logged, Team.log, Team.log_action;
    cbn [snd Team.audit_trail]; rewrite ?map_app, <- ?app_assoc;
    split; reflexivity.
Qed.

(** ** The cost ledger of the gateway *)

(** [record_call] adds exactly one call, its tokens and its cost. *)
Lemma record_call_adds (t : LLM.CostTracker) (m : string) (tokens : Z) (cost : Q) :
  LLM.call_count (LLM.record_call t m tokens cost) = LLM.call_count t + 1
  /\ LLM.total_tokens (LLM.record_call t m tokens cost) = LLM.total_tokens t + tokens
  /\ LLM.total_cost (LLM.record_call t m tokens cost) = (LLM.total_cost t + cost)%Q.
Proof. repeat split. Qed.

(** On the OpenAI and Anthropic paths a successful chat call is recorded:
    one more call, the tokens and the cost of the returned response. *)
Lemma chat_recorded_by_paid_providers
    (self : LLM.LLMClient) (now : Q) (answer : LLM.sdk_answer) (r : LLM.LLMResponse) :
  LLM.provider self <> LLM.Ollama ->
  fst (LLM.chat self now answer) = Return r ->
  let t := LLM.cost_tracker self in
  let t' := LLM.cost_tracker (snd (LLM.chat self now answer)) in
  LLM.call_count t' = LLM.call_count t + 1
  /\ LLM.total_tokens t' = LLM.total_tokens t + LLM.tokens_used r
  /\ LLM.total_cost t' = (LLM.total_cost t + LLM.cost r)%Q.
Proof.
  intros Hprov Hret. unfold LLM.chat in *.
  cbn [LLM.provider LLM.with_limiter] in *.
  destruct (fst (LLM.wait_if_needed (LLM.rate_limiter self) now));
    [|discriminate].
  destruct (LLM.provider self); [| |congruence];
    destruct answer as [text rep i o tot | cls msg]; cbn in *;
    try discriminate; inversion Hret; subst; cbn; repeat split.
Qed.

(** C9 fails on the Ollama path: a successful chat call returns a response
    with a token count, and the cost ledger still shows no call and no
    tokens. *)
Theorem ollama_call_not_recorded :
  fst (LLM.chat local_client 0 local_answer)
  = Return {| LLM.content := "The audit plan covers IAM and S3.";
              LLM.model := "llama3"; LLM.tokens_used := 9; LLM.cost := 0 |}
  /\ LLM.summary (snd (LLM.chat local_client 0 local_answer)) = (0, 0, 0%Q)
  /\ LLM.summary local_client = (0, 0, 0%Q).
Proof. vm_compute. repeat split; reflexivity. Qed.

(** The same holds for every Ollama client and every answer: the tracker is
    left as it was. *)
Lemma ollama_never_recorded (self : LLM.LLMClient) (now : Q) (answer : LLM.sdk_answer) :
  LLM.provider self = LLM.Ollama ->
  LLM.cost_tracker (snd (LLM.chat self now answer)) = LLM.cost_tracker self.
Proof.
  intros H. unfold LLM.chat. cbn [LLM.provider LLM.with_limiter]. rewrite H.
  destruct (fst (LLM.wait_if_needed (LLM.rate_limiter self) now));
    [destruct answer|]; reflexivity.
Qed.

(** ** The reasoning agent *)

Section AgentFacts.

Context {W : Type} (rt : Agent.Runtime W).

Import Agent.

Abbreviation status c := (goal_status (agent c)).

(** *** What each operation does to the goal status *)

Lemma log_status t d det r (c : config W) : status (log rt t d det r c) = status c.
Proof. reflexivity. Qed.

Lemma chat_agent (c : config W) : agent (snd (chat rt c)) = agent c.
Proof. unfold chat. destruct (llm_chat rt _ _). reflexivity. Qed.


Lemma conclude_status v (c : config W) : status (snd (conclude rt v c)) = status c.
Proof. destruct v; reflexivity. Qed.

Lemma reason_status (c : config W) : status (snd (reason rt c)) = status c.
Proof.
  unfold reason.
  destruct (no_goal (agent c)); [reflexivity|].
  destruct (negb _); [reflexivity|].
  pose proof (chat_agent c) as H1.
  destruct (chat rt c) as [[reply | cls msg] c1]; cbn [snd] in *;
    [|now rewrite H1].
  destruct (_parse_llm_response rt reply).
  { rewrite conclude_status. cbn. now rewrite H1. }
  set (c3 := on_agent _ (on_agent _ c1)).
  pose proof (chat_agent c3) as H3.
  destruct (chat rt c3) as [[reply2 | cls2 msg2] c4]; cbn [snd] in *;
    [|rewrite H3; cbn; now rewrite H1].
  destruct (_parse_llm_response rt reply2).
  - rewrite conclude_status. cbn. rewrite H3. cbn. now rewrite H1.
  - cbn. rewrite H3. cbn. now rewrite H1.
Qed.

Lemma execute_tool_status d (c : config W) :
  status (snd (_execute_tool rt d c)) = status c.
Proof.
  unfold _execute_tool.
  destruct (lookup_tool _ _) as [[[n tool]|]|]; try reflexivity.
  destruct (execute tool _ _) as [[res | cls e] w]; reflexivity.
Qed.

Lemma send_message_status d (c : config W) :
  status (snd (_send_message rt d c)) = status c.
Proof. unfold _send_message. destruct (Py.get_or "message" _ d); reflexivity. Qed.

Lemma eq_str_inj v a b : Py.eq_str v a = true -> Py.eq_str v b = true -> a = b.
Proof.
  destruct v; cbn; try discriminate.
  intros Ha Hb. apply String.eqb_eq in Ha, Hb. congruence.
Qed.

Lemma act_status d (c : config W) :
  status (snd (act rt d c))
  = if action_is d "goal_complete" then complete else status c.
Proof.
  unfold act.
  destruct (action_is d "use_tool") eqn:Ht.
  - destruct (action_is d "goal_complete") eqn:Hg.
    + pose proof (eq_str_inj _ _ _ Ht Hg). discriminate.
    + apply execute_tool_status.
  - destruct (action_is d "goal_complete") eqn:Hg; [reflexivity|].
    destruct (action_is d "document"); [reflexivity|].
    destruct (action_is d "send_message"); [apply send_message_status|reflexivity].
Qed.

Lemma status_eqb_true a b : status_eqb a b = true <-> a = b.
Proof. destruct a, b; cbn; split; intros; congruence. Qed.

(** The loop ends in the status it found, in [blocked], or, when it found
    the agent working, in [complete]. *)
Lemma iterate_status fuel max_iterations :
  forall iteration (c : config W),
    let s' := status (snd (iterate rt fuel max_iterations iteration c)) in
    s' = status c \/ s' = blocked \/ (status c = working /\ s' = complete).
Proof.
  induction fuel as [|fuel IH]; intros iteration c; cbn [iterate].
  - left. reflexivity.
  - destruct (status_eqb (status c) working) eqn:Hw; cbn [andb];
      [|left; reflexivity].
    apply status_eqb_true in Hw.
    destruct (iteration <? max_iterations); [|left; reflexivity].
    pose proof (reason_status c) as Hr.
    destruct (reason rt c) as [[d | cls msg] c1]; cbn [snd] in *;
      [|right; left; reflexivity].
    pose proof (act_status d c1) as Ha.
    destruct (act rt d c1) as [[v | cls msg] c2]; cbn [snd] in *;
      [|right; left; reflexivity].
    destruct (action_is d "goal_complete").
    + right; right. cbn [snd]. split; [exact Hw | exact Ha].
    + specialize (IH (iteration + 1) (pause rt c2)). cbn zeta in IH.
      assert (Hp : status (pause rt c2) = status c) by (cbn; congruence).
      rewrite Hp in IH. destruct IH as [IH | [IH | [_ IH]]]; auto.
Qed.

Lemma run_autonomously_status max_iterations (c : config W) :
  let s' := status (snd (run_autonomously rt max_iterations c)) in
  s' = status c \/ s' = blocked \/ (status c = working /\ s' = complete).
Proof.
  unfold run_autonomously.
  destruct (no_goal (agent c)); [left; reflexivity|].
  pose proof (iterate_status (Z.to_nat max_iterations) max_iterations 0 c) as H.
  destruct (iterate rt _ _ _ c) as [iteration c1]. cbn [snd] in *.
  destruct (iteration >=? max_iterations); cbn [snd]; [right; left; reflexivity|].
  exact H.
Qed.

End AgentFacts.

(** *** Tool registration *)

Section ToolFacts.

Context {W : Type}.

Import Agent.

Lemma get_set_same {A} k (v : A) d : Py.get k (Py.set k v d) = Some v.
Proof.
  induction d as [|[k' v'] d IH]; cbn.
  - now rewrite String.eqb_refl.
  - destruct (String.eqb k k') eqn:E; cbn; rewrite ?String.eqb_refl, ?E; auto.
Qed.

Lemma get_set_other {A} k k0 (v : A) d :
  k0 <> k -> Py.get k0 (Py.set k v d) = Py.get k0 d.
Proof.
  intros Hne. induction d as [|[k' v'] d IH]; cbn.
  - destruct (String.eqb k0 k) eqn:E; [apply String.eqb_eq in E; congruence | reflexivity].
  - destruct (String.eqb k k') eqn:E; cbn.
    + apply String.eqb_eq in E. subst k'.
      destruct (String.eqb k0 k) eqn:E'; [apply String.eqb_eq in E'; congruence | reflexivity].
    + now rewrite IH.
Qed.

Lemma keys_set_present {A} k (v : A) d :
  Py.has_key k d = true -> Py.keys (Py.set k v d) = Py.keys d.
Proof.
  unfold Py.has_key, Py.keys. induction d as [|[k' v'] d IH]; cbn; [discriminate|].
  destruct (String.eqb k k') eqn:E; cbn.
  - apply String.eqb_eq in E. now subst.
  - intros H. now rewrite IH.
Qed.

Lemma keys_set_absent {A} k (v : A) d :
  Py.has_key k d = false -> Py.keys (Py.set k v d) = Py.keys d ++ [k].
Proof.
  unfold Py.has_key, Py.keys. induction d as [|[k' v'] d IH]; cbn; [reflexivity|].
  destruct (String.eqb k k') eqn:E; cbn; [discriminate|].
  intros H. now rewrite IH.
Qed.

(** C2, as amended: registering a tool never fails, also under a name
    that is already registered; the tool map then holds the new tool under
    that name, in the place of the previous one, and every other
    registration is unchanged. *)
Theorem register_tool_replaces :
  forall (a : AuditAgent W) (tool : Tool W),
    let a' := register_tool tool a in
    Py.get (tool_name tool) (tools a') = Some tool
    /\ (forall other, other <> tool_name tool ->
                      Py.get other (tools a') = Py.get other (tools a))
    /\ Py.keys (tools a')
       = (if Py.has_key (tool_name tool) (tools a)
          then Py.keys (tools a)
          else Py.keys (tools a) ++ [tool_name tool])
    /\ (goal_status a', current_goal a', memory a', action_history a')
       = (goal_status a, current_goal a, memory a, action_history a).
Proof.
  intros a tool. cbn zeta. unfold register_tool. cbn [tools with_tools].
  split; [apply get_set_same|].
  split; [intros other Hne; now apply get_set_other|].
  split; [|reflexivity].
  destruct (Py.has_key _ _) eqn:E;
    [now apply keys_set_present | now apply keys_set_absent].
Qed.

End ToolFacts.

(** C2, as stated, fails: a second tool registered under the name of the
    first is accepted and takes its place in the tool map. *)
Lemma second_registration_overwrites :
  let a1 := Agent.register_tool lookup_v1 test_agent in
  let a2 := Agent.register_tool lookup_v2 a1 in
  option_map Agent.tool_description (Py.get "lookup" (Agent.tools a1))
  = Some "first registration"
  /\ option_map Agent.tool_description (Py.get "lookup" (Agent.tools a2))
     = Some "second registration"
  /\ Py.keys (Agent.tools a2) = ["lookup"].
Proof. vm_compute. repeat split; reflexivity. Qed.

(** *** The retry bound of [reason] *)




(** The same run, evaluated: two chat calls, the error of the parser, and
    the agent still working with only [goal_set] logged. *)
Example reason_on_prose :
  let r := Agent.reason bad_stub (Agent.set_goal bad_stub "g" start) in
  fst r = Raise "ValueError" "No JSON object found in response"
  /\ Agent.chat_calls (snd r) = 2%nat
  /\ Agent.logged (Agent.agent (snd r)) = ["goal_set"]
  /\ Agent.goal_status (Agent.agent (snd r)) = Agent.working.
Proof. vm_compute. repeat split; reflexivity. Qed.

(** A fenced reply that is JSON but not an object is not retried: [reason]
    raises on [decision.get] after a single chat call. *)
Example reason_on_json_list :
  let rt := scripted ("```json" +:+ PyStr.nl +:+ "[1]" +:+ PyStr.nl +:+ "```")
              [("[1]", Py.VList [Py.VInt 1])] in
  let r := Agent.reason rt (Agent.set_goal rt "g" start) in
  fst r = Raise "AttributeError" "'list' object has no attribute 'get'"
  /\ Agent.chat_calls (snd r) = 1%nat.
Proof. vm_compute. split; reflexivity. Qed.

(** *** Tool failures inside [act] *)



(** A registered tool whose [execute] raises: [act] returns the error, the
    memory and the action log take it up, the agent keeps working. *)
Example act_on_failing_tool :
  let c := Agent.set_goal done_stub "g"
             {| Agent.agent := Agent.init "TestAgent" "Test Auditor" [failing_tool] [];
                Agent.world := 0; Agent.chat_calls := 0 |} in
  let r := Agent.act done_stub
             [("action", Py.VStr "use_tool"); ("tool", Py.VStr "store_evidence")] c in
  fst r = Return (Py.VDict [("error",
            Py.VStr "Tool execution failed: Missing required parameter 'evidence_id'")])
  /\ Agent.logged (Agent.agent (snd r)) = ["goal_set"; "tool_call"]
  /\ Agent.goal_status (Agent.agent (snd r)) = Agent.working.
Proof. vm_compute. repeat split; reflexivity. Qed.

(** *** The autonomous loop *)

(** C3 fails where the goal is completed on the last allowed turn: with
    [max_iterations = 1] and a gateway that answers [goal_complete], the
    action log is [goal_set, reason, goal_complete] and the run still ends
    blocked. *)
Theorem goal_complete_on_last_turn_ends_blocked :
  let r := Agent.run_autonomously done_stub 1 (Agent.set_goal done_stub "g" start) in
  fst r = Return [("status", Py.VStr "blocked"); ("iterations", Py.VInt 1);
                  ("actions_taken", Py.VInt 3)]
  /\ Agent.goal_status (Agent.agent (snd r)) = Agent.blocked
  /\ Agent.logged (Agent.agent (snd r)) = ["goal_set"; "reason"; "goal_complete"].
Proof. vm_compute. repeat split; reflexivity. Qed.

(** Scenario 1 with the default cap of ten turns: the run ends complete
    after one chat call, with exactly the three actions logged. *)
Example scenario_goal_complete :
  let r := Agent.run_autonomously done_stub 10 (Agent.set_goal done_stub "g" start) in
  fst r = Return [("status", Py.VStr "complete"); ("iterations", Py.VInt 1);
                  ("actions_taken", Py.VInt 3)]
  /\ Agent.goal_status (Agent.agent (snd r)) = Agent.complete
  /\ Agent.logged (Agent.agent (snd r)) = ["goal_set"; "reason"; "goal_complete"]
  /\ Agent.chat_calls (snd r) = 1%nat.
Proof. vm_compute. repeat split; reflexivity. Qed.

(** A gateway that never parses blocks the run on its first turn. *)
Example scenario_never_parses :
  let r := Agent.run_autonomously bad_stub 10 (Agent.set_goal bad_stub "g" start) in
  Agent.goal_status (Agent.agent (snd r)) = Agent.blocked
  /\ Agent.chat_calls (snd r) = 2%nat.
Proof. vm_compute. split; reflexivity. Qed.

(** *** Goal status transitions *)

(** C6, as amended: [set_goal] is accepted in every goal status and leaves
    the agent working.  The status changes in these ways only: to working
    by [set_goal]; to complete when [act] handles a [goal_complete]
    decision; to idle by [reset]; [run_autonomously] ends in the status it
    found, in blocked, or, from working, in complete.  [reason] and [act] on
    any other decision leave the status as it is. *)
Theorem goal_status_transitions :
  forall (W : Type) (rt : Agent.Runtime W) (op : operation) (c : Agent.config W),
    let s := Agent.goal_status (Agent.agent c) in
    let s' := Agent.goal_status (Agent.agent (after rt op c)) in
    match op with
    | SetGoal goal =>
        s' = Agent.working
        /\ Agent.current_goal (Agent.agent (after rt op c)) = Some goal
    | Reason => s' = s
    | Act decision =>
        s' = if Agent.action_is decision "goal_complete" then Agent.complete else s
    | RunAutonomously _ =>
        s' = s \/ s' = Agent.blocked \/ (s = Agent.working /\ s' = Agent.complete)
    | Reset => s' = Agent.idle
    end.
Proof.
  intros W rt op c. cbn zeta.
  destruct op as [goal | | decision | max_iterations |]; cbn [after].
  - split; reflexivity.
  - apply reason_status.
  - apply act_status.
  - apply run_autonomously_status.
  - reflexivity.
Qed.

(** C6, as stated, fails: [set_goal] on an agent that is working on a goal
    is carried out; the goal is replaced and a second [goal_set] is
    logged. *)
Lemma set_goal_while_working :
  let c1 := Agent.set_goal done_stub "first goal" start in
  let c2 := Agent.set_goal done_stub "second goal" c1 in
  Agent.goal_status (Agent.agent c1) = Agent.working
  /\ Agent.goal_status (Agent.agent c2) = Agent.working
  /\ Agent.current_goal (Agent.agent c2) = Some "second goal"
  /\ Agent.logged (Agent.agent c2) = ["goal_set"; "goal_set"].
Proof. vm_compute. repeat split; reflexivity. Qed.

(** Other steps outside the transitions the claim lists: [reset] takes a
    working agent to idle, and [act] completes the goal of an idle one. *)
Example reset_while_working :
  Agent.goal_status
    (Agent.agent (Agent.reset (Agent.set_goal done_stub "g" start)))
  = Agent.idle.
Proof. reflexivity. Qed.

Example complete_while_idle :
  Agent.goal_status (Agent.agent start) = Agent.idle
  /\ Agent.goal_status (Agent.agent (snd (Agent.act done_stub done_decision start)))
     = Agent.complete.
Proof. vm_compute. split; reflexivity. Qed.

(** ** The task ledger *)

(** *** Lines of a text *)

Lemma str_app_cons c (a b : string) : String c a +:+ b = String c (a +:+ b).
Proof. reflexivity. Qed.

Lemma str_app_nil_l (b : string) : EmptyString +:+ b = b.
Proof. reflexivity. Qed.

Lemma str_app_assoc (a b c : string) : (a +:+ b) +:+ c = a +:+ (b +:+ c).
Proof.
  induction a as [|x a IH]; [reflexivity|].
  rewrite !str_app_cons. now rewrite IH.
Qed.

Lemma str_app_nil_r (a : string) : a +:+ EmptyString = a.
Proof.
  induction a as [|x a IH]; [reflexivity|]. now rewrite str_app_cons, IH.
Qed.

Lemma lines_cons_nl (s : string) :
  PyStr.lines (String PyStr.newline s) = EmptyString :: PyStr.lines s.
Proof. reflexivity. Qed.

Lemma lines_cons_other c (s : string) :
  Ascii.eqb c PyStr.newline = false ->
  PyStr.lines (String c s)
  = match PyStr.lines s with
    | l :: ls => String c l :: ls
    | [] => [String c EmptyString]
    end.
Proof. intros H. cbn [PyStr.lines]. now rewrite H. Qed.

Lemma lines_not_nil (s : string) : PyStr.lines s <> [].
Proof.
  induction s as [|c s IH]; [discriminate|].
  destruct (Ascii.eqb c PyStr.newline) eqn:E.
  - apply Ascii.eqb_eq in E. subst c. rewrite lines_cons_nl. discriminate.
  - rewrite (lines_cons_other _ _ E). destruct (PyStr.lines s); discriminate.
Qed.

(** The lines of two texts joined by a line break are the lines of the one
    followed by the lines of the other. *)
Lemma lines_app_nl (a b : string) :
  PyStr.lines (a +:+ PyStr.nl +:+ b) = PyStr.lines a ++ PyStr.lines b.
Proof.
  induction a as [|c a IH].
  - reflexivity.
  - rewrite str_app_cons.
    destruct (Ascii.eqb c PyStr.newline) eqn:E.
    + apply Ascii.eqb_eq in E. subst c. rewrite !lines_cons_nl, IH. reflexivity.
    + rewrite !(lines_cons_other _ _ E), IH.
      pose proof (lines_not_nil a) as Hne.
      destruct (PyStr.lines a); [congruence | reflexivity].
Qed.

Lemma contains_nl_cons c (s : string) :
  PyStr.contains PyStr.nl (String c s) = false ->
  Ascii.eqb c PyStr.newline = false /\ PyStr.contains PyStr.nl s = false.
Proof.
  unfold PyStr.contains, PyStr.nl. cbn [PyStr.find0 PyStr.startswith].
  rewrite (Ascii.eqb_sym PyStr.newline c).
  destruct (Ascii.eqb c PyStr.newline); [discriminate|].
  destruct s; cbn [PyStr.startswith].
  - intros _. split; reflexivity.
  - intros H. split; [reflexivity|].
    destruct (PyStr.find0 _ _); [discriminate | reflexivity].
Qed.

(** A text without a line break is a single line. *)
Lemma lines_one (s : string) :
  PyStr.contains PyStr.nl s = false -> PyStr.lines s = [s].
Proof.
  induction s as [|c s IH]; intros H; [reflexivity|].
  apply contains_nl_cons in H as [Hc Hs].
  rewrite (lines_cons_other _ _ Hc), (IH Hs). reflexivity.
Qed.

(** *** Stripping a checkbox line *)

Lemma rstrip_app_keep (a x : string) :
  x <> EmptyString -> PyStr.rstrip x = x -> PyStr.rstrip (a +:+ x) = a +:+ x.
Proof.
  intros Hne Hx. induction a as [|c a IH]; [exact Hx|].
  rewrite str_app_cons. cbn [PyStr.rstrip]. rewrite IH.
  destruct (a +:+ x) eqn:E; [|reflexivity].
  destruct a; [rewrite str_app_nil_l in E; congruence | rewrite str_app_cons in E; discriminate].
Qed.

Lemma rstrip_idem (s : string) : PyStr.rstrip (PyStr.rstrip s) = PyStr.rstrip s.
Proof.
  induction s as [|c s IH]; [reflexivity|].
  cbn [PyStr.rstrip].
  destruct (PyStr.rstrip s) as [|d r] eqn:E.
  - destruct (PyStr.isspace c) eqn:Hc; [reflexivity|].
    cbn [PyStr.rstrip]. now rewrite Hc.
  - cbn [PyStr.rstrip]. cbn [PyStr.rstrip] in IH.
    destruct (PyStr.rstrip r) eqn:Er.
    + destruct (PyStr.isspace d); [discriminate | now rewrite IH].
    + now rewrite IH.
Qed.

Lemma strip_fixed_rstrip (x : string) : PyStr.strip x = x -> PyStr.rstrip x = x.
Proof.
  unfold PyStr.strip. intros H. rewrite <- H at 1. rewrite rstrip_idem. exact H.
Qed.

(** The checkbox line of a one-line task: the parser sees the box and reads
    the task back. *)
Lemma strip_box_line (x : string) :
  PyStr.strip x = x ->
  let t := PyStr.strip (box +:+ x) in
  PyStr.startswith "- [ ]" t = true
  /\ PyStr.slice_from t 6 = x
  /\ PyStr.startswith "#" t = false.
Proof.
  intros Hx. cbn zeta.
  destruct x as [|c x'] eqn:Ex.
  - vm_compute. repeat split.
  - rewrite <- Ex in *.
    assert (Hne : x <> EmptyString) by (rewrite Ex; discriminate).
    assert (Hs : PyStr.strip (box +:+ x) = box +:+ x).
    { unfold PyStr.strip.
      change (PyStr.lstrip (box +:+ x)) with (box +:+ x).
      apply rstrip_app_keep; [exact Hne | now apply strip_fixed_rstrip]. }
    rewrite Hs. split; [reflexivity|]. split; [|reflexivity].
    unfold PyStr.slice_from, PyStr.clamp, PyStr.len.
    change (String.length (box +:+ x)) with (6 + String.length x)%nat.
    change (6 <? 0) with false. cbv iota.
    replace (Z.to_nat _) with 6%nat by lia.
    reflexivity.
Qed.

(** *** Reading back what was written *)

Section ParseFacts.

Import Ledger.

Lemma parse_lines_app l1 l2 st :
  parse_lines (l1 ++ l2) st = parse_lines l2 (parse_lines l1 st).
Proof. apply fold_left_app. Qed.

Lemma add_task_keeps s s0 task x t :
  In x (in_section s t) -> In x (in_section s (add_task s0 task t)).
Proof.
  destruct s, s0; cbn; intros H; try assumption; apply in_or_app; now left.
Qed.

Lemma add_task_adds s task t : In task (in_section s (add_task s task t)).
Proof. destruct s; cbn; apply in_or_app; right; now left. Qed.

(** The parser only ever adds to the lists. *)
Lemma parse_line_keeps s x st line :
  In x (in_section s (snd st)) -> In x (in_section s (snd (parse_line st line))).
Proof.
  intros H. unfold parse_line.
  repeat match goal with
         | |- context [if ?b then _ else _] => destruct b
         end; try exact H.
  destruct (fst st); [now apply add_task_keeps | exact H].
Qed.

Lemma parse_lines_keep s x ls :
  forall st, In x (in_section s (snd st)) ->
             In x (in_section s (snd (parse_lines ls st))).
Proof.
  induction ls as [|l ls IH]; intros st H; [exact H|].
  cbn [parse_lines fold_left]. apply IH. now apply parse_line_keeps.
Qed.

Lemma startswith_hash_neq t (lit : string) :
  PyStr.startswith "#" t = false ->
  PyStr.startswith "#" lit = true ->
  String.eqb t lit = false /\ PyStr.startswith lit t = false.
Proof.
  intros Ht Hl.
  destruct lit as [|d lit]; [discriminate|].
  cbn [PyStr.startswith] in Hl.
  destruct (Ascii.eqb "#" d) eqn:Ed; [|discriminate].
  apply Ascii.eqb_eq in Ed. subst d.
  destruct t as [|c t]; [split; reflexivity|].
  cbn [PyStr.startswith] in Ht |- *.
  destruct (Ascii.eqb "#" c) eqn:Ec; [discriminate|].
  cbn [String.eqb]. rewrite (Ascii.eqb_sym c "#"), Ec. split; reflexivity.
Qed.

(** A checkbox line of a one-line task, read inside a section, puts the task
    into that section. *)
Lemma parse_box_line s x st :
  PyStr.strip x = x ->
  fst st = Some s ->
  let st' := parse_line st (box +:+ x) in
  fst st' = Some s /\ In x (in_section s (snd st')).
Proof.
  intros Hx Hs. cbn zeta.
  destruct (strip_box_line x Hx) as (Hbox & Hslice & Hhash).
  unfold parse_line.
  destruct (startswith_hash_neq _ "## Current Tasks" Hhash eq_refl) as [-> _].
  destruct (startswith_hash_neq _ "## Completed Tasks" Hhash eq_refl) as [-> _].
  destruct (startswith_hash_neq _ "## Delegated" Hhash eq_refl) as [_ ->].
  rewrite Hbox. cbn [orb]. rewrite Hs, Hslice. cbn [fst snd].
  split; [reflexivity | apply add_task_adds].
Qed.

(** What follows a checkbox line in a text does not take the task away. *)
Lemma parse_after_box s x st tail :
  Ledger.one_line x = true ->
  fst st = Some s ->
  In x (in_section s
          (snd (parse_lines (PyStr.lines (box +:+ x +:+ PyStr.nl +:+ tail)) st))).
Proof.
  intros Hone Hs. unfold one_line in Hone.
  apply andb_prop in Hone as [Hnl Hstrip].
  apply negb_true_iff in Hnl. apply String.eqb_eq in Hstrip.
  rewrite <- str_app_assoc, lines_app_nl, parse_lines_app.
  assert (Hline : PyStr.lines (box +:+ x) = [box +:+ x]).
  { unfold box. rewrite !str_app_cons, str_app_nil_l.
    rewrite !lines_cons_other by reflexivity.
    now rewrite (lines_one x Hnl). }
  rewrite Hline. cbn [parse_lines fold_left].
  apply parse_lines_keep.
  now apply parse_box_line.
Qed.

Lemma format_entry_shape today task assigned_by priority due :
  exists tail,
    _format_task_entry today task assigned_by priority due
    = box +:+ task +:+ PyStr.nl +:+ tail.
Proof.
  unfold _format_task_entry.
  destruct due as [d|]; [destruct (PyStr.truthy d)|];
    eexists; unfold box; rewrite ?str_app_assoc; reflexivity.
Qed.

Lemma delegated_entry_shape today task to_agent priority :
  exists tail,
    delegated_entry today task to_agent priority
    = box +:+ task +:+ PyStr.nl +:+ tail.
Proof.
  unfold delegated_entry. eexists. unfold box. rewrite ?str_app_assoc. reflexivity.
Qed.

(** The assignee's text after the write shows the task as current. *)
Lemma add_to_current_shows content today task assigned_by priority due :
  ready_for_current content ->
  one_line task = true ->
  In task
    (current_tasks
       (_parse_task_file
          (add_to_current content
             (_format_task_entry today task assigned_by priority due)))).
Proof.
  intros (body & Hpart & Hsec) Hone.
  destruct (format_entry_shape today task assigned_by priority due) as [tail ->].
  unfold add_to_current, _parse_task_file. rewrite Hpart.
  rewrite ?str_app_assoc. rewrite lines_app_nl, parse_lines_app.
  change current_tasks with (in_section current).
  apply parse_after_box; [exact Hone | exact Hsec].
Qed.

Lemma delegated_heading st :
  fst (parse_line st "## Delegated Tasks") = Some delegated
  /\ fst (parse_line st "## Delegated Tasks (Waiting on Others)") = Some delegated.
Proof. split; reflexivity. Qed.

(** The assigner's text after the write shows the task as delegated. *)
Lemma add_to_delegated_shows content today task to_agent priority :
  ready_for_delegated content ->
  one_line task = true ->
  In task
    (delegated_tasks
       (_parse_task_file
          (add_to_delegated content (delegated_entry today task to_agent priority)))).
Proof.
  intros Hready Hone.
  destruct (delegated_entry_shape today task to_agent priority) as [tail ->].
  unfold add_to_delegated, _parse_task_file.
  change delegated_tasks with (in_section delegated).
  destruct (PyStr.contains "## Delegated Tasks" content) eqn:Hc.
  - destruct (Hready Hc) as [-> | [body ->]].
    + rewrite str_app_nil_l.
      rewrite (lines_app_nl "## Delegated Tasks"), parse_lines_app.
      rewrite ?str_app_assoc.
      apply parse_after_box; [exact Hone|].
      cbn [PyStr.lines parse_lines fold_left]. apply delegated_heading.
    + rewrite ?str_app_assoc.
      rewrite lines_app_nl, parse_lines_app.
      rewrite (lines_app_nl "## Delegated Tasks"), parse_lines_app.
      apply parse_after_box; [exact Hone|].
      apply delegated_heading.
  - rewrite ?str_app_assoc.
    rewrite lines_app_nl, parse_lines_app.
    rewrite (lines_app_nl "## Delegated Tasks (Waiting on Others)"), parse_lines_app.
    apply parse_after_box; [exact Hone|].
    apply delegated_heading.
Qed.

End ParseFacts.

(** *** Files *)

Section DirFacts.

Import Ledger.

Lemma write_text_spec f text d :
  match write_text f text d with
  | (Return _, d1) =>
      files d1 = <[f := text]> (files d)
      /\ (fail_after d = None -> fail_after d1 = None)
  | (Raise _ _, d1) => fail_after d <> None /\ d1 = d
  end.
Proof.
  unfold write_text. destruct (fail_after d) as [[|n]|]; cbn; split; congruence.
Qed.

Lemma ensure_spec agent_name d :
  match ensure agent_name d with
  | (Return _, d1) =>
      files d1 !! _get_task_file agent_name = Some (ledger_text d agent_name)
      /\ (forall f, f <> _get_task_file agent_name -> files d1 !! f = files d !! f)
      /\ (fail_after d = None -> fail_after d1 = None)
  | (Raise _ _, d1) => fail_after d <> None /\ d1 = d
  end.
Proof.
  unfold ensure, bind, file_exists, ledger_text, _init_task_file.
  destruct (files d !! _get_task_file agent_name) as [text|] eqn:E.
  - rewrite bool_decide_eq_true_2 by eauto. cbn. rewrite E. auto.
  - rewrite bool_decide_eq_false_2 by (intros [? ?]; discriminate). cbn [negb].
    pose proof (write_text_spec (_get_task_file agent_name) (init_text agent_name) d) as Hw.
    destruct (write_text _ _ d) as [[[]|cls msg] d1]; [|exact Hw].
    destruct Hw as [Hf Hn]. rewrite Hf.
    split; [apply lookup_insert_eq|].
    split; [intros f Hne; now apply lookup_insert_ne | exact Hn].
Qed.

Lemma read_text_found f text d :
  files d !! f = Some text -> read_text f d = (Return text, d).
Proof. unfold read_text. now intros ->. Qed.

Lemma assign_task_steps today from_agent to_agent task priority due :
  assign_task today from_agent to_agent task priority due
  = bind (ensure to_agent) (fun _ =>
    bind (read_text (_get_task_file to_agent)) (fun content =>
    bind (write_text (_get_task_file to_agent)
            (add_to_current content
               (_format_task_entry today task from_agent priority due))) (fun _ =>
    bind (ensure from_agent) (fun _ =>
    bind (read_text (_get_task_file from_agent)) (fun content' =>
    bind (write_text (_get_task_file from_agent)
            (add_to_delegated content'
               (delegated_entry today task to_agent priority))) (fun _ =>
    ret [("status", Py.VStr "success");
         ("message", Py.VStr ("Task assigned from " +:+ from_agent +:+ " to " +:+ to_agent));
         ("task", Py.VStr task);
         ("assignee", Py.VStr to_agent);
         ("priority", Py.VStr priority)])))))).
Proof. reflexivity. Qed.

End DirFacts.

(** *** Splitting a text past a line that holds no separator *)

Section SplitFacts.

Variable pat : string.
Hypothesis pat_not_empty : pat <> EmptyString.
Hypothesis pat_one_line : has_char PyStr.newline pat = false.

Lemma startswith_past_nl : forall (p x y : string),
  has_char PyStr.newline p = false ->
  PyStr.startswith p (x +:+ String PyStr.newline y) = PyStr.startswith p x.
Proof.
  induction p as [|a p IH]; intros x y Hp; [reflexivity|].
  cbn [has_char] in Hp. apply orb_false_elim in Hp as [Ha Hp].
  destruct x as [|b x].
  - rewrite str_app_nil_l. cbn [PyStr.startswith]. now rewrite Ha.
  - rewrite str_app_cons. cbn [PyStr.startswith].
    destruct (Ascii.eqb a b); [now apply IH | reflexivity].
Qed.

Lemma startswith_nothing : PyStr.startswith pat EmptyString = false.
Proof. destruct pat; [now destruct pat_not_empty | reflexivity]. Qed.

Lemma str_of_list_app (a b : list ascii) :
  string_of_list_ascii (a ++ b) = string_of_list_ascii a +:+ string_of_list_ascii b.
Proof.
  induction a as [|x a IH]; [now rewrite str_app_nil_l|].
  cbn [app string_of_list_ascii]. now rewrite str_app_cons, IH.
Qed.

Lemma part0_split_aux_cur (s : string) :
  forall cur,
    Ledger.part0 (PyStr.split_aux pat O cur s)
    = string_of_list_ascii (rev cur) +:+ Ledger.part0 (PyStr.split_aux pat O [] s).
Proof.
  induction s as [|c s IH]; intros cur.
  - cbn. now rewrite str_app_nil_r.
  - cbn [PyStr.split_aux]. destruct (PyStr.startswith pat (String c s)).
    + cbn. now rewrite str_app_nil_r.
    + rewrite (IH (c :: cur)), (IH [c]). cbn [rev app].
      now rewrite str_of_list_app, str_app_assoc.
Qed.

Lemma part0_split_cons c (s : string) :
  PyStr.startswith pat (String c s) = false ->
  Ledger.part0 (PyStr.split (String c s) pat)
  = String c (Ledger.part0 (PyStr.split s pat)).
Proof.
  intros H. unfold PyStr.split. cbn [PyStr.split_aux]. rewrite H.
  rewrite part0_split_aux_cur. cbn [rev app string_of_list_ascii].
  now rewrite str_app_cons, str_app_nil_l.
Qed.

(** Text that holds no separator and ends its line comes back whole in the
    first part of a split. *)
Lemma part0_split_past (x y : string) :
  PyStr.find0 pat x = None ->
  Ledger.part0 (PyStr.split (x +:+ PyStr.nl +:+ y) pat)
  = x +:+ PyStr.nl +:+ Ledger.part0 (PyStr.split y pat).
Proof.
  unfold PyStr.nl. rewrite !str_app_cons, !str_app_nil_l.
  induction x as [|c x IH]; intros Hx.
  - rewrite !str_app_nil_l. apply part0_split_cons.
    rewrite <- (str_app_nil_l (String PyStr.newline y)).
    rewrite (startswith_past_nl pat EmptyString y pat_one_line).
    apply startswith_nothing.
  - cbn [PyStr.find0] in Hx.
    destruct (PyStr.startswith pat (String c x)) eqn:Hs; [discriminate|].
    destruct (PyStr.find0 pat x) eqn:Hf; [discriminate|].
    rewrite !str_app_cons. rewrite part0_split_cons.
    + now rewrite IH.
    + rewrite <- str_app_cons.
      now rewrite (startswith_past_nl pat (String c x) y pat_one_line).
Qed.

End SplitFacts.

(** *** Assigning a task to oneself *)

Section SelfAssignment.

Import Ledger.

(** A delegated entry put into a text that already holds the task under
    Current leaves it there, when the first delegated heading comes after
    the entry. *)
Lemma add_to_delegated_keeps_current content today task assigned_by priority due entry :
  ready_for_current content ->
  one_line task = true ->
  PyStr.contains "## Delegated Tasks"
    (part0 (PyStr.split content "## Completed Tasks")
       +:+ _format_task_entry today task assigned_by priority due) = false ->
  In task
    (current_tasks
       (_parse_task_file
          (add_to_delegated
             (add_to_current content
                (_format_task_entry today task assigned_by priority due))
             entry))).
Proof.
  intros (body & Hpart & Hsec) Hone Hclear.
  unfold add_to_current. rewrite Hpart in *.
  set (completed_section :=
         if (1 <? length (PyStr.split content "## Completed Tasks"))%nat
         then "## Completed Tasks"
                +:+ nth 1 (PyStr.split content "## Completed Tasks") EmptyString
         else PyStr.nl +:+ "## Completed Tasks" +:+ PyStr.nl).
  set (task_entry := _format_task_entry today task assigned_by priority due) in *.
  assert (Hshape : forall rest,
             In task
               (current_tasks
                  (_parse_task_file (((body +:+ PyStr.nl) +:+ task_entry) +:+ rest)))).
  { intros rest. unfold task_entry.
    destruct (format_entry_shape today task assigned_by priority due) as [tail ->].
    unfold _parse_task_file. rewrite ?str_app_assoc.
    rewrite lines_app_nl, parse_lines_app.
    change current_tasks with (in_section current).
    apply parse_after_box; [exact Hone | exact Hsec]. }
  assert (Htext : (body +:+ PyStr.nl) +:+ task_entry +:+ PyStr.nl +:+ completed_section
                  = ((body +:+ PyStr.nl) +:+ task_entry) +:+ PyStr.nl +:+ completed_section)
    by now rewrite !str_app_assoc.
  rewrite Htext.
  unfold add_to_delegated.
  match goal with
  | |- context [if PyStr.contains ?p ?t then _ else _] =>
      destruct (PyStr.contains p t) eqn:Hc
  end.
  - assert (Hnone : PyStr.find0 "## Delegated Tasks"
                      ((body +:+ PyStr.nl) +:+ task_entry) = None).
    { unfold PyStr.contains in Hclear.
      destruct (PyStr.find0 _ _); [discriminate | reflexivity]. }
    rewrite (part0_split_past "## Delegated Tasks" ltac:(discriminate) eq_refl _ _ Hnone).
    rewrite !(str_app_assoc ((body +:+ PyStr.nl) +:+ task_entry)).
    apply Hshape.
  - rewrite !(str_app_assoc ((body +:+ PyStr.nl) +:+ task_entry)).
    apply Hshape.
Qed.

(** What [assign_task] leaves when it returns, whether or not the two
    agents share a ledger file. *)
Lemma assign_task_run_any today from_agent to_agent task priority due d :
  match assign_task today from_agent to_agent task priority due d with
  | (Return _, d') =>
      files d' !! _get_task_file from_agent
      = Some (add_to_delegated
                (assigner_text d today from_agent to_agent task priority due)
                (delegated_entry today task to_agent priority))
      /\ (_get_task_file from_agent <> _get_task_file to_agent ->
          files d' !! _get_task_file to_agent
          = Some (add_to_current (ledger_text d to_agent)
                    (_format_task_entry today task from_agent priority due)))
  | (Raise _ _, _) => fail_after d <> None
  end.
Proof.
  rewrite assign_task_steps. unfold bind at 1.
  pose proof (ensure_spec to_agent d) as H1.
  destruct (ensure to_agent d) as [[[]|cls msg] d1]; [|now destruct H1].
  destruct H1 as (Hb1 & Hother1 & Hn1).
  unfold bind at 1. rewrite (read_text_found _ _ _ Hb1).
  unfold bind at 1.
  match goal with
  | |- context [write_text ?f ?t d1] =>
      pose proof (write_text_spec f t d1) as H2;
      destruct (write_text f t d1) as [[[]|cls msg] d2]
  end; [|destruct H2 as [H2 _]; intros Hn; apply H2; auto].
  destruct H2 as (Hf2 & Hn2).
  unfold bind at 1.
  pose proof (ensure_spec from_agent d2) as H3.
  destruct (ensure from_agent d2) as [[[]|cls msg] d3];
    [|destruct H3 as [H3 _]; intros Hn; apply H3; auto].
  destruct H3 as (Ha3 & Hother3 & Hn3).
  assert (Htext : ledger_text d2 from_agent
                  = assigner_text d today from_agent to_agent task priority due).
  { unfold ledger_text at 1, assigner_text. rewrite Hf2.
    destruct (decide (_get_task_file from_agent = _get_task_file to_agent)) as [He|Hne].
    - rewrite bool_decide_eq_true_2 by exact He.
      rewrite He. now rewrite lookup_insert_eq.
    - rewrite bool_decide_eq_false_2 by exact Hne.
      rewrite lookup_insert_ne by congruence.
      unfold ledger_text. now rewrite Hother1. }
  rewrite Htext in Ha3.
  unfold bind at 1. rewrite (read_text_found _ _ _ Ha3).
  unfold bind at 1.
  match goal with
  | |- context [write_text ?f ?t d3] =>
      pose proof (write_text_spec f t d3) as H4;
      destruct (write_text f t d3) as [[[]|cls msg] d4]
  end; [|destruct H4 as [H4 _]; intros Hn; apply H4; auto].
  destruct H4 as (Hf4 & Hn4). cbn [ret].
  rewrite Hf4. split.
  - apply lookup_insert_eq.
  - intros Hne. rewrite lookup_insert_ne by congruence.
    rewrite Hother3 by congruence. rewrite Hf2. apply lookup_insert_eq.
Qed.

End SelfAssignment.

(** C8, as amended: delegation is recorded on both sides whenever
    [assign_task] returns, and it returns whenever no write fails, for a
    one-line task without a carriage return, an assignee's ledger whose text
    before the completed section ends a line inside the current section,
    and an assigner's ledger, as the second half of the call reads it,
    whose delegated heading (if it has one) starts a line.  When the two
    agents share a ledger file the second half reads what the first has
    written; the delegated heading text must then not occur in the new entry
    or before the completed section.  (The assignee's ledger is written
    first and nothing is rolled back when a later write fails.) *)
Theorem assign_task_records_both :
  forall (d : Ledger.Dir) (today from_agent to_agent task priority : string)
         (due : option string),
    Ledger.one_line task = true ->
    has_char carriage_return task = false ->
    Ledger.ready_for_current (Ledger.ledger_text d to_agent) ->
    Ledger.ready_for_delegated
      (assigner_text d today from_agent to_agent task priority due) ->
    (Ledger._get_task_file from_agent = Ledger._get_task_file to_agent ->
     entry_clear_of_delegated d today from_agent to_agent task priority due) ->
    let r := Ledger.assign_task today from_agent to_agent task priority due d in
    (Ledger.fail_after d = None -> is_return (fst r) = true)
    /\ (is_return (fst r) = true ->
        Ledger.shows_current (snd r) to_agent task
        /\ Ledger.shows_delegated (snd r) from_agent task).
Proof.
  intros d today from_agent to_agent task priority due Hone Hcr Hcur Hdel Hself.
  cbn zeta.
  pose proof (assign_task_run_any today from_agent to_agent task priority due d)
    as Hrun.
  destruct (Ledger.assign_task today from_agent to_agent task priority due d)
    as [[r | cls msg] d'].
  - destruct Hrun as [Hfrom Hto]. split; [reflexivity|]. intros _.
    unfold Ledger.shows_current, Ledger.shows_delegated, Ledger.ledger.
    cbn [snd]. split.
    + destruct (decide (Ledger._get_task_file from_agent
                        = Ledger._get_task_file to_agent)) as [He|Hne].
      * rewrite <- He, Hfrom. unfold assigner_text.
        rewrite bool_decide_eq_true_2 by exact He.
        apply add_to_delegated_keeps_current; [exact Hcur | exact Hone|].
        exact (Hself He).
      * rewrite (Hto Hne). now apply add_to_current_shows.
    + rewrite Hfrom. now apply add_to_delegated_shows.
  - split; [intros Hn; contradiction | discriminate].
Qed.

Lemma assign_task_records_both_witness :
  let r := Ledger.assign_task "2025-01-15" "Esther" "Esther" "Collect IAM evidence"
             "high" None empty_dir in
  (Ledger.fail_after empty_dir = None -> is_return (fst r) = true)
  /\ (is_return (fst r) = true ->
      Ledger.shows_current (snd r) "Esther" "Collect IAM evidence"
      /\ Ledger.shows_delegated (snd r) "Esther" "Collect IAM evidence").
Proof.
  apply (assign_task_records_both empty_dir "2025-01-15" "Esther" "Esther"
           "Collect IAM evidence" "high" None).
  - vm_compute. reflexivity.
  - reflexivity.
  - exists ("# Esther's Tasks" +:+ PyStr.nl +:+ PyStr.nl +:+ "## Current Tasks" +:+ PyStr.nl).
    vm_compute. split; reflexivity.
  - intros _. right.
    exists ("# Esther's Tasks" +:+ PyStr.nl +:+ PyStr.nl +:+ "## Current Tasks" +:+ PyStr.nl
              +:+ PyStr.nl
              +:+ Ledger._format_task_entry "2025-01-15" "Collect IAM evidence"
                    "Esther" "high" None
              +:+ PyStr.nl +:+ "## Completed Tasks" +:+ PyStr.nl).
    vm_compute. reflexivity.
  - intros _. vm_compute. reflexivity.
Defined.

(** C8, as stated, fails: when the last write of [assign_task] fails, the
    call raises and the assignee's Current section shows the task while the
    assigner's Delegated section does not. *)
Lemma delegation_half_written :
  let r := Ledger.assign_task "2025-01-15" "Esther" "Hillel" "Collect IAM evidence"
             "high" None failing_dir in
  is_raise (fst r) = true
  /\ Ledger.shows_current (snd r) "Hillel" "Collect IAM evidence"
  /\ ~ Ledger.shows_delegated (snd r) "Esther" "Collect IAM evidence"
  /\ ~ Ledger.all_or_nothing (snd r) "Esther" "Hillel" "Collect IAM evidence".
Proof.
  cbn zeta.
  set (r := Ledger.assign_task _ _ _ _ _ _ _).
  assert (Hraise : is_raise (fst r) = true) by (vm_compute; reflexivity).
  assert (Hto : Ledger.current_tasks (Ledger.ledger (snd r) "Hillel")
                = ["Collect IAM evidence"]) by (vm_compute; reflexivity).
  assert (Hfrom : Ledger.delegated_tasks (Ledger.ledger (snd r) "Esther") = [])
    by (vm_compute; reflexivity).
  assert (Hcur : Ledger.shows_current (snd r) "Hillel" "Collect IAM evidence")
    by (unfold Ledger.shows_current; rewrite Hto; now left).
  assert (Hdel : ~ Ledger.shows_delegated (snd r) "Esther" "Collect IAM evidence")
    by (unfold Ledger.shows_delegated; rewrite Hfrom; intros []).
  repeat split; try assumption.
  intros [[_ H] | [H _]]; [apply Hdel, H | apply H, Hcur].
Qed.

(** Without a failure the same call records both sides. *)
Example delegation_recorded :
  let r := Ledger.assign_task "2025-01-15" "Esther" "Hillel" "Collect IAM evidence"
             "high" None empty_dir in
  is_return (fst r) = true
  /\ Ledger.current_tasks (Ledger.ledger (snd r) "Hillel") = ["Collect IAM evidence"]
  /\ Ledger.delegated_tasks (Ledger.ledger (snd r) "Esther") = ["Collect IAM evidence"].
Proof. vm_compute. repeat split; reflexivity. Qed.

(** A task text of two lines is read back as its first line only, which is
    why the theorem asks for a one-line task. *)
Example two_line_task_cut :
  let task := "Collect evidence" +:+ PyStr.nl +:+ "for IAM" in
  let r := Ledger.assign_task "2025-01-15" "Esther" "Hillel" task "high" None empty_dir in
  Ledger.current_tasks (Ledger.ledger (snd r) "Hillel") = ["Collect evidence"].
Proof. vm_compute. reflexivity. Qed.

(** An assignee whose current section does not come last before the
    completed one: the call returns and the assigner's Delegated section
    shows the task, the assignee's Current section does not.  [assign_task]
    puts the entry before the completed heading without looking for the
    current one. *)
Example assignee_without_current_section :
  let r := Ledger.assign_task "2025-01-15" "Esther" "Hillel" "Collect IAM evidence"
             "high" None swapped_dir in
  is_return (fst r) = true
  /\ Ledger.current_tasks (Ledger.ledger (snd r) "Hillel") = []
  /\ Ledger.delegated_tasks (Ledger.ledger (snd r) "Esther") = ["Collect IAM evidence"].
Proof. vm_compute. repeat split; reflexivity. Qed.

(** An assignee whose text before the completed heading does not end its
    line: the entry goes onto that line, and the Current section shows
    another text than the task. *)
Example assignee_with_unfinished_line :
  let r := Ledger.assign_task "2025-01-15" "Esther" "Hillel" "Collect IAM evidence"
             "high" None unfinished_dir in
  is_return (fst r) = true
  /\ Ledger.current_tasks (Ledger.ledger (snd r) "Hillel")
     = ["Review S3- [ ] Collect IAM evidence"]
  /\ Ledger.delegated_tasks (Ledger.ledger (snd r) "Esther") = ["Collect IAM evidence"].
Proof. vm_compute. repeat split; reflexivity. Qed.

(** An assigner whose ledger holds the delegated heading text inside a
    line: the entry is put there, under no delegated heading, and the
    Delegated section does not show the task. *)
Example delegated_heading_inside_a_line :
  let r := Ledger.assign_task "2025-01-15" "Esther" "Hillel" "Collect IAM evidence"
             "high" None midline_dir in
  is_return (fst r) = true
  /\ Ledger.current_tasks (Ledger.ledger (snd r) "Hillel") = ["Collect IAM evidence"]
  /\ Ledger.delegated_tasks (Ledger.ledger (snd r) "Esther") = [].
Proof. vm_compute. repeat split; reflexivity. Qed.

(** A task assigned to oneself whose text holds the delegated heading text:
    the second half of the call splits the entry the first half wrote, and
    the Delegated section does not show the task. *)
Example self_assignment_cut_by_heading_text :
  let task := "Tidy the ## Delegated Tasks list" in
  let r := Ledger.assign_task "2025-01-15" "Esther" "Esther" task "high" None empty_dir in
  Ledger.one_line task = true
  /\ is_return (fst r) = true
  /\ Ledger.delegated_tasks (Ledger.ledger (snd r) "Esther") = [].
Proof. vm_compute. repeat split; reflexivity. Qed.

(** ** The embedding itself *)

(** *** [lines] is [split] at the line break *)

Lemma string_of_list_ascii_snoc (a : list ascii) (c : ascii) (l : string) :
  string_of_list_ascii (a ++ [c]) +:+ l = string_of_list_ascii a +:+ String c l.
Proof.
  induction a as [|x a IH]; [reflexivity|].
  cbn [app string_of_list_ascii]. now rewrite !str_app_cons, IH.
Qed.

Lemma split_aux_lines (s : string) :
  forall cur,
    PyStr.split_aux PyStr.nl O cur s
    = match PyStr.lines s with
      | l :: ls => (string_of_list_ascii (rev cur) +:+ l) :: ls
      | [] => []
      end.
Proof.
  induction s as [|c s IH]; intros cur.
  - cbn. now rewrite str_app_nil_r.
  - cbn [PyStr.split_aux PyStr.startswith PyStr.nl].
    rewrite (Ascii.eqb_sym PyStr.newline c).
    destruct (Ascii.eqb c PyStr.newline) eqn:E.
    + apply Ascii.eqb_eq in E. subst c. rewrite lines_cons_nl.
      cbn [String.length Nat.sub]. rewrite IH, str_app_nil_r.
      pose proof (lines_not_nil s). destruct (PyStr.lines s); [congruence | reflexivity].
    + rewrite (lines_cons_other _ _ E), IH.
      pose proof (lines_not_nil s). destruct (PyStr.lines s); [congruence|].
      cbn [rev]. now rewrite string_of_list_ascii_snoc.
Qed.

Lemma lines_is_split (s : string) : PyStr.lines s = PyStr.split s PyStr.nl.
Proof.
  unfold PyStr.split. rewrite split_aux_lines.
  pose proof (lines_not_nil s). destruct (PyStr.lines s); [congruence | reflexivity].
Qed.

(** *** The loop and its fuel *)

Section LoopFacts.

Context {W : Type} (rt : Agent.Runtime W).

Import Agent.

Lemma iterate_S fuel max_iterations iteration (c : config W) :
  iterate rt (S fuel) max_iterations iteration c
  = if status_eqb (goal_status (agent c)) working && (iteration <? max_iterations)
    then
      match reason rt c with
      | (Raise _ _, c1) => (iteration + 1, set_status blocked c1)
      | (Return decision, c1) =>
          match act rt decision c1 with
          | (Raise _ _, c2) => (iteration + 1, set_status blocked c2)
          | (Return _, c2) =>
              if action_is decision "goal_complete" then (iteration + 1, c2)
              else iterate rt fuel max_iterations (iteration + 1) (pause rt c2)
          end
      end
    else (iteration, c).
Proof. reflexivity. Qed.

(** The loop does not depend on its fuel once the fuel covers the turns that
    are left: [run_autonomously] computes what the [while] loop does. *)
Lemma iterate_fuel_enough max_iterations :
  forall fuel iteration (c : config W),
    (Z.to_nat (max_iterations - iteration) <= fuel)%nat ->
    iterate rt (S fuel) max_iterations iteration c
    = iterate rt fuel max_iterations iteration c.
Proof.
  induction fuel as [|fuel IH]; intros iteration c Hfuel.
  - cbn [iterate].
    assert (Hlt : (iteration <? max_iterations) = false) by lia.
    rewrite Hlt, andb_false_r. reflexivity.
  - rewrite (iterate_S (S fuel)), (iterate_S fuel).
    destruct (status_eqb _ _ && (iteration <? max_iterations)) eqn:Hc;
      [|reflexivity].
    destruct (reason rt c) as [[d | cls msg] c1]; [|reflexivity].
    destruct (act rt d c1) as [[v | cls msg] c2]; [|reflexivity].
    destruct (action_is d "goal_complete"); [reflexivity|].
    apply IH. apply andb_prop in Hc as [_ Hlt]. lia.
Qed.

(** Scenario 1 for any gateway: when the first reply parses to a
    [goal_complete] decision and the cap allows a second turn, the run ends
    complete after one chat call, having logged [reason] and
    [goal_complete]. *)
Lemma completes_on_first_turn (c : config W) max_iterations reply w' decision :
  no_goal (agent c) = false ->
  goal_status (agent c) = working ->
  1 < max_iterations ->
  llm_chat rt (memory (agent c)) (world c) = (Return reply, w') ->
  _parse_llm_response rt reply = Return (Py.VDict decision) ->
  action_is decision "goal_complete" = true ->
  let c' := snd (run_autonomously rt max_iterations c) in
  goal_status (agent c') = complete
  /\ logged (agent c') = logged (agent c) ++ ["reason"; "goal_complete"]
  /\ chat_calls c' = S (chat_calls c).
Proof.
  intros Hgoal Hwork Hmax Hchat Hparse Hdone. cbn zeta.
  assert (Hreason :
            reason rt c
            = (Return decision,
               log rt "reason" "Agent reasoned about next action" decision
                 (Py.get_or "reasoning" (Py.VStr "") decision)
                 (on_agent (remember assistant reply)
                    {| agent := agent c; world := w'; chat_calls := S (chat_calls c) |}))).
  { unfold reason. rewrite Hgoal, Hwork.
    change (status_eqb working working) with true. cbn [negb].
    unfold chat. rewrite Hchat, Hparse. reflexivity. }
  assert (Hact : forall c1 : config W, act rt decision c1 = _complete_goal rt decision c1).
  { intros c1. unfold act.
    destruct (action_is decision "use_tool") eqn:Ht; [|now rewrite Hdone].
    pose proof (eq_str_inj _ _ _ Ht Hdone). discriminate. }
  unfold run_autonomously. rewrite Hgoal.
  destruct (Z.to_nat max_iterations) as [|fuel] eqn:Hfuel; [lia|].
  cbn [iterate]. rewrite Hwork.
  change (status_eqb working working) with true.
  assert (Hlt : (0 <? max_iterations) = true) by lia. rewrite Hlt. cbn [andb].
  rewrite Hreason, Hact. unfold _complete_goal. rewrite Hdone.
  assert (Hge : (0 + 1 >=? max_iterations) = false) by lia. rewrite Hge.
  cbn [snd]. unfold logged. cbn. rewrite !map_app, <- app_assoc.
  repeat split; reflexivity.
Qed.

End LoopFacts.

(** * Further properties *)

(** ** The agent only adds to its memory and its log *)

Section GrowthFacts.

Context {W : Type} (rt : Agent.Runtime W).

Import Agent.

Lemma grows_refl (c : config W) : grows c c.
Proof. unfold grows. repeat split; try reflexivity. Qed.

Lemma grows_trans (c1 c2 c3 : config W) : grows c1 c2 -> grows c2 c3 -> grows c1 c3.
Proof.
  unfold grows. intros (Hm & Hh & Hi) (Hm' & Hh' & Hi').
  split; [etrans; eassumption|]. split; [etrans; eassumption|]. congruence.
Qed.

Lemma grows_remember r text (c : config W) : grows c (on_agent (remember r text) c).
Proof.
  unfold grows. cbn. split; [apply prefix_app_r; reflexivity|].
  split; reflexivity.
Qed.

Lemma grows_log t d det res (c : config W) : grows c (log rt t d det res c).
Proof.
  unfold grows. cbn. split; [reflexivity|].
  split; [apply prefix_app_r; reflexivity | reflexivity].
Qed.

Lemma grows_status s (c : config W) : grows c (set_status s c).
Proof. unfold grows. cbn. repeat split; reflexivity. Qed.

Lemma grows_world (c : config W) w n :
  grows c {| agent := agent c; world := w; chat_calls := n |}.
Proof. unfold grows. cbn. repeat split; reflexivity. Qed.

Lemma grows_chat (c : config W) : grows c (snd (chat rt c)).
Proof. unfold chat. destruct (llm_chat rt _ _). apply grows_world. Qed.

Lemma grows_conclude v (c : config W) : grows c (snd (conclude rt v c)).
Proof. destruct v; try apply grows_refl. apply grows_log. Qed.

Lemma grows_reason (c : config W) : grows c (snd (reason rt c)).
Proof.
  unfold reason.
  destruct (no_goal (agent c)); [apply grows_refl|].
  destruct (negb _); [apply grows_refl|].
  pose proof (grows_chat c) as H1.
  destruct (chat rt c) as [[reply | cls msg] c1]; cbn [snd] in *; [|exact H1].
  assert (H2 : grows c (on_agent (remember assistant reply) c1))
    by (eapply grows_trans; [exact H1 | apply grows_remember]).
  destruct (_parse_llm_response rt reply).
  { eapply grows_trans; [exact H2 | apply grows_conclude]. }
  set (c3 := on_agent (remember user clarification_msg) _).
  assert (H3 : grows c c3) by (eapply grows_trans; [exact H2 | apply grows_remember]).
  pose proof (grows_chat c3) as H4.
  destruct (chat rt c3) as [[reply2 | cls2 msg2] c4]; cbn [snd] in *;
    [|eapply grows_trans; eassumption].
  assert (H5 : grows c (on_agent (remember assistant reply2) c4)).
  { eapply grows_trans; [exact H3|]. eapply grows_trans; [exact H4|].
    apply grows_remember. }
  destruct (_parse_llm_response rt reply2); cbn [snd]; [|exact H5].
  eapply grows_trans; [exact H5 | apply grows_conclude].
Qed.

Lemma grows_execute_tool d (c : config W) : grows c (snd (_execute_tool rt d c)).
Proof.
  unfold _execute_tool.
  destruct (lookup_tool _ _) as [[[n tool]|]|]; cbn [snd];
    [|apply grows_remember|apply grows_refl].
  destruct (execute tool _ _) as [[res | cls e] w]; cbn [snd];
    (eapply grows_trans; [apply (grows_world c w (chat_calls c))|]);
    (eapply grows_trans; [apply grows_log | apply grows_remember]).
Qed.

Lemma grows_act d (c : config W) : grows c (snd (act rt d c)).
Proof.
  unfold act.
  destruct (action_is d "use_tool"); [apply grows_execute_tool|].
  destruct (action_is d "goal_complete").
  { unfold _complete_goal. cbn [snd].
    eapply grows_trans; [apply (grows_status complete) | apply grows_log]. }
  destruct (action_is d "document"); [apply grows_log|].
  destruct (action_is d "send_message"); [|apply grows_refl].
  unfold _send_message. destruct (Py.get_or "message" _ d); apply grows_log.
Qed.

Lemma grows_pause (c : config W) : grows c (pause rt c).
Proof. apply grows_world. Qed.

Lemma grows_iterate fuel max_iterations :
  forall iteration (c : config W),
    grows c (snd (iterate rt fuel max_iterations iteration c)).
Proof.
  induction fuel as [|fuel IH]; intros iteration c; cbn [iterate];
    [apply grows_refl|].
  destruct (_ && _); [|apply grows_refl].
  pose proof (grows_reason c) as Hr.
  destruct (reason rt c) as [[d | cls msg] c1]; cbn [snd] in *;
    [|eapply grows_trans; [exact Hr | apply grows_status]].
  pose proof (grows_act d c1) as Ha.
  destruct (act rt d c1) as [[v | cls msg] c2]; cbn [snd] in *;
    [|eapply grows_trans; [exact Hr|]; eapply grows_trans; [exact Ha | apply grows_status]].
  destruct (action_is d "goal_complete"); cbn [snd];
    [eapply grows_trans; eassumption|].
  eapply grows_trans; [exact Hr|]. eapply grows_trans; [exact Ha|].
  eapply grows_trans; [apply grows_pause | apply IH].
Qed.

Lemma grows_run max_iterations (c : config W) :
  grows c (snd (run_autonomously rt max_iterations c)).
Proof.
  unfold run_autonomously.
  destruct (no_goal (agent c)); [apply grows_refl|].
  pose proof (grows_iterate (Z.to_nat max_iterations) max_iterations 0 c) as H.
  destruct (iterate rt _ _ _ c) as [iteration c1]. cbn [snd] in *.
  destruct (iteration >=? max_iterations); cbn [snd]; [|exact H].
  eapply grows_trans; [exact H | apply grows_status].
Qed.

Lemma grows_set_goal goal (c : config W) : grows c (set_goal rt goal c).
Proof.
  unfold set_goal.
  eapply grows_trans; [|apply grows_log].
  eapply grows_trans; [|apply grows_remember].
  unfold grows. cbn. repeat split; reflexivity.
Qed.

End GrowthFacts.

(** X1: [set_goal], [reason], [act] and [run_autonomously] only append to
    the conversation memory and to the action log, whether they return or
    raise: what was there before stays, in place and unchanged.  They leave
    the agent's name, role, tools and knowledge as they were. *)
Theorem operations_only_append :
  forall (W : Type) (rt : Agent.Runtime W) (op : operation) (c : Agent.config W),
    op <> Reset ->
    Agent.memory (Agent.agent c)
      `prefix_of` Agent.memory (Agent.agent (after rt op c))
    /\ Agent.action_history (Agent.agent c)
         `prefix_of` Agent.action_history (Agent.agent (after rt op c))
    /\ identity (Agent.agent (after rt op c)) = identity (Agent.agent c).
Proof.
  intros W rt op c Hop.
  destruct op as [goal | | decision | max_iterations |]; cbn [after].
  - apply grows_set_goal.
  - apply grows_reason.
  - apply grows_act.
  - apply grows_run.
  - congruence.
Qed.

Lemma operations_only_append_witness :
  let c := Agent.set_goal done_stub "Assess IAM" start in
  let c' := after done_stub (RunAutonomously 10) c in
  Agent.memory (Agent.agent c) `prefix_of` Agent.memory (Agent.agent c')
  /\ Agent.action_history (Agent.agent c)
       `prefix_of` Agent.action_history (Agent.agent c')
  /\ identity (Agent.agent c') = identity (Agent.agent c).
Proof.
  apply (operations_only_append Z done_stub (RunAutonomously 10)
           (Agent.set_goal done_stub "Assess IAM" start)).
  discriminate.
Defined.

(** ** The cost of a run *)

Section BudgetFacts.

Context {W : Type} (rt : Agent.Runtime W).

Import Agent.





End BudgetFacts.


(** ** Refusals *)

(** X3: without a goal, [reason] and [run_autonomously] raise a
    [ValueError] and touch nothing: no gateway call, no message, no log
    entry.  The empty text counts as no goal, so this is also what happens
    right after [set_goal("")], with the agent marked as working. *)
Theorem no_goal_no_work :
  forall (W : Type) (rt : Agent.Runtime W) (max_iterations : Z) (c : Agent.config W),
    Agent.no_goal (Agent.agent c) = true ->
    Agent.reason rt c = (Raise "ValueError" "No goal set. Call set_goal() first.", c)
    /\ Agent.run_autonomously rt max_iterations c
       = (Raise "ValueError" "No goal set. Call set_goal() first.", c).
Proof.
  intros W rt max_iterations c Hno.
  unfold Agent.reason, Agent.run_autonomously. rewrite Hno. split; reflexivity.
Qed.

Lemma no_goal_no_work_witness :
  Agent.goal_status (Agent.agent (Agent.set_goal done_stub "" start)) = Agent.working
  /\ Agent.reason done_stub (Agent.set_goal done_stub "" start)
     = (Raise "ValueError" "No goal set. Call set_goal() first.",
        Agent.set_goal done_stub "" start)
  /\ Agent.run_autonomously done_stub 10 (Agent.set_goal done_stub "" start)
     = (Raise "ValueError" "No goal set. Call set_goal() first.",
        Agent.set_goal done_stub "" start).
Proof.
  split; [reflexivity|].
  apply (no_goal_no_work Z done_stub 10 (Agent.set_goal done_stub "" start)).
  reflexivity.
Defined.


(** ** Reset *)

Section ResetFacts.

Context {W : Type} (rt : Agent.Runtime W).

Import Agent.

Lemma reset_by_identity (c c' : config W) :
  identity (agent c) = identity (agent c') ->
  agent (reset c) = agent (reset c').
Proof.
  unfold identity. intros H. injection H as Hn Hr Ht Hk.
  unfold reset, on_agent, _init_system_message, remember, with_memory,
    _format_tools_for_prompt, get_knowledge_context.
  cbn. rewrite Hn, Hr, Ht, Hk. reflexivity.
Qed.

Lemma identity_after op (c : config W) :
  identity (agent (after rt op c)) = identity (agent c).
Proof.
  destruct op as [goal | | decision | max_iterations |].
  - exact (proj2 (proj2 (grows_set_goal rt goal c))).
  - exact (proj2 (proj2 (grows_reason rt c))).
  - exact (proj2 (proj2 (grows_act rt decision c))).
  - exact (proj2 (proj2 (grows_run rt max_iterations c))).
  - reflexivity.
Qed.

Lemma identity_after_all ops :
  forall c : config W, identity (agent (after_all rt ops c)) = identity (agent c).
Proof.
  induction ops as [|op ops IH]; intros c; [reflexivity|].
  unfold after_all in *. cbn [fold_left]. rewrite IH. apply identity_after.
Qed.

End ResetFacts.

(** X5: whatever an agent has been through (goals, reasoning, actions, runs,
    earlier resets), [reset] brings it to one and the same state: idle, no
    goal, an empty action log, an empty context, the registered tools and
    knowledge kept, and a memory that holds the system message alone. *)
Theorem reset_forgets_everything :
  forall (W : Type) (rt : Agent.Runtime W) (ops : list operation) (c : Agent.config W),
    let a := Agent.agent (Agent.reset (after_all rt ops c)) in
    a = Agent.agent (Agent.reset c)
    /\ Agent.goal_status a = Agent.idle
    /\ Agent.current_goal a = None
    /\ Agent.action_history a = []
    /\ Agent.context a = []
    /\ Agent.tools a = Agent.tools (Agent.agent c)
    /\ map Agent.role (Agent.memory a) = [Agent.system].
Proof.
  intros W rt ops c. cbn zeta.
  rewrite (reset_by_identity (after_all rt ops c) c (identity_after_all rt ops c)).
  repeat split; reflexivity.
Qed.

(** ** The four reply shapes *)

Lemma str_length_app (a b : string) :
  String.length (a +:+ b) = (String.length a + String.length b)%nat.
Proof.
  induction a as [|c a IH]; [reflexivity|].
  rewrite str_app_cons. cbn [String.length]. now rewrite IH.
Qed.

Lemma len_app (a b : string) : PyStr.len (a +:+ b) = PyStr.len a + PyStr.len b.
Proof. unfold PyStr.len. rewrite str_length_app. lia. Qed.

Lemma len_nonneg (a : string) : 0 <= PyStr.len a.
Proof. unfold PyStr.len. lia. Qed.

Lemma str_drop_app_length (p r : string) : PyStr.drop (String.length p) (p +:+ r) = r.
Proof.
  induction p as [|c p IH]; [reflexivity|].
  rewrite str_app_cons. cbn [String.length PyStr.drop]. exact IH.
Qed.

Lemma str_take_app_length (m r : string) : PyStr.take (String.length m) (m +:+ r) = m.
Proof.
  induction m as [|c m IH]; [reflexivity|].
  rewrite str_app_cons. cbn [String.length PyStr.take]. now rewrite IH.
Qed.

(** The slice that starts after [p] and spans [m] is [m]. *)
Lemma slice_middle (p m r : string) :
  PyStr.slice (p +:+ m +:+ r) (PyStr.len p) (PyStr.len p + PyStr.len m) = m.
Proof.
  unfold PyStr.slice. rewrite !len_app.
  pose proof (len_nonneg p). pose proof (len_nonneg m). pose proof (len_nonneg r).
  assert (Ha : PyStr.clamp (PyStr.len p + (PyStr.len m + PyStr.len r)) (PyStr.len p)
               = PyStr.len p).
  { unfold PyStr.clamp. destruct (Z.ltb_spec (PyStr.len p) 0); lia. }
  assert (Hb : PyStr.clamp (PyStr.len p + (PyStr.len m + PyStr.len r))
                 (PyStr.len p + PyStr.len m)
               = PyStr.len p + PyStr.len m).
  { unfold PyStr.clamp. destruct (Z.ltb_spec (PyStr.len p + PyStr.len m) 0); lia. }
  rewrite Ha, Hb.
  destruct (Z.ltb_spec (PyStr.len p) (PyStr.len p + PyStr.len m)) as [E|E].
  - replace (Z.to_nat (PyStr.len p + PyStr.len m - PyStr.len p))
      with (String.length m) by (unfold PyStr.len; lia).
    replace (Z.to_nat (PyStr.len p)) with (String.length p) by (unfold PyStr.len; lia).
    now rewrite str_drop_app_length, str_take_app_length.
  - destruct m; [reflexivity|]. unfold PyStr.len in E. cbn [String.length] in E. lia.
Qed.

Lemma startswith_app (p s : string) : PyStr.startswith p (p +:+ s) = true.
Proof.
  induction p as [|c p IH]; [reflexivity|].
  rewrite str_app_cons. cbn [PyStr.startswith]. now rewrite Ascii.eqb_refl.
Qed.

(** A text that lacks the first character of [sub] delays the first
    occurrence of [sub] by its length. *)
Lemma find0_after_clean c sub (a rest : string) :
  has_char c a = false ->
  PyStr.find0 (String c sub) (a +:+ String c sub +:+ rest)
  = Some (String.length a).
Proof.
  intros Hclean. induction a as [|x a IH].
  - rewrite str_app_nil_l.
    destruct (String c sub +:+ rest) eqn:E; [discriminate|].
    cbn [PyStr.find0]. rewrite <- E, startswith_app. reflexivity.
  - cbn [has_char] in Hclean. apply orb_false_elim in Hclean as [Hx Ha].
    rewrite str_app_cons. cbn [PyStr.find0 PyStr.startswith].
    rewrite (Ascii.eqb_sym c x), Hx. rewrite (IH Ha). reflexivity.
Qed.

Lemma find0_clean_none c sub (a : string) :
  has_char c a = false -> PyStr.find0 (String c sub) a = None.
Proof.
  intros Hclean. induction a as [|x a IH]; [reflexivity|].
  cbn [has_char] in Hclean. apply orb_false_elim in Hclean as [Hx Ha].
  cbn [PyStr.find0 PyStr.startswith].
  rewrite (Ascii.eqb_sym c x), Hx. now rewrite (IH Ha).
Qed.

(** A clean text before [b] neither adds nor hides an occurrence. *)
Lemma find0_clean_prefix_none c sub (a b : string) :
  has_char c a = false ->
  PyStr.find0 (String c sub) b = None ->
  PyStr.find0 (String c sub) (a +:+ b) = None.
Proof.
  intros Hclean Hb. induction a as [|x a IH]; [exact Hb|].
  cbn [has_char] in Hclean. apply orb_false_elim in Hclean as [Hx Ha].
  rewrite str_app_cons. cbn [PyStr.find0 PyStr.startswith].
  rewrite (Ascii.eqb_sym c x), Hx. now rewrite (IH Ha).
Qed.

Lemma rfind0_clean_none c (a : string) :
  has_char c a = false -> PyStr.rfind0 (String c EmptyString) a = None.
Proof.
  intros Hclean. induction a as [|x a IH]; [reflexivity|].
  cbn [has_char] in Hclean. apply orb_false_elim in Hclean as [Hx Ha].
  cbn [PyStr.rfind0 PyStr.startswith]. rewrite (IH Ha).
  now rewrite (Ascii.eqb_sym c x), Hx.
Qed.

(** The last occurrence of a character that the tail lacks. *)
Lemma rfind0_last c (a rest : string) :
  has_char c rest = false ->
  PyStr.rfind0 (String c EmptyString) (a +:+ String c rest)
  = Some (String.length a).
Proof.
  intros Hclean. induction a as [|x a IH].
  - rewrite str_app_nil_l. cbn [PyStr.rfind0 PyStr.startswith].
    rewrite (rfind0_clean_none c rest Hclean), Ascii.eqb_refl.
    destruct rest; reflexivity.
  - rewrite str_app_cons. cbn [PyStr.rfind0]. now rewrite IH.
Qed.

Lemma has_char_app c (a b : string) :
  has_char c (a +:+ b) = has_char c a || has_char c b.
Proof.
  induction a as [|x a IH]; [reflexivity|].
  rewrite str_app_cons. cbn [has_char]. now rewrite IH, orb_assoc.
Qed.

Lemma find_from (s sub : string) (start : nat) k :
  (start <= String.length s)%nat ->
  PyStr.find0 sub (PyStr.drop start s) = Some k ->
  PyStr.find s sub (Z.of_nat start) = Z.of_nat start + Z.of_nat k.
Proof.
  intros Hle Hk. unfold PyStr.find, PyStr.len.
  destruct (Z.gtb_spec (Z.of_nat start) (Z.of_nat (String.length s))); [lia|].
  now rewrite Nat2Z.id, Hk.
Qed.

Lemma contains_of_find0 sub s k :
  PyStr.find0 sub s = Some k -> PyStr.contains sub s = true.
Proof. unfold PyStr.contains. now intros ->. Qed.

Lemma contains_clean_false c sub (s : string) :
  has_char c s = false -> PyStr.contains (String c sub) s = false.
Proof. intros H. unfold PyStr.contains. now rewrite (find0_clean_none c sub s H). Qed.

Lemma rstrip_cons c (s : string) :
  PyStr.rstrip (String c s)
  = match PyStr.rstrip s with
    | EmptyString => if PyStr.isspace c then EmptyString else String c EmptyString
    | r => String c r
    end.
Proof. reflexivity. Qed.

(** White space after a text that [rstrip] keeps is taken off again. *)
Lemma rstrip_app_nl (x : string) :
  x <> EmptyString -> PyStr.rstrip x = x -> PyStr.rstrip (x +:+ PyStr.nl) = x.
Proof.
  induction x as [|c x IH]; intros Hne Hx; [congruence|].
  rewrite str_app_cons, rstrip_cons. rewrite rstrip_cons in Hx.
  destruct x as [|d x'].
  - rewrite str_app_nil_l. change (PyStr.rstrip PyStr.nl) with EmptyString.
    exact Hx.
  - assert (Hx' : PyStr.rstrip (String d x') = String d x').
    { destruct (PyStr.rstrip (String d x')) eqn:E.
      - destruct (PyStr.isspace c); discriminate.
      - injection Hx as Ha Hs. now rewrite Ha, Hs. }
    rewrite (IH ltac:(discriminate) Hx'). reflexivity.
Qed.

Lemma rstrip_ends_brace (a : string) :
  PyStr.rstrip (a +:+ "}") = a +:+ "}".
Proof. apply rstrip_app_keep; [discriminate | reflexivity]. Qed.

Lemma strip_braces inner : PyStr.strip (braces inner) = braces inner.
Proof.
  unfold PyStr.strip, braces. rewrite str_app_cons, str_app_nil_l.
  cbn [PyStr.lstrip]. change (PyStr.isspace "{") with false. cbv iota.
  change (String "{" (inner +:+ "}")) with (String "{" inner +:+ "}").
  apply rstrip_ends_brace.
Qed.

(** What stands between the fences strips to the object text. *)
Lemma strip_between_fences inner :
  PyStr.strip (PyStr.nl +:+ braces inner +:+ PyStr.nl) = braces inner.
Proof.
  unfold PyStr.strip.
  assert (Hl : PyStr.lstrip (PyStr.nl +:+ braces inner +:+ PyStr.nl)
               = braces inner +:+ PyStr.nl) by reflexivity.
  rewrite Hl. apply rstrip_app_nl.
  - unfold braces. rewrite str_app_cons. discriminate.
  - pose proof (strip_braces inner) as H. unfold PyStr.strip in H.
    assert (Hb : PyStr.lstrip (braces inner) = braces inner) by reflexivity.
    now rewrite Hb in H.
Qed.

Lemma find0_startswith sub s :
  PyStr.startswith sub s = true -> PyStr.find0 sub s = Some O.
Proof. intros H. destruct s; cbn [PyStr.find0]; now rewrite H. Qed.

Lemma has_char_braces c inner :
  has_char c inner = false -> Ascii.eqb "{" c = false -> Ascii.eqb "}" c = false ->
  has_char c (braces inner) = false.
Proof.
  intros Hi Ho Hc. unfold braces. rewrite !has_char_app, Hi. cbn [has_char].
  now rewrite Ho, Hc.
Qed.

Section ShapeFacts.

Context {W : Type} (rt : Agent.Runtime W).

Variable inner : string.
Hypothesis Hinner : has_char "`" inner = false.

Let object := braces inner.

Lemma object_clean : has_char "`" object = false.
Proof. now apply has_char_braces. Qed.

Lemma between_clean : has_char "`" (PyStr.nl +:+ object +:+ PyStr.nl) = false.
Proof. rewrite !has_char_app, object_clean. reflexivity. Qed.

(** A fence [p] (three back ticks, with or without the label), the object on
    its own line, and the closing fence: the text between the fences is what
    is cut out. *)
Lemma cut_between_fences (p : string) :
  PyStr.startswith "```" p = true ->
  let content := p +:+ PyStr.nl +:+ object +:+ PyStr.nl +:+ "```" in
  PyStr.strip content = content
  /\ PyStr.strip
       (PyStr.slice content (PyStr.len p) (PyStr.find content "```" (PyStr.len p)))
     = object.
Proof.
  intros Hp. cbn zeta.
  set (mid := PyStr.nl +:+ object +:+ PyStr.nl).
  assert (Hshape : p +:+ PyStr.nl +:+ object +:+ PyStr.nl +:+ "```"
                   = p +:+ mid +:+ "```")
    by (unfold mid; now rewrite !str_app_assoc).
  rewrite Hshape. split.
  - unfold PyStr.strip.
    assert (Hl : PyStr.lstrip (p +:+ mid +:+ "```") = p +:+ mid +:+ "```").
    { destruct p as [|c p']; [discriminate|].
      cbn [PyStr.startswith] in Hp.
      destruct (Ascii.eqb "`" c) eqn:Ec; [|discriminate].
      apply Ascii.eqb_eq in Ec. subst c. reflexivity. }
    rewrite Hl. rewrite <- !str_app_assoc.
    apply rstrip_app_keep; [discriminate | reflexivity].
  - assert (Hfind : PyStr.find (p +:+ mid +:+ "```") "```" (PyStr.len p)
                    = PyStr.len p + PyStr.len mid).
    { unfold PyStr.len at 1 2.
      rewrite (find_from _ _ (String.length p) (String.length mid)).
      - reflexivity.
      - rewrite str_length_app. lia.
      - rewrite str_drop_app_length.
        apply (find0_after_clean "`" "``" mid EmptyString). apply between_clean. }
    rewrite Hfind, slice_middle. apply strip_between_fences.
Qed.

Lemma parse_fenced_json :
  Agent._parse_llm_response rt (fenced_json object) = Agent.json_loads rt object.
Proof.
  destruct (cut_between_fences "```json" eq_refl) as [Hstrip Hcut].
  unfold Agent._parse_llm_response, fenced_json. rewrite Hstrip.
  assert (Hfind0 : PyStr.find0 "```json"
                     ("```json" +:+ PyStr.nl +:+ object +:+ PyStr.nl +:+ "```")
                   = Some O)
    by (apply find0_startswith, startswith_app).
  rewrite (contains_of_find0 _ _ _ Hfind0).
  assert (Hstart : PyStr.find ("```json" +:+ PyStr.nl +:+ object +:+ PyStr.nl +:+ "```")
                     "```json" 0 = 0).
  { apply (find_from _ _ O O); [lia | exact Hfind0]. }
  rewrite Hstart. change (0 + 7) with (PyStr.len "```json").
  now rewrite Hcut.
Qed.

Lemma parse_fenced_plain :
  Agent._parse_llm_response rt (fenced_plain object) = Agent.json_loads rt object.
Proof.
  destruct (cut_between_fences "```" eq_refl) as [Hstrip Hcut].
  unfold Agent._parse_llm_response, fenced_plain. rewrite Hstrip.
  assert (Hnolabel : PyStr.contains "```json"
                       ("```" +:+ PyStr.nl +:+ object +:+ PyStr.nl +:+ "```") = false).
  { unfold PyStr.contains.
    assert (Htail : PyStr.find0 "```json" (object +:+ PyStr.nl +:+ "```") = None).
    { rewrite <- str_app_assoc. apply find0_clean_prefix_none; [|reflexivity].
      rewrite has_char_app, object_clean. reflexivity. }
    rewrite !str_app_cons, str_app_nil_l. unfold PyStr.nl at 1.
    rewrite str_app_cons, str_app_nil_l.
    cbn [PyStr.find0 PyStr.startswith].
    change (Ascii.eqb "`" "`") with true. cbv iota.
    change (Ascii.eqb "`" PyStr.newline) with false.
    change (Ascii.eqb "j" PyStr.newline) with false. cbv iota.
    rewrite Htail. reflexivity. }
  rewrite Hnolabel.
  assert (Hfind0 : PyStr.find0 "```"
                     ("```" +:+ PyStr.nl +:+ object +:+ PyStr.nl +:+ "```")
                   = Some O)
    by (apply find0_startswith, startswith_app).
  rewrite (contains_of_find0 _ _ _ Hfind0).
  assert (Hstart : PyStr.find ("```" +:+ PyStr.nl +:+ object +:+ PyStr.nl +:+ "```")
                     "```" 0 = 0).
  { apply (find_from _ _ O O); [lia | exact Hfind0]. }
  rewrite Hstart. change (0 + 3) with (PyStr.len "```").
  now rewrite Hcut.
Qed.

Lemma parse_bare :
  Agent._parse_llm_response rt object = Agent.json_loads rt object.
Proof.
  assert (Hs : PyStr.strip object = object) by apply strip_braces.
  unfold Agent._parse_llm_response. rewrite Hs.
  rewrite (contains_clean_false "`" "``json" object object_clean).
  rewrite (contains_clean_false "`" "``" object object_clean).
  reflexivity.
Qed.

Lemma parse_embedded before after :
  before <> EmptyString ->
  has_char "{" before = false ->
  has_char "`" before = false ->
  has_char "}" after = false ->
  has_char "`" after = false ->
  PyStr.strip (embedded before object after) = embedded before object after ->
  Agent._parse_llm_response rt (embedded before object after)
  = Agent.json_loads rt object.
Proof.
  intros Hne Hbrace Htick Hbrace' Htick' Hstrip.
  unfold Agent._parse_llm_response. rewrite Hstrip. unfold embedded.
  assert (Hclean : has_char "`" (before +:+ object +:+ after) = false)
    by (now rewrite !has_char_app, Htick, Htick', object_clean).
  rewrite (contains_clean_false "`" "``json" _ Hclean).
  rewrite (contains_clean_false "`" "``" _ Hclean).
  assert (Hnot : PyStr.startswith "{" (before +:+ object +:+ after) = false).
  { destruct before as [|c b]; [congruence|].
    cbn [has_char] in Hbrace. apply orb_false_elim in Hbrace as [Hc _].
    rewrite str_app_cons. cbn [PyStr.startswith].
    now rewrite (Ascii.eqb_sym "{" c), Hc. }
  rewrite Hnot.
  assert (Hopen : PyStr.find (before +:+ object +:+ after) "{" 0 = PyStr.len before).
  { rewrite (find_from _ _ O (String.length before)); [reflexivity | lia |].
    cbn [PyStr.drop]. unfold object, braces. rewrite !str_app_assoc.
    apply (find0_after_clean "{" EmptyString before). exact Hbrace. }
  assert (Hclose : PyStr.rfind (before +:+ object +:+ after) "}"
                   = PyStr.len before + PyStr.len object - 1).
  { unfold PyStr.rfind, object, braces.
    assert (Hshape : before +:+ ("{" +:+ inner +:+ "}") +:+ after
                     = (before +:+ "{" +:+ inner) +:+ String "}" after)
      by (now rewrite !str_app_assoc).
    rewrite Hshape, (rfind0_last "}" _ after Hbrace').
    unfold PyStr.len. rewrite !str_length_app. cbn [String.length]. lia. }
  rewrite Hopen, Hclose.
  pose proof (len_nonneg before).
  assert (Hpos : 2 <= PyStr.len object).
  { unfold object, braces, PyStr.len. rewrite !str_length_app.
    cbn [String.length]. lia. }
  destruct (Z.geb_spec (PyStr.len before) 0); [|lia].
  destruct (Z.gtb_spec (PyStr.len before + PyStr.len object - 1 + 1) (PyStr.len before));
    [|lia].
  cbn [andb].
  replace (PyStr.len before + PyStr.len object - 1 + 1)
    with (PyStr.len before + PyStr.len object) by lia.
  now rewrite slice_middle.
Qed.

End ShapeFacts.

(** X12: a reply that carries one JSON object text -- inside a fence
    labelled json, inside a plain fence, bare, or between other words -- is
    parsed as that object text alone: in all four shapes [json.loads] gets
    the text from the opening to the closing brace, and its answer is the
    answer of [_parse_llm_response]. *)
Theorem reply_shapes_parse_alike :
  forall (W : Type) (rt : Agent.Runtime W) (inner before after : string),
    has_char "`" inner = false ->
    before <> EmptyString ->
    has_char "{" before = false ->
    has_char "`" before = false ->
    has_char "}" after = false ->
    has_char "`" after = false ->
    PyStr.strip (embedded before (braces inner) after)
    = embedded before (braces inner) after ->
    let parsed := Agent.json_loads rt (braces inner) in
    Agent._parse_llm_response rt (fenced_json (braces inner)) = parsed
    /\ Agent._parse_llm_response rt (fenced_plain (braces inner)) = parsed
    /\ Agent._parse_llm_response rt (braces inner) = parsed
    /\ Agent._parse_llm_response rt (embedded before (braces inner) after) = parsed.
Proof.
  intros W rt inner before after Hinner Hne Hb1 Hb2 Ha1 Ha2 Hstrip. cbn zeta.
  split; [now apply parse_fenced_json|].
  split; [now apply parse_fenced_plain|].
  split; [now apply parse_bare|].
  now apply parse_embedded.
Qed.

Lemma reply_shapes_parse_alike_witness :
  let parsed := Agent.json_loads done_stub (braces goal_complete_inner) in
  Agent._parse_llm_response done_stub (fenced_json (braces goal_complete_inner))
  = parsed
  /\ Agent._parse_llm_response done_stub (fenced_plain (braces goal_complete_inner))
     = parsed
  /\ Agent._parse_llm_response done_stub (braces goal_complete_inner) = parsed
  /\ Agent._parse_llm_response done_stub
       (embedded "Here is my decision: " (braces goal_complete_inner) " Thanks")
     = parsed.
Proof.
  apply (reply_shapes_parse_alike Z done_stub goal_complete_inner
           "Here is my decision: " " Thanks").
  - reflexivity.
  - discriminate.
  - reflexivity.
  - reflexivity.
  - reflexivity.
  - reflexivity.
  - reflexivity.
Defined.

(** ** Tool schemas and validation *)

Section SchemaFacts.

Import ToolBase.

Lemma schema_fold_required params :
  forall props req,
    snd (fold_left schema_step params (props, req))
    = req ++ map name (List.filter required params).
Proof.
  induction params as [|p params IH]; intros props req; cbn [fold_left List.filter map].
  - now rewrite app_nil_r.
  - unfold schema_step at 2. cbn [fst snd]. rewrite IH.
    destruct (required p); cbn [map]; [now rewrite <- app_assoc | reflexivity].
Qed.

Lemma schema_fold_keys params :
  forall props req,
    NoDup (Py.keys props ++ map name params) ->
    Py.keys (fst (fold_left schema_step params (props, req)))
    = Py.keys props ++ map name params.
Proof.
  induction params as [|p params IH]; intros props req Hnd; cbn [fold_left map].
  - now rewrite app_nil_r.
  - unfold schema_step at 2. cbn [fst snd].
    assert (Habs : Py.has_key (name p) props = false).
    { destruct (Py.has_key (name p) props) eqn:E; [|reflexivity]. exfalso.
      apply NoDup_app in Hnd as (_ & Hdisj & _).
      apply (Hdisj (name p)); [|cbn [map]; left].
      unfold Py.has_key in E. unfold Py.keys.
      clear -E. induction props as [|[k v] props IHp]; cbn in *; [discriminate|].
      destruct (String.eqb (name p) k) eqn:Ek.
      - apply String.eqb_eq in Ek. subst. left.
      - right. now apply IHp. }
    rewrite IH; rewrite (keys_set_absent _ _ _ Habs).
    + cbn [map]. now rewrite <- app_assoc.
    + cbn [map] in Hnd. now rewrite <- app_assoc.
Qed.

Lemma schema_fold_get params :
  forall props req k,
    ~ In k (map name params) ->
    Py.get k (fst (fold_left schema_step params (props, req))) = Py.get k props.
Proof.
  induction params as [|p params IH]; intros props req k Hk; cbn [fold_left];
    [reflexivity|].
  unfold schema_step at 2. cbn [fst snd]. cbn [map] in Hk.
  rewrite IH by (intros H; apply Hk; now right).
  apply get_set_other. intros ->. apply Hk. now left.
Qed.

Lemma schema_fold_get_own params :
  forall props req p,
    NoDup (map name params) ->
    In p params ->
    Py.get (name p) (fst (fold_left schema_step params (props, req)))
    = Some (property_of p).
Proof.
  induction params as [|q params IH]; intros props req p Hnd Hin; [destruct Hin|].
  cbn [fold_left]. unfold schema_step at 2. cbn [fst snd].
  cbn [map] in Hnd. apply NoDup_cons in Hnd as [Hq Hnd].
  destruct Hin as [-> | Hin].
  - rewrite schema_fold_get by (rewrite <- list_elem_of_In; exact Hq).
    apply get_set_same.
  - now apply IH.
Qed.

End SchemaFacts.

(** X6: for a tool whose parameter names are distinct, the schema of
    [get_parameters] lists exactly the declared names, in order, under
    [properties], each with its type, description and (only when it has one)
    default; and [required] holds exactly the names declared required. *)
Theorem schema_lists_the_parameters :
  forall (t : ToolBase.Tool),
    NoDup (map ToolBase.name (ToolBase._parameters t)) ->
    exists properties,
      Py.get "properties" (ToolBase.get_parameters t) = Some (Py.VDict properties)
      /\ Py.keys properties = map ToolBase.name (ToolBase._parameters t)
      /\ (forall p, In p (ToolBase._parameters t) ->
                    Py.get (ToolBase.name p) properties = Some (ToolBase.property_of p))
      /\ Py.get "required" (ToolBase.get_parameters t)
         = Some (Py.VList (map Py.VStr
                   (map ToolBase.name
                      (List.filter ToolBase.required (ToolBase._parameters t))))).
Proof.
  intros t Hnd. unfold ToolBase.get_parameters, ToolBase.schema_parts.
  pose proof (schema_fold_required (ToolBase._parameters t) [] []) as Hreq.
  pose proof (schema_fold_keys (ToolBase._parameters t) [] [] Hnd) as Hkeys.
  pose proof (fun p => schema_fold_get_own (ToolBase._parameters t) [] [] p Hnd) as Hget.
  destruct (fold_left _ _ _) as [properties required]. cbn [fst snd] in *.
  exists properties. split; [reflexivity|]. split; [exact Hkeys|].
  split; [exact Hget|]. cbn. now rewrite Hreq.
Qed.

Lemma schema_lists_the_parameters_witness :
  exists properties,
    Py.get "properties" (ToolBase.get_parameters task_tool) = Some (Py.VDict properties)
    /\ Py.keys properties = ["action"; "priority"]
    /\ (forall p, In p task_params ->
                  Py.get (ToolBase.name p) properties = Some (ToolBase.property_of p))
    /\ Py.get "required" (ToolBase.get_parameters task_tool)
       = Some (Py.VList [Py.VStr "action"]).
Proof.
  apply (schema_lists_the_parameters task_tool).
  apply (bool_decide_unpack _). vm_compute. exact I.
Defined.

Section ValidateFacts.

Import ToolBase.



End ValidateFacts.



(** ** More of the task ledger *)

Section CreateFacts.

Import Ledger.




End CreateFacts.



(** *** Completing a task: refusals *)

Section CompleteFacts.

Import Ledger.

Lemma count_open_cons line ls :
  count_open (line :: ls)
  = ((if open_box line then 1 else 0) + count_open ls)%nat.
Proof.
  unfold count_open. rewrite filter_cons.
  destruct (open_box line) eqn:E.
  - rewrite decide_True by reflexivity. reflexivity.
  - rewrite decide_False by discriminate. reflexivity.
Qed.

Lemma count_open_app l1 l2 :
  count_open (l1 ++ l2) = (count_open l1 + count_open l2)%nat.
Proof. unfold count_open. now rewrite filter_app, length_app. Qed.

(** The search fails exactly when the index is outside the open checkbox
    lines that are left. *)
Lemma find_task_none ls :
  forall i task_count task_index,
    find_task ls i task_count task_index = None
    <-> (task_index < task_count
         \/ task_count + Z.of_nat (count_open ls) <= task_index).
Proof.
  induction ls as [|line ls IH]; intros i tc ti.
  - cbn. split; [intros _; lia | reflexivity].
  - cbn [find_task]. rewrite count_open_cons.
    destruct (open_box line).
    + destruct (Z.eqb_spec tc ti) as [->|Hne].
      * split; [discriminate | lia].
      * rewrite IH. lia.
    + rewrite IH. lia.
Qed.

Lemma find_task_some ls :
  forall i task_count task_index idx description,
    find_task ls i task_count task_index = Some (idx, description) ->
    exists line,
      (i <= idx)%nat /\ ls !! (idx - i)%nat = Some line /\ open_box line = true.
Proof.
  induction ls as [|line ls IH]; intros i tc ti idx description H; [discriminate|].
  cbn [find_task] in H.
  destruct (open_box line) eqn:Hopen.
  - destruct (tc =? ti).
    + injection H as <- _. exists line. rewrite Nat.sub_diag. auto.
    + destruct (IH _ _ _ _ _ H) as (l & Hle & Hl & Ho). exists l.
      split; [lia|]. split; [|exact Ho].
      replace (idx - i)%nat with (S (idx - S i)) by lia. exact Hl.
  - destruct (IH _ _ _ _ _ H) as (l & Hle & Hl & Ho). exists l.
    split; [lia|]. split; [|exact Ho].
    replace (idx - i)%nat with (S (idx - S i)) by lia. exact Hl.
Qed.

End CompleteFacts.

(** X10: [complete_task] counts the open checkbox lines of the whole ledger
    file, from 0.  Without a ledger file, and with an index that is negative
    or not below that count, it raises a [ToolExecutionError] and leaves the
    directory exactly as it was. *)
Theorem complete_task_refuses :
  forall (d : Ledger.Dir) (today agent_name : string) (task_index : Z),
    match Ledger.files d !! Ledger._get_task_file agent_name with
    | None =>
        Ledger.complete_task today agent_name task_index d
        = (Raise "ToolExecutionError" ("No task file found for " +:+ agent_name), d)
    | Some content =>
        (task_index < 0 \/ Z.of_nat (Ledger.open_count content) <= task_index) ->
        Ledger.complete_task today agent_name task_index d
        = (Raise "ToolExecutionError"
             ("Task index " +:+ pretty task_index +:+ " not found"), d)
    end.
Proof.
  intros d today agent_name task_index.
  unfold Ledger.complete_task, Ledger.bind, Ledger.file_exists.
  destruct (Ledger.files d !! Ledger._get_task_file agent_name) as [content|] eqn:E.
  - intros Hout.
    rewrite bool_decide_eq_true_2 by eauto. cbn [negb].
    rewrite (read_text_found _ _ _ E).
    assert (Hnone : Ledger.find_task (PyStr.lines content) 0 0 task_index = None).
    { apply find_task_none. fold (count_open (PyStr.lines content)) in *.
      unfold Ledger.open_count in Hout. fold (count_open (PyStr.lines content)) in Hout.
      lia. }
    now rewrite Hnone.
  - rewrite bool_decide_eq_false_2 by (intros [? ?]; discriminate). reflexivity.
Qed.

(** *** Completing a task: one checkbox is closed *)

Section CloseFacts.

Import Ledger.

Lemma rstrip_is_prefix (s : string) : exists sfx, s = PyStr.rstrip s +:+ sfx.
Proof.
  induction s as [|c s [sfx IH]]; [now exists EmptyString|].
  rewrite rstrip_cons. destruct (PyStr.rstrip s) as [|d r] eqn:E.
  - rewrite str_app_nil_l in IH. destruct (PyStr.isspace c).
    + exists (String c s). reflexivity.
    + exists s. reflexivity.
  - exists sfx. rewrite str_app_cons. now rewrite <- IH.
Qed.

Lemma startswith_app_mono p (t sfx : string) :
  PyStr.startswith p t = true -> PyStr.startswith p (t +:+ sfx) = true.
Proof.
  revert t. induction p as [|a p IH]; intros t H; [reflexivity|].
  destruct t as [|b t]; [discriminate|].
  rewrite str_app_cons. cbn [PyStr.startswith] in *.
  destruct (Ascii.eqb a b); [now apply IH | discriminate].
Qed.

Lemma startswith_split p (t : string) :
  PyStr.startswith p t = true -> t = p +:+ PyStr.drop (String.length p) t.
Proof.
  revert t. induction p as [|a p IH]; intros t H; [reflexivity|].
  destruct t as [|b t]; [discriminate|].
  cbn [PyStr.startswith] in H. destruct (Ascii.eqb a b) eqn:E; [|discriminate].
  apply Ascii.eqb_eq in E. subst b.
  rewrite str_app_cons. cbn [String.length PyStr.drop]. now rewrite <- (IH t H).
Qed.

(** A line is an open checkbox only if, its leading white space removed, it
    starts with the open box. *)
Lemma open_box_lstrip line :
  open_box line = true -> PyStr.startswith "- [ ]" (PyStr.lstrip line) = true.
Proof.
  unfold open_box, PyStr.strip. intros H.
  destruct (rstrip_is_prefix (PyStr.lstrip line)) as [sfx Hs].
  rewrite Hs. now apply startswith_app_mono.
Qed.

Lemma closed_not_open line :
  PyStr.startswith "- [ ]" (PyStr.lstrip line) = false -> open_box line = false.
Proof.
  intros H. destruct (open_box line) eqn:E; [|reflexivity].
  apply open_box_lstrip in E. congruence.
Qed.

Lemma completion_line_closed today :
  open_box ("  - Completed on: " +:+ today) = false.
Proof. apply closed_not_open. reflexivity. Qed.

Lemma space_is_not_dash c : PyStr.isspace c = true -> Ascii.eqb "-" c = false.
Proof.
  intros H. destruct (Ascii.eqb "-" c) eqn:E; [|reflexivity].
  apply Ascii.eqb_eq in E. subst c. discriminate.
Qed.

(** Replacing the open box closes the line. *)
Lemma replace_closes line :
  PyStr.startswith "- [ ]" (PyStr.lstrip line) = true ->
  PyStr.startswith "- [x]" (PyStr.lstrip (PyStr.replace line "- [ ]" "- [x]")) = true.
Proof.
  unfold PyStr.replace. induction line as [|c line IH]; [discriminate|].
  cbn [PyStr.lstrip]. destruct (PyStr.isspace c) eqn:Hc.
  - intros H. cbn [PyStr.replace_aux PyStr.startswith].
    rewrite (space_is_not_dash c Hc). cbn [PyStr.lstrip]. rewrite Hc. now apply IH.
  - intros H. cbn [PyStr.replace_aux]. rewrite H. reflexivity.
Qed.

Lemma replaced_box_closed line :
  open_box line = true -> open_box (PyStr.replace line "- [ ]" "- [x]") = false.
Proof.
  intros H. apply closed_not_open.
  pose proof (replace_closes line (open_box_lstrip line H)) as Hx.
  apply startswith_split in Hx. rewrite Hx. reflexivity.
Qed.

(** *** Lines without a line break *)

Lemma lines_parts_clean (s : string) :
  Forall (fun l => has_char PyStr.newline l = false) (PyStr.lines s).
Proof.
  induction s as [|c s IH]; [repeat constructor|].
  destruct (Ascii.eqb c PyStr.newline) eqn:E.
  - apply Ascii.eqb_eq in E. subst c. rewrite lines_cons_nl. now constructor.
  - rewrite (lines_cons_other _ _ E).
    destruct (PyStr.lines s) as [|l ls]; [repeat constructor; cbn; now rewrite E|].
    apply Forall_cons in IH as [Hl Hls]. constructor; [|exact Hls].
    cbn [has_char]. now rewrite E, Hl.
Qed.

Lemma lines_single (s : string) :
  has_char PyStr.newline s = false -> PyStr.lines s = [s].
Proof.
  induction s as [|c s IH]; intros H; [reflexivity|].
  cbn [has_char] in H. apply orb_false_elim in H as [Hc Hs].
  rewrite (lines_cons_other _ _ Hc), (IH Hs). reflexivity.
Qed.

Lemma replace_aux_clean c old new :
  has_char c new = false ->
  forall s skip, has_char c s = false ->
                 has_char c (PyStr.replace_aux old new skip s) = false.
Proof.
  intros Hnew. induction s as [|x s IH]; intros skip Hs; [reflexivity|].
  cbn [has_char] in Hs. apply orb_false_elim in Hs as [Hx Hs].
  cbn [PyStr.replace_aux]. destruct skip; [|now apply IH].
  destruct (PyStr.startswith old (String x s)).
  - rewrite has_char_app, Hnew. now apply IH.
  - cbn [has_char]. rewrite Hx. now apply IH.
Qed.

(** *** Counting open boxes through the rewrite *)

Lemma clean_counts_as_line e :
  has_char PyStr.newline e = false -> counts_as_line e.
Proof. intros H. unfold counts_as_line. now rewrite (lines_single e H). Qed.

Lemma lines_join p q ps :
  PyStr.lines (PyStr.join PyStr.nl (p :: q :: ps))
  = PyStr.lines p ++ PyStr.lines (PyStr.join PyStr.nl (q :: ps)).
Proof. cbn [PyStr.join]. apply lines_app_nl. Qed.

Lemma count_open_join ls :
  Forall counts_as_line ls ->
  count_open (PyStr.lines (PyStr.join PyStr.nl ls)) = count_open ls.
Proof.
  induction ls as [|p ls IH]; intros H; [reflexivity|].
  apply Forall_cons in H as [Hp Hls].
  destruct ls as [|q ps]; [exact Hp|].
  rewrite lines_join, count_open_app, (IH Hls).
  unfold counts_as_line in Hp. rewrite Hp.
  change (p :: q :: ps) with ([p] ++ q :: ps). now rewrite count_open_app.
Qed.

Lemma block_of_prefix ls :
  ls = block_of ls ++ drop (length (block_of ls)) ls.
Proof.
  induction ls as [|l ls IH]; [reflexivity|].
  cbn [block_of]. destruct (movable l); [|reflexivity].
  cbn [length drop app]. now rewrite <- IH.
Qed.

Lemma block_of_forall (P : string -> Prop) ls :
  Forall P ls -> Forall P (block_of ls).
Proof.
  induction 1 as [|l ls Hl Hls IH]; [constructor|].
  cbn [block_of]. destruct (movable l); [now constructor | constructor].
Qed.

Lemma heading_element_counts : counts_as_line (PyStr.nl +:+ "## Completed Tasks").
Proof. reflexivity. Qed.

Lemma count_open_take_drop n ls :
  (count_open (take n ls) + count_open (drop n ls) = count_open ls)%nat.
Proof. rewrite <- count_open_app. now rewrite take_drop. Qed.

Lemma count_open_block ls :
  (count_open (block_of ls) + count_open (drop (length (block_of ls)) ls)
   = count_open ls)%nat.
Proof. rewrite <- count_open_app. now rewrite <- block_of_prefix. Qed.

(** The surgery of [complete_task] closes exactly one box and moves lines
    around without opening or closing any other. *)
Lemma move_to_completed_count today idx lines line :
  lines !! idx = Some line ->
  open_box line = true ->
  S (count_open (move_to_completed today idx lines)) = count_open lines.
Proof.
  intros Hidx Hopen. unfold move_to_completed. rewrite Hidx.
  set (closed := PyStr.replace line "- [ ]" "- [x]").
  set (stamp := "  - Completed on: " +:+ today).
  assert (Hlt : (idx < length lines)%nat) by (eapply lookup_lt_Some; eassumption).
  set (lines1 := <[idx := closed]> lines).
  assert (H1 : S (count_open lines1) = count_open lines).
  { unfold lines1. rewrite (insert_take_drop _ _ _ Hlt).
    pose proof (take_drop_middle lines idx line Hidx) as Hmid.
    apply (f_equal count_open) in Hmid.
    rewrite count_open_app, count_open_cons, Hopen in Hmid.
    rewrite count_open_app, count_open_cons.
    unfold closed. rewrite (replaced_box_closed line Hopen). lia. }
  set (lines2 := list_insert (S idx) stamp lines1).
  assert (H2 : count_open lines2 = count_open lines1).
  { unfold lines2, list_insert.
    pose proof (count_open_take_drop (S idx) lines1) as Htd.
    rewrite count_open_app, count_open_cons.
    unfold stamp. rewrite completion_line_closed. lia. }
  set (block := block_of (drop idx lines2)).
  set (lines3 := take idx lines2 ++ drop (idx + length block) lines2).
  assert (H3 : (count_open lines3 + count_open block = count_open lines2)%nat).
  { unfold lines3. rewrite count_open_app.
    pose proof (count_open_take_drop idx lines2) as Htd.
    pose proof (count_open_block (drop idx lines2)) as Hb.
    fold block in Hb. rewrite drop_drop in Hb. lia. }
  assert (H5 : forall lines4 completed_idx,
             count_open lines4 = count_open lines3 ->
             S (count_open (take completed_idx lines4 ++ block
                              ++ drop completed_idx lines4))
             = count_open lines).
  { intros lines4 ci H4. rewrite !count_open_app.
    pose proof (count_open_take_drop ci lines4) as Htd. lia. }
  destruct (heading_index lines3 0) as [i|].
  - now apply H5.
  - apply H5. rewrite count_open_app, count_open_cons.
    change (open_box (PyStr.nl +:+ "## Completed Tasks")) with false. cbn. lia.
Qed.

Lemma list_insert_forall (P : string -> Prop) i x ls :
  P x -> Forall P ls -> Forall P (list_insert i x ls).
Proof.
  intros Hx Hls. unfold list_insert. apply Forall_app. split.
  - now apply Forall_take.
  - constructor; [exact Hx | now apply Forall_drop].
Qed.

Lemma move_to_completed_forall (P : string -> Prop) today idx lines line :
  lines !! idx = Some line ->
  Forall P lines ->
  P (PyStr.replace line "- [ ]" "- [x]") ->
  P ("  - Completed on: " +:+ today) ->
  P (PyStr.nl +:+ "## Completed Tasks") ->
  Forall P (move_to_completed today idx lines).
Proof.
  intros Hidx Hall Hclosed Hstamp Hheading. unfold move_to_completed. rewrite Hidx.
  set (lines2 := list_insert (S idx) _ (<[idx := _]> lines)).
  assert (H2 : Forall P lines2).
  { apply list_insert_forall; [exact Hstamp|]. now apply Forall_insert. }
  set (block := block_of (drop idx lines2)).
  assert (Hb : Forall P block) by (apply block_of_forall; now apply Forall_drop).
  set (lines3 := take idx lines2 ++ drop (idx + length block) lines2).
  assert (H3 : Forall P lines3).
  { apply Forall_app. split; [now apply Forall_take | now apply Forall_drop]. }
  assert (H5 : forall lines4 ci, Forall P lines4 ->
                                 Forall P (take ci lines4 ++ block ++ drop ci lines4)).
  { intros lines4 ci H4. apply Forall_app. split; [now apply Forall_take|].
    apply Forall_app. split; [exact Hb | now apply Forall_drop]. }
  destruct (heading_index lines3 0) as [i|]; apply H5; [exact H3|].
  apply Forall_app. split; [exact H3 | now repeat constructor].
Qed.

(** What [complete_task] leaves when the index names an open box. *)
Lemma complete_task_run today agent_name task_index d content :
  files d !! _get_task_file agent_name = Some content ->
  0 <= task_index < Z.of_nat (open_count content) ->
  exists idx description line,
    find_task (PyStr.lines content) 0 0 task_index = Some (idx, description)
    /\ PyStr.lines content !! idx = Some line
    /\ open_box line = true
    /\ match complete_task today agent_name task_index d with
       | (Return _, d') =>
           files d'
           = <[_get_task_file agent_name :=
                 PyStr.join PyStr.nl
                   (move_to_completed today idx (PyStr.lines content))]> (files d)
       | (Raise _ _, _) => fail_after d <> None
       end.
Proof.
  intros Hfile Hrange.
  destruct (find_task (PyStr.lines content) 0 0 task_index) as [[idx description]|]
    eqn:Hfind.
  2:{ apply find_task_none in Hfind. unfold open_count in Hrange.
      fold (count_open (PyStr.lines content)) in Hrange. lia. }
  destruct (find_task_some _ _ _ _ _ _ Hfind) as (line & _ & Hline & Hopen).
  rewrite Nat.sub_0_r in Hline.
  exists idx, description, line. split; [reflexivity|].
  split; [exact Hline|]. split; [exact Hopen|].
  unfold complete_task, bind at 1, file_exists.
  rewrite bool_decide_eq_true_2 by eauto. cbn [negb].
  unfold bind at 1. rewrite (read_text_found _ _ _ Hfile), Hfind.
  unfold bind.
  match goal with
  | |- context [write_text ?f ?t d] =>
      pose proof (write_text_spec f t d) as Hw;
      destruct (write_text f t d) as [[[]|cls msg] d1]
  end; [|now destruct Hw].
  destruct Hw as [Hf _]. cbn [ret]. exact Hf.
Qed.

End CloseFacts.

(** X11: when the index names an open checkbox line of the agent's ledger
    file (counted from 0 over the whole file) and no write fails,
    [complete_task] returns, and the file it leaves has exactly one open
    checkbox less; every other ledger file is as before. *)
Theorem complete_task_closes_one :
  forall (d : Ledger.Dir) (today agent_name content : string) (task_index : Z),
    Ledger.files d !! Ledger._get_task_file agent_name = Some content ->
    has_char PyStr.newline today = false ->
    0 <= task_index < Z.of_nat (Ledger.open_count content) ->
    let r := Ledger.complete_task today agent_name task_index d in
    (Ledger.fail_after d = None -> is_return (fst r) = true)
    /\ (is_return (fst r) = true ->
        exists content',
          Ledger.files (snd r) !! Ledger._get_task_file agent_name = Some content'
          /\ S (Ledger.open_count content') = Ledger.open_count content
          /\ forall f, f <> Ledger._get_task_file agent_name ->
                       Ledger.files (snd r) !! f = Ledger.files d !! f).
Proof.
  intros d today agent_name content task_index Hfile Htoday Hrange. cbn zeta.
  destruct (complete_task_run today agent_name task_index d content Hfile Hrange)
    as (idx & description & line & Hfind & Hline & Hopen & Hrun).
  destruct (Ledger.complete_task today agent_name task_index d) as [[r | cls msg] d'].
  - split; [reflexivity|]. intros _. cbn [snd]. rewrite Hrun.
    eexists. split; [apply lookup_insert_eq|]. split.
    + unfold Ledger.open_count. fold (count_open (PyStr.lines content)).
      match goal with
      | |- S (length (filter _ (PyStr.lines (PyStr.join _ ?ls)))) = _ =>
          fold (count_open (PyStr.lines (PyStr.join PyStr.nl ls)))
      end.
      rewrite count_open_join.
      * now apply (move_to_completed_count today idx _ line).
      * pose proof (lines_parts_clean content) as Hclean.
        apply (move_to_completed_forall _ today idx _ line Hline).
        -- eapply Forall_impl; [exact Hclean|]. intros e. apply clean_counts_as_line.
        -- apply clean_counts_as_line. apply replace_aux_clean; [reflexivity|].
           rewrite Forall_forall in Hclean. apply Hclean.
           eapply list_elem_of_lookup_2. exact Hline.
        -- apply clean_counts_as_line. rewrite has_char_app, Htoday. reflexivity.
        -- apply heading_element_counts.
    + intros f Hne. now apply lookup_insert_ne.
  - split; [intros Hn; contradiction | discriminate].
Qed.

Lemma complete_task_closes_one_witness :
  let r := Ledger.complete_task "2025-01-16" "Hillel" 0 hillel_dir in
  (Ledger.fail_after hillel_dir = None -> is_return (fst r) = true)
  /\ (is_return (fst r) = true ->
      exists content',
        Ledger.files (snd r) !! Ledger._get_task_file "Hillel" = Some content'
        /\ S (Ledger.open_count content') = Ledger.open_count hillel_text
        /\ forall f, f <> Ledger._get_task_file "Hillel" ->
                     Ledger.files (snd r) !! f = Ledger.files hillel_dir !! f).
Proof.
  apply (complete_task_closes_one hillel_dir "2025-01-16" "Hillel" hillel_text 0).
  - vm_compute. reflexivity.
  - reflexivity.
  - vm_compute. split; [discriminate | reflexivity].
Defined.

(** ** The staff auditor's trail *)

Section TrailFacts.

Import Team.

Lemma extends_log (self : StaffAuditorAgent) now t d r m :
  extends self (with_staff self (log (staff self) now t d r m)) 1 1.
Proof.
  split; [reflexivity|]. split; [reflexivity|].
  eexists. split; [reflexivity|]. split; [cbn; lia|]. now repeat constructor.
Qed.

Lemma extends_log2 (self : StaffAuditorAgent) now t d r m now' t' d' r' m' :
  extends self
    (with_staff self (log (log (staff self) now t d r m) now' t' d' r' m')) 2 2.
Proof.
  split; [reflexivity|]. split; [reflexivity|].
  eexists. split; [cbn; rewrite <- app_assoc; reflexivity|].
  split; [cbn; lia|]. now repeat constructor.
Qed.

Lemma extends_weaken self self' lo hi lo' hi' :
  (lo' <= lo)%nat -> (hi <= hi')%nat ->
  extends self self' lo hi -> extends self self' lo' hi'.
Proof.
  intros Hlo Hhi (Hn & Hs & added & Ht & Hlen & Hall).
  split; [exact Hn|]. split; [exact Hs|].
  exists added. split; [exact Ht|]. split; [lia | exact Hall].
Qed.

Lemma extends_trans a b c lo hi lo' hi' :
  extends a b lo hi -> extends b c lo' hi' ->
  extends a c (lo + lo') (hi + hi').
Proof.
  intros (Hn & Hs & added & Ht & Hlen & Hall) (Hn' & Hs' & added' & Ht' & Hlen' & Hall').
  split; [congruence|]. split; [congruence|].
  exists (added ++ added'). split; [rewrite Ht', Ht; now rewrite app_assoc|].
  split; [rewrite length_app; lia|].
  apply Forall_app. split; [exact Hall|].
  eapply Forall_impl; [exact Hall'|]. intros e He. congruence.
Qed.

Lemma staff_after_extends self call : extends self (staff_after self call) 1 2.
Proof.
  destruct call as [now [task approved | service has | procedure has approved]];
    cbn [staff_after].
  - unfold receive_assignment. destruct approved; cbn [negb snd];
      (eapply extends_weaken; [| |apply extends_log]; lia).
  - unfold collect_evidence. destruct has; cbn [negb snd].
    + eapply extends_weaken; [| |apply extends_log2]; lia.
    + eapply extends_weaken; [| |apply extends_log]; lia.
  - unfold execute_test. destruct approved; cbn [negb snd].
    + destruct has; cbn [negb snd].
      * eapply extends_weaken; [| |apply extends_log2]; lia.
      * eapply extends_weaken; [| |apply extends_log]; lia.
    + eapply extends_weaken; [| |apply extends_log]; lia.
Qed.

Lemma staff_after_all_extends calls :
  forall self,
    extends self (staff_after_all self calls) (length calls) (2 * length calls).
Proof.
  induction calls as [|call calls IH]; intros self.
  - split; [reflexivity|]. split; [reflexivity|].
    exists []. split; [now rewrite app_nil_r|]. split; [cbn; lia | constructor].
  - unfold staff_after_all. cbn [fold_left length].
    eapply extends_weaken;
      [| |exact (extends_trans _ _ _ _ _ _ _ (staff_after_extends self call)
                   (IH (staff_after self call)))]; lia.
Qed.

End TrailFacts.

(** X13: the audit trail of a staff auditor is append-only.  After any
    calls of [receive_assignment], [collect_evidence] and [execute_test],
    accepted or blocked, the trail is the old trail followed by new entries:
    at least one and at most two for each call, every one under the
    auditor's own name; the auditor's name and senior stay as they were. *)
Theorem staff_trail_only_grows :
  forall (self : Team.StaffAuditorAgent) (calls : list (Time * staff_call)),
    let self' := staff_after_all self calls in
    Team.name (Team.staff self') = Team.name (Team.staff self)
    /\ Team.senior_auditor self' = Team.senior_auditor self
    /\ exists added,
        Team.audit_trail (Team.staff self')
        = Team.audit_trail (Team.staff self) ++ added
        /\ (length calls <= length added <= 2 * length calls)%nat
        /\ Forall (fun e => Team.agent_id e = Team.name (Team.staff self)) added.
Proof. intros self calls. apply staff_after_all_extends. Qed.

(** X14: [execute_test] runs the test only with an approved plan and with
    evidence.  The result is flagged blocked exactly when one of the two is
    missing; a blocked call logs one [test_execution_blocked] entry and
    nothing else, a test that runs logs [execute_test] and [test_complete];
    when both are missing the reason given is the plan's. *)
Theorem execute_test_guard :
  forall (self : Team.StaffAuditorAgent) (now : Time)
         (procedure : Team.TestProcedure) (has_evidence audit_plan_approved : bool),
    let r := Team.execute_test self now procedure has_evidence audit_plan_approved in
    Py.get "blocked" (fst r)
    = Some (Py.VBool (negb (audit_plan_approved && has_evidence)))
    /\ added_types (Team.staff self) (Team.staff (snd r))
       = (if audit_plan_approved && has_evidence
          then ["execute_test"; "test_complete"]
          else ["test_execution_blocked"])
    /\ Py.get "reason" (fst r)
       = (if negb audit_plan_approved then Some (Py.VStr "Audit plan not approved")
          else if negb has_evidence then Some (Py.VStr "No evidence collected")
          else None).
Proof.
  intros self now procedure has_evidence audit_plan_approved. cbn zeta.
  unfold added_types, Team.logged, Team.execute_test.
  destruct audit_plan_approved, has_evidence; cbn [negb andb fst snd];
    (split; [reflexivity|]); (split; [|reflexivity]);
    cbn [Team.with_staff Team.staff Team.log Team.log_action snd Team.audit_trail];
    rewrite ?map_app, <- ?app_assoc, <- (length_map Team.action_type), drop_app_length;
    reflexivity.
Qed.

(** ** The cost ledger over many calls *)

Section LedgerOfCosts.

Import LLM.

Lemma wait_keeps_budget (r : RateLimiter) now :
  max_calls (snd (wait_if_needed r now)) = max_calls r.
Proof.
  unfold wait_if_needed.
  destruct (_ >=? _); [destruct (filter _ _)|]; reflexivity.
Qed.

Lemma chat_keeps_provider self now answer :
  provider (snd (chat self now answer)) = provider self
  /\ max_calls (rate_limiter (snd (chat self now answer)))
     = max_calls (rate_limiter self).
Proof.
  pose proof (wait_keeps_budget (rate_limiter self) now) as Hb.
  unfold chat. cbn [provider with_limiter].
  destruct (fst (wait_if_needed (rate_limiter self) now));
    [|split; [reflexivity | exact Hb]].
  destruct (provider self) eqn:E, answer; cbn; rewrite ?E; split;
    solve [reflexivity | exact Hb].
Qed.

Lemma chat_step self now answer :
  provider self <> Ollama ->
  let t := cost_tracker self in
  let t' := cost_tracker (snd (chat self now answer)) in
  match fst (chat self now answer) with
  | Return r =>
      call_count t' = call_count t + 1
      /\ total_tokens t' = total_tokens t + tokens_used r
      /\ total_cost t' = (total_cost t + cost r)%Q
      /\ map call_tokens (calls t') = map call_tokens (calls t) ++ [tokens_used r]
  | Raise _ _ => t' = t
  end.
Proof.
  intros Hp. unfold chat. cbn [provider with_limiter].
  destruct (fst (wait_if_needed (rate_limiter self) now)); [|reflexivity].
  destruct (provider self); [| |congruence];
    destruct answer as [text rep i o tot | cls msg]; cbn;
    rewrite ?map_app; repeat split.
Qed.

End LedgerOfCosts.

(** X15: on a client of OpenAI or Anthropic the cost ledger agrees with the
    responses handed out.  After any chat calls, failed ones among them,
    the number of recorded calls has grown by the number of responses
    returned, the token total by the sum of their [tokens_used], the cost
    total by their costs added in order, and the recorded token counts are
    theirs.  The limiter allows at least one call a minute. *)
Theorem ledger_matches_responses :
  forall (self : LLM.LLMClient) (calls : list (Q * LLM.sdk_answer)),
    LLM.provider self <> LLM.Ollama ->
    0 < LLM.max_calls (LLM.rate_limiter self) ->
    let responses := fst (chat_all self calls) in
    let t := LLM.cost_tracker self in
    let t' := LLM.cost_tracker (snd (chat_all self calls)) in
    LLM.call_count t' = LLM.call_count t + Z.of_nat (length responses)
    /\ LLM.total_tokens t'
       = LLM.total_tokens t + foldr Z.add 0 (map LLM.tokens_used responses)
    /\ LLM.total_cost t'
       = fold_left Qplus (map LLM.cost responses) (LLM.total_cost t)
    /\ map LLM.call_tokens (LLM.calls t')
       = map LLM.call_tokens (LLM.calls t) ++ map LLM.tokens_used responses.
Proof.
  intros self calls. revert self.
  induction calls as [|[now answer] calls IH]; intros self Hp Hmax; cbn zeta.
  - cbn. rewrite app_nil_r. repeat split; lia.
  - cbn [chat_all].
    pose proof (chat_step self now answer Hp) as Hstep. cbn zeta in Hstep.
    destruct (chat_keeps_provider self now answer) as [Hp1 Hmax1].
    destruct (LLM.chat self now answer) as [out self1]. cbn [fst snd] in *.
    assert (Hp' : LLM.provider self1 <> LLM.Ollama) by congruence.
    assert (Hmax' : 0 < LLM.max_calls (LLM.rate_limiter self1)) by lia.
    specialize (IH self1 Hp' Hmax'). cbn zeta in IH.
    destruct (chat_all self1 calls) as [responses self2]. cbn [fst snd] in *.
    destruct IH as (Hc & Ht & Hq & Hl).
    destruct out as [r | cls msg].
    + destruct Hstep as (Hc1 & Ht1 & Hq1 & Hl1).
      cbn [length map foldr fold_left].
      rewrite Hc, Ht, Hq, Hl, Hc1, Ht1, Hq1, Hl1, <- app_assoc.
      repeat split; lia.
    + rewrite Hstep in *. repeat split; assumption.
Qed.

Lemma ledger_matches_responses_witness :
  let responses := fst (chat_all paid_client three_calls) in
  let t := LLM.cost_tracker paid_client in
  let t' := LLM.cost_tracker (snd (chat_all paid_client three_calls)) in
  LLM.call_count t' = LLM.call_count t + Z.of_nat (length responses)
  /\ LLM.total_tokens t'
     = LLM.total_tokens t + foldr Z.add 0 (map LLM.tokens_used responses)
  /\ LLM.total_cost t'
     = fold_left Qplus (map LLM.cost responses) (LLM.total_cost t)
  /\ map LLM.call_tokens (LLM.calls t')
     = map LLM.call_tokens (LLM.calls t) ++ map LLM.tokens_used responses.
Proof.
  apply (ledger_matches_responses paid_client three_calls).
  - discriminate.
  - reflexivity.
Defined.
